(** * extract_bbmodel_1214: a Blockbench document to one vanilla model document

    A shallow embedding of [scripts/extract_bbmodel_1214.py] and the
    properties of its texture resolver, geometry converter, model assembler
    and output planner.

    Python values are modelled as they are at run time: [int] is [Z],
    [float] is the kernel's binary64 [float], [str] is the [string] of its
    UTF-8 bytes, a parsed JSON document is the inductive [json], and
    [fail(...)] (which raises [SystemExit]) is the [Err] branch of
    [result].  What the script takes from the Python library and the
    operating system (base64, pathlib, the file system, [int(str)],
    [float(str)], [str(object)], the Unicode case tables) is bundled in
    the class [Host]. *)

From Stdlib Require Import ZArith List String Ascii Bool Lia.
From Stdlib Require Import Floats.
From stdpp Require Import base option list sets gmap strings pretty.

Set Warnings "-register-all".

Open Scope string_scope.
Open Scope Z_scope.

(** ** Parsed JSON, as [json.loads] returns it *)

(** A JSON object is kept as the list of its members in document order;
    [json.loads] keeps one value per key, so keys of a parsed object are
    pairwise distinct. *)
Inductive json : Type :=
| JNull
| JBool (b : bool)
| JInt (z : Z)
| JFloat (f : float)
| JStr (s : string)
| JArr (items : list json)
| JObj (members : list (string * json)).

(** [d.get(key, default)] on the members of a dict. *)
Fixpoint dict_get_default (key : string) (default : json)
    (members : list (string * json)) : json :=
  match members with
  | [] => default
  | (k, v) :: rest =>
      if String.eqb k key then v else dict_get_default key default rest
  end.

(** [d.get(key)]: the default is [None], which is JSON's [null]. *)
Definition dict_get (key : string) (members : list (string * json)) : json :=
  dict_get_default key JNull members.

(** Python truthiness, as [x or y], [bool(x)] and [if x] use it. *)
Definition truthy (v : json) : bool :=
  match v with
  | JNull => false
  | JBool b => b
  | JInt z => negb (z =? 0)
  | JFloat f => negb (PrimFloat.eqb f 0%float)
  | JStr s => negb (String.eqb s "")
  | JArr l => match l with [] => false | _ => true end
  | JObj m => match m with [] => false | _ => true end
  end.

Definition is_dict (v : json) : bool :=
  match v with JObj _ => true | _ => false end.

(** ** Failures *)

(** One constructor per [fail(...)] call of the script, carrying what the
    message interpolates.  [Uncaught] stands for an exception the script
    does not catch (the run ends with a traceback), [Diverged] for a loop
    that does not end. *)
Inductive error : Type :=
| BadVector (elem_name label : string) (arity : nat)
| NonNumericVector (elem_name label : string)
| MalformedDataUrl (idx : Z)
| InvalidBase64 (idx : Z)
| ExternalSourceMissing (idx : Z) (external : string)
| ExternalPathMissing (idx : Z) (external : string)
| NoTextureSource (idx : Z)
| TexturesNotArray
| TextureNotObject (idx : Z)
| NonNumericTextureRef (elem_name face_name raw : string)
| InvalidTextureRef (elem_name face_name : string)
| RotationObjectIncomplete (elem_name : string)
| MultiAxisRotation (elem_name : string) (vec : list float)
| UnsupportedRotationFormat (elem_name : string)
| ElementsNotArray
| ElementNotObject (idx : Z)
| FacesNotObject (elem_name : string)
| MissingTextureIndex (elem_name face_name tex_index : string)
| NoVisibleElements
| DestinationExists (message : string)
| Uncaught (exception : string)
| Diverged.

Inductive result (A : Type) : Type :=
| Ok (a : A)
| Err (e : error).
Arguments Ok {A} a.
Arguments Err {A} e.

Definition bind {A B} (r : result A) (k : A -> result B) : result B :=
  match r with
  | Ok a => k a
  | Err e => Err e
  end.

Declare Scope result_scope.
Delimit Scope result_scope with result.
Notation "'let*' x ':=' r 'in' k" := (bind r (fun x => k))
  (at level 10, x pattern, r at level 100, k at level 200) : result_scope.
Open Scope result_scope.

(** ** Python numbers *)

(** [float(n)] for an [int]: the nearest double, ties to even;
    [OverflowError] when the magnitude is beyond the doubles. *)
Definition float_of_int (n : Z) : result float :=
  match binary_normalize prec emax n 0 false with
  | S754_infinity _ => Err (Uncaught "OverflowError")
  | sf => Ok (SF2Prim sf)
  end.

Definition Z2SF (n : Z) : spec_float :=
  match n with
  | Z0 => S754_zero false
  | Zpos p => S754_finite false p 0
  | Zneg p => S754_finite true p 0
  end.

(** [a / b] on two [int]s: the correctly rounded quotient of the exact
    rational; [ZeroDivisionError] on [b = 0] and [OverflowError] when the
    quotient is beyond the doubles. *)
Definition int_truediv (a b : Z) : result float :=
  if b =? 0 then Err (Uncaught "ZeroDivisionError")
  else
    match SFdiv prec emax (Z2SF a) (Z2SF b) with
    | S754_infinity _ => Err (Uncaught "OverflowError")
    | sf => Ok (SF2Prim sf)
    end.

(** [x / y] on two [float]s: IEEE division, except that Python raises
    [ZeroDivisionError] on a zero divisor. *)
Definition float_truediv (x y : float) : result float :=
  if PrimFloat.eqb y 0%float then Err (Uncaught "ZeroDivisionError")
  else Ok (PrimFloat.div x y).

(** [f.is_integer()]. *)
Definition float_is_integer (f : float) : bool :=
  match Prim2SF f with
  | S754_zero _ => true
  | S754_finite _ m e =>
      if 0 <=? e then true else (Zpos m) mod (2 ^ (- e)) =? 0
  | _ => false
  end.

(** [int(f)] for a finite [f]: truncation towards zero. *)
Definition int_of_float (f : float) : Z :=
  match Prim2SF f with
  | S754_finite s m e =>
      let a := if 0 <=? e then Zpos m * 2 ^ e else Zpos m / 2 ^ (- e) in
      if s then - a else a
  | _ => 0
  end.

(** A Python value that passes [isinstance(v, int)]: [bool] is a subclass
    of [int], so [True] and [False] are among them. *)
Inductive pyint : Type :=
| PBool (b : bool)
| PInt (z : Z).

(** The number an [int] instance stands for in comparisons, hashing and
    arithmetic: [True == 1] and [False == 0]. *)
Definition pyint_value (v : pyint) : Z :=
  match v with
  | PBool b => if b then 1 else 0
  | PInt z => z
  end.

(** [str(v)] and [f"{v}"] of an [int] instance. *)
Definition pyint_str (v : pyint) : string :=
  match v with
  | PBool b => if b then "True" else "False"
  | PInt z => pretty z
  end.

(** ** The Python library and the operating system *)

Definition bytes := list Byte.byte.

Class Host : Type := {
  (** [base64.b64decode(payload, validate=False)]; [None] when it raises
      [binascii.Error] or [ValueError]. *)
  b64decode : string -> option bytes;
  (** [Path(p).is_absolute()]. *)
  path_is_absolute : string -> bool;
  (** [base / p] of pathlib. *)
  path_div : string -> string -> string;
  (** [p.is_file()], [p.exists()] and [p.read_bytes()] at the time the
      script starts. *)
  path_is_file : string -> bool;
  path_exists : string -> bool;
  read_bytes : string -> bytes;
  (** [Path(raw).stem]. *)
  path_stem : string -> string;
  (** [str(v)] for a value that is not a [str]. *)
  py_repr : json -> string;
  (** [int(s)] for a [str]; [None] when it raises [ValueError]. *)
  int_of_str : string -> option Z;
  (** [float(s)] for a [str]; [None] when it raises [ValueError]. *)
  float_of_str : string -> option float;
  (** The code points of [chr(cp).lower()] for a code point [cp] outside
      ASCII.  ([str.lower()] lowers each code point on its own, but for
      the capital sigma, which it lowers to one of two small sigmas by its
      context.) *)
  lower_code_point : N -> list N
}.

(** [str(v)]. *)
Definition py_str `{Host} (v : json) : string :=
  match v with
  | JStr s => s
  | _ => py_repr v
  end.

(** The outcome of [float(v)] inside a [try] that catches [TypeError] and
    [ValueError]: a float, a caught exception, or an uncaught
    [OverflowError]. *)
Inductive float_conv : Type :=
| FloatIs (f : float)
| FloatCaught
| FloatOverflow.

Definition py_float `{Host} (v : json) : float_conv :=
  match v with
  | JBool b => FloatIs (if b then 1%float else 0%float)
  | JInt z =>
      match float_of_int z with
      | Ok f => FloatIs f
      | Err _ => FloatOverflow
      end
  | JFloat f => FloatIs f
  | JStr s =>
      match float_of_str s with
      | Some f => FloatIs f
      | None => FloatCaught
      end
  | JNull | JArr _ | JObj _ => FloatCaught
  end.

(** ** Names *)

Definition char_between (lo hi c : ascii) : bool :=
  ((N_of_ascii lo <=? N_of_ascii c) && (N_of_ascii c <=? N_of_ascii hi))%N.

(** [str.lower()] on one ASCII character. *)
Definition lower_char (c : ascii) : ascii :=
  if char_between "A" "Z" c then ascii_of_N (N_of_ascii c + 32) else c.

(** A character outside [PACK_NAME_PATTERN], which is [[^a-z0-9_.]]. *)
Definition pack_char (c : ascii) : bool :=
  char_between "a" "z" c || char_between "0" "9" c
  || Ascii.eqb c "_" || Ascii.eqb c ".".

(** A [str] is a sequence of code points, and [str.lower()] and [re.sub]
    work on code points; the [string] of a [str] holds its UTF-8 bytes.  A
    byte [10xxxxxx] continues the code point its predecessors began, any
    other byte begins one. *)
Definition is_continuation (b : N) : bool := ((128 <=? b) && (b <? 192))%N.

(** The payload of the first byte of a code point. *)
Definition lead_value (b : N) : N :=
  (if b <? 192 then b
   else if b <? 224 then b - 192
   else if b <? 240 then b - 224
   else b - 240)%N.

(** The code points of the rest of a [str], [current] being the value of
    the code point read so far. *)
Fixpoint code_points_from (current : N) (s : string) : list N :=
  match s with
  | EmptyString => [current]
  | String c rest =>
      let b := N_of_ascii c in
      if is_continuation b
      then code_points_from (current * 64 + (b - 128))%N rest
      else current :: code_points_from (lead_value b) rest
  end.

(** [[ord(ch) for ch in s]]. *)
Definition code_points (s : string) : list N :=
  match s with
  | EmptyString => []
  | String c rest => code_points_from (lead_value (N_of_ascii c)) rest
  end.

(** [chr(cp).lower()] as code points; no character lowers to nothing. *)
Definition lower_code_points `{Host} (cp : N) : list N :=
  if (cp <? 128)%N then [N_of_ascii (lower_char (ascii_of_N cp))]
  else
    match lower_code_point cp with
    | [] => [cp]
    | lowered => lowered
    end.

(** [PACK_NAME_PATTERN.sub("_", chr(cp))]. *)
Definition pack_code_point (cp : N) : ascii :=
  if (cp <? 128)%N && pack_char (ascii_of_N cp) then ascii_of_N cp
  else "_"%char.

(** [PACK_NAME_PATTERN.sub("_", raw.lower())].  Both small sigmas are
    outside the pattern's class, so the context [str.lower()] reads the
    capital sigma by does not show in the result. *)
Definition to_pack_name `{Host} (raw : string) : string :=
  string_of_list_ascii
    (map pack_code_point (flat_map lower_code_points (code_points raw))).

Definition VALID_FACES : list string :=
  ["north"; "east"; "south"; "west"; "up"; "down"].

(** ** Texture resolver *)

Record TexturePlan : Type := mkTexturePlan {
  index : Z;
  file_stem : string;
  rel_namespace_path : string;
  png_bytes : bytes;
  (** [{"animation": {"interpolate": b, "frametime": n}}] or [None]. *)
  mcmeta_json : option (bool * Z)
}.

Section TextureResolver.
Context `{Host}.

Definition read_positive_int (value : json) (default : Z) : Z :=
  match value with
  | JBool _ => default
  | JInt value => if 0 <? value then value else default
  | JFloat value =>
      if float_is_integer value then
        let parsed := int_of_float value in
        if 0 <? parsed then parsed else default
      else default
  | JStr value =>
      match int_of_str value with
      | Some parsed => if 0 <? parsed then parsed else default
      | None => default
      end
  | JNull | JArr _ | JObj _ => default
  end.

(** [source[source.find(",") + 1 :]], or [None] when [find] returns -1. *)
Fixpoint after_comma (source : string) : option string :=
  match source with
  | EmptyString => None
  | String c rest => if Ascii.eqb c "," then Some rest else after_comma rest
  end.

Definition nonempty (s : string) : bool := negb (String.eqb s "").

(** [Path(p)], joined to the document's directory unless absolute. *)
Definition resolve_external (bbmodel_dir p : string) : string :=
  if path_is_absolute p then p else path_div bbmodel_dir p.

(** [bbmodel_dir] is [bbmodel_path.parent]. *)
Definition decode_texture_source (texture : list (string * json))
    (bbmodel_dir : string) (idx : Z) : result bytes :=
  let from_path :=
    match dict_get "path" texture with
    | JStr path_value =>
        if nonempty path_value then
          let external := resolve_external bbmodel_dir path_value in
          if path_is_file external then Ok (read_bytes external)
          else Err (ExternalPathMissing idx external)
        else Err (NoTextureSource idx)
    | _ => Err (NoTextureSource idx)
    end in
  match dict_get "source" texture with
  | JStr source =>
      if nonempty source then
        if String.prefix "data:" source then
          match after_comma source with
          | None => Err (MalformedDataUrl idx)
          | Some payload =>
              match b64decode payload with
              | Some data => Ok data
              | None => Err (InvalidBase64 idx)
              end
          end
        else
          let external := resolve_external bbmodel_dir source in
          if path_is_file external then Ok (read_bytes external)
          else Err (ExternalSourceMissing idx external)
      else from_path
  | _ => from_path
  end.

(** Lines 191-198: the stem before de-duplication. *)
Definition texture_stem (texture : list (string * json)) (idx : Z)
    (model_name : string) (prefix_textures : bool) : string :=
  let fallback := "texture_" ++ pretty idx in
  let name := dict_get "name" texture in
  let raw_name := if truthy name then py_str name else fallback in
  let stem := path_stem raw_name in
  let stem := to_pack_name (if nonempty stem then stem else fallback) in
  let stem :=
    if prefix_textures then to_pack_name (model_name ++ "_" ++ stem)
    else stem in
  if nonempty stem then stem else fallback.

(** [f"{stem}_{suffix}"]. *)
Definition stem_candidate (stem : string) (suffix : Z) : string :=
  stem ++ "_" ++ pretty suffix.

(** The [while unique_stem in used_names] loop, one iteration per unit of
    fuel; [None] when the fuel runs out before the loop ends. *)
Fixpoint unique_stem_loop (fuel : nat) (used_names : gset string)
    (stem unique_stem : string) (suffix : Z) : option string :=
  match fuel with
  | O => None
  | S fuel =>
      if decide (unique_stem ∈ used_names) then
        unique_stem_loop fuel used_names stem
          (stem_candidate stem suffix) (suffix + 1)
      else Some unique_stem
  end.

(** Lines 199-203.  The loop tests pairwise distinct candidates against a
    finite set, so one more iteration than the set has members is enough
    (see [unique_stem_total]). *)
Definition unique_stem (used_names : gset string) (stem : string)
    : option string :=
  unique_stem_loop (S (size used_names)) used_names stem stem 2.

(** [(size / uv_size) if size > 0 else 0.0]. *)
Definition pixel_ratio (size uv_size : Z) : result float :=
  if 0 <? size then int_truediv size uv_size else Ok 0%float.

(** Lines 214-219. *)
Definition is_animated (width height uv_width uv_height : Z) : result bool :=
  if (0 <? uv_width) && (0 <? uv_height) then
    let* width_ratio := pixel_ratio width uv_width in
    let* height_ratio := pixel_ratio height uv_height in
    Ok (PrimFloat.ltb width_ratio height_ratio)
  else Ok ((0 <? width) && (width <? height)).

(** The body of the [for idx, texture in enumerate(raw_textures)] loop. *)
Definition texture_plan (texture : json) (idx : Z) (used_names : gset string)
    (bbmodel_dir namespace asset variant model_name : string)
    (prefix_textures : bool) : result TexturePlan :=
  match texture with
  | JObj texture =>
      let stem := texture_stem texture idx model_name prefix_textures in
      match unique_stem used_names stem with
      | None => Err Diverged
      | Some unique_stem =>
          let* data := decode_texture_source texture bbmodel_dir idx in
          let width := read_positive_int (dict_get "width" texture) 0 in
          let height := read_positive_int (dict_get "height" texture) 0 in
          let uv_width := read_positive_int (dict_get "uv_width" texture) 0 in
          let uv_height :=
            read_positive_int (dict_get "uv_height" texture) 0 in
          let frame_time :=
            read_positive_int (dict_get "frame_time" texture) 1 in
          let frame_interpolate :=
            truthy (dict_get "frame_interpolate" texture) in
          let* animated := is_animated width height uv_width uv_height in
          let mcmeta_json :=
            if animated then Some (frame_interpolate, frame_time)
            else None in
          Ok {| index := idx;
                file_stem := unique_stem;
                rel_namespace_path :=
                  namespace ++ ":item/" ++ asset ++ "/" ++ variant ++ "/"
                  ++ unique_stem;
                png_bytes := data;
                mcmeta_json := mcmeta_json |}
      end
  | _ => Err (TextureNotObject idx)
  end.

Fixpoint texture_plans_from (raw_textures : list json) (idx : Z)
    (used_names : gset string)
    (bbmodel_dir namespace asset variant model_name : string)
    (prefix_textures : bool) : result (list TexturePlan) :=
  match raw_textures with
  | [] => Ok []
  | texture :: rest =>
      let* plan :=
        texture_plan texture idx used_names bbmodel_dir namespace asset
          variant model_name prefix_textures in
      let* plans :=
        texture_plans_from rest (idx + 1) ({[ file_stem plan ]} ∪ used_names)
          bbmodel_dir namespace asset variant model_name prefix_textures in
      Ok (plan :: plans)
  end.

(** [bbmodel] holds the members of the document's top-level object. *)
Definition build_texture_plans (bbmodel : list (string * json))
    (bbmodel_dir namespace asset variant model_name : string)
    (prefix_textures : bool) : result (list TexturePlan) :=
  match dict_get "textures" bbmodel with
  | JArr raw_textures =>
      texture_plans_from raw_textures 0 ∅ bbmodel_dir namespace asset variant
        model_name prefix_textures
  | _ => Err TexturesNotArray
  end.

End TextureResolver.

(** ** Geometry converter *)

Record rotation_out : Type := mkRotation {
  rot_axis : string;
  rot_angle : float;
  rot_origin : list float;
  (** The key ["rescale"] is present (with value [True]). *)
  rot_rescale : bool
}.

Record face_out : Type := mkFace {
  face_uv : list float;
  face_texture : string;
  face_rotation : option float;
  face_tintindex : option pyint
}.

Record element_out : Type := mkElement {
  elem_from : list float;
  elem_to : list float;
  elem_rotation : option rotation_out;
  (** The key ["shade"] is present (with value [False]). *)
  elem_shade_false : bool;
  elem_light_emission : option pyint;
  (** The faces in insertion order, which is the order of [VALID_FACES]. *)
  elem_faces : list (string * face_out)
}.

Record model_json : Type := mkModel {
  textures : list (string * string);
  elements : list element_out;
  gui_light : option string;
  display : option json
}.

(** [1e-7] as a double. *)
Definition rotation_epsilon : float := 0x1.ad7f29abcaf48p-24%float.

Section GeometryConverter.
Context `{Host}.

(** [[float(value[0]), float(value[1]), ...]] inside the [try] of
    [ensure_list3] and [ensure_list4]: the first conversion that raises
    decides. *)
Fixpoint floats_of (items : list json) (label elem_name : string)
    : result (list float) :=
  match items with
  | [] => Ok []
  | v :: rest =>
      match py_float v with
      | FloatIs f =>
          let* fs := floats_of rest label elem_name in Ok (f :: fs)
      | FloatCaught => Err (NonNumericVector elem_name label)
      | FloatOverflow => Err (Uncaught "OverflowError")
      end
  end.

Definition ensure_list (n : nat) (value : json) (label elem_name : string)
    : result (list float) :=
  match value with
  | JArr items =>
      if (length items =? n)%nat then floats_of items label elem_name
      else Err (BadVector elem_name label n)
  | _ => Err (BadVector elem_name label n)
  end.

Definition ensure_list3 := ensure_list 3.
Definition ensure_list4 := ensure_list 4.

Definition uv_scale (resolution : Z) : result float :=
  let* r := float_of_int resolution in
  let scale := PrimFloat.div r 16%float in
  Ok (if PrimFloat.leb scale 0%float then 1%float else scale).

Definition convert_face_uv (raw_uv : list float)
    (model_resolution_width model_resolution_height : Z)
    : result (list float) :=
  let* scale_width := uv_scale model_resolution_width in
  let* scale_height := uv_scale model_resolution_height in
  match raw_uv with
  | [u0; v0; u1; v1] =>
      let* a := float_truediv u0 scale_width in
      let* b := float_truediv v0 scale_height in
      let* c := float_truediv u1 scale_width in
      let* d := float_truediv v1 scale_height in
      Ok [a; b; c; d]
  | _ => Err (Uncaught "IndexError")
  end.

Definition resolve_texture_index (raw : json) (elem_name face_name : string)
    : result pyint :=
  match raw with
  | JBool b => Ok (PBool b)
  | JInt z => Ok (PInt z)
  | JFloat f =>
      if float_is_integer f then Ok (PInt (int_of_float f))
      else Err (InvalidTextureRef elem_name face_name)
  | JStr s =>
      match int_of_str s with
      | Some z => Ok (PInt z)
      | None => Err (NonNumericTextureRef elem_name face_name s)
      end
  | JNull | JArr _ | JObj _ => Err (InvalidTextureRef elem_name face_name)
  end.

(** [axis in ("x", "y", "z")]. *)
Definition axis_name (axis : json) : option string :=
  match axis with
  | JStr a =>
      if String.eqb a "x" || String.eqb a "y" || String.eqb a "z"
      then Some a else None
  | _ => None
  end.

(** [float(angle)] under [isinstance(angle, (int, float))]; [None] when the
    test fails. *)
Definition number_value (v : json) : option (result float) :=
  match v with
  | JBool b => Some (Ok (if b then 1%float else 0%float))
  | JInt z => Some (float_of_int z)
  | JFloat f => Some (Ok f)
  | _ => None
  end.

(** [abs(value) > 1e-7]. *)
Definition axis_non_zero (value : float) : bool :=
  PrimFloat.ltb rotation_epsilon (PrimFloat.abs value).

(** [[(axis, value) for axis, value in zip(("x", "y", "z"), vec)
      if abs(value) > 1e-7]]. *)
Definition non_zero_axes (vec : list float) : list (string * float) :=
  List.filter (fun av => axis_non_zero (snd av))
    (List.combine ["x"; "y"; "z"] vec).

Definition is_true (v : json) : bool :=
  match v with JBool true => true | _ => false end.

Definition is_false (v : json) : bool :=
  match v with JBool false => true | _ => false end.

Definition convert_rotation (raw_rotation : json)
    (elem : list (string * json)) (elem_name : string)
    : result (option rotation_out) :=
  match raw_rotation with
  | JNull => Ok None
  | JObj rotation =>
      let axis := dict_get "axis" rotation in
      let angle := dict_get "angle" rotation in
      let origin := dict_get "origin" rotation in
      match axis_name axis, number_value angle with
      | Some axis, Some angle =>
          let* angle := angle in
          let* origin := ensure_list3 origin "rotation.origin" elem_name in
          Ok (Some {| rot_axis := axis;
                      rot_angle := angle;
                      rot_origin := origin;
                      rot_rescale := is_true (dict_get "rescale" rotation) |})
      | _, _ => Err (RotationObjectIncomplete elem_name)
      end
  | JArr _ =>
      let* vec := ensure_list3 raw_rotation "rotation" elem_name in
      match non_zero_axes vec with
      | [] => Ok None
      | [(axis, angle)] =>
          let* origin :=
            ensure_list3 (dict_get "origin" elem) "origin" elem_name in
          Ok (Some {| rot_axis := axis;
                      rot_angle := angle;
                      rot_origin := origin;
                      rot_rescale := false |})
      | _ :: _ :: _ => Err (MultiAxisRotation elem_name vec)
      end
  | JBool _ | JInt _ | JFloat _ | JStr _ =>
      Err (UnsupportedRotationFormat elem_name)
  end.

End GeometryConverter.

(** ** Model assembler *)

(** [d[key] = v] on a [dict] kept in insertion order. *)
Fixpoint dict_set {V : Type} (key : string) (v : V)
    (d : list (string * V)) : list (string * V) :=
  match d with
  | [] => [(key, v)]
  | (k, x) :: rest =>
      if String.eqb k key then (k, v) :: rest
      else (k, x) :: dict_set key v rest
  end.

(** [{str(plan.index): plan.rel_namespace_path for plan in texture_plans}],
    then the ["particle"] entry when there is a first plan. *)
Definition texture_object (texture_plans : list TexturePlan)
    : list (string * string) :=
  let table :=
    fold_left
      (fun d plan => dict_set (pretty (index plan)) (rel_namespace_path plan) d)
      texture_plans [] in
  match texture_plans with
  | [] => table
  | first :: _ => dict_set "particle" (rel_namespace_path first) table
  end.

(** [tex_index in texture_lookup], a [dict] keyed by [plan.index]. *)
Definition in_texture_lookup (tex_index : pyint)
    (texture_plans : list TexturePlan) : bool :=
  existsb (fun plan => index plan =? pyint_value tex_index) texture_plans.

(** [v] when [isinstance(v, int)] holds. *)
Definition as_pyint (v : json) : option pyint :=
  match v with
  | JBool b => Some (PBool b)
  | JInt z => Some (PInt z)
  | _ => None
  end.

Section ModelAssembler.
Context `{Host}.

(** Lines 369-394: one declared face. *)
Definition convert_face (raw_face : list (string * json))
    (elem_name face_name : string) (texture_plans : list TexturePlan)
    (model_resolution_width model_resolution_height : Z) : result face_out :=
  let* tex_index :=
    resolve_texture_index (dict_get "texture" raw_face) elem_name face_name in
  if in_texture_lookup tex_index texture_plans then
    let* raw_uv := ensure_list4 (dict_get "uv" raw_face) "face uv" elem_name in
    let* uv :=
      convert_face_uv raw_uv model_resolution_width model_resolution_height in
    let* rotation :=
      match number_value (dict_get "rotation" raw_face) with
      | Some r =>
          let* r := r in
          Ok (if PrimFloat.eqb r 0%float then None else Some r)
      | None => Ok None
      end in
    let tint :=
      match as_pyint (dict_get "tint" raw_face) with
      | Some t => if 0 <=? pyint_value t then Some t else None
      | None => None
      end in
    let tintindex :=
      match as_pyint (dict_get "tintindex" raw_face) with
      | Some t => if 0 <=? pyint_value t then Some t else tint
      | None => tint
      end in
    Ok {| face_uv := uv;
          face_texture := "#" ++ pyint_str tex_index;
          face_rotation := rotation;
          face_tintindex := tintindex |}
  else
    Err (MissingTextureIndex elem_name face_name (pyint_str tex_index)).

(** Lines 363-394: the [for face_name in VALID_FACES] loop. *)
Fixpoint convert_faces (face_names : list string)
    (raw_faces : list (string * json)) (elem_name : string)
    (texture_plans : list TexturePlan)
    (model_resolution_width model_resolution_height : Z)
    : result (list (string * face_out)) :=
  match face_names with
  | [] => Ok []
  | face_name :: rest =>
      match dict_get face_name raw_faces with
      | JObj raw_face =>
          let* face_obj :=
            convert_face raw_face elem_name face_name texture_plans
              model_resolution_width model_resolution_height in
          let* faces :=
            convert_faces rest raw_faces elem_name texture_plans
              model_resolution_width model_resolution_height in
          Ok ((face_name, face_obj) :: faces)
      | _ =>
          convert_faces rest raw_faces elem_name texture_plans
            model_resolution_width model_resolution_height
      end
  end.

(** [str(elem.get("name") or f"element_{idx}")]. *)
Definition element_name (idx : Z) (elem : list (string * json)) : string :=
  let name := dict_get "name" elem in
  if truthy name then py_str name else "element_" ++ pretty idx.

(** Lines 335-400: the body of the loop over the elements; [None] is a
    [continue]. *)
Definition convert_element (idx : Z) (elem : json)
    (texture_plans : list TexturePlan)
    (model_resolution_width model_resolution_height : Z)
    : result (option element_out) :=
  match elem with
  | JObj elem =>
      if is_false (dict_get_default "visibility" (JBool true) elem) then Ok None
      else
        let elem_name := element_name idx elem in
        let* from := ensure_list3 (dict_get "from" elem) "from" elem_name in
        let* to := ensure_list3 (dict_get "to" elem) "to" elem_name in
        let* rotation :=
          convert_rotation (dict_get "rotation" elem) elem elem_name in
        let light_emission :=
          match as_pyint (dict_get "light_emission" elem) with
          | Some n => if 0 <? pyint_value n then Some n else None
          | None => None
          end in
        match dict_get "faces" elem with
        | JObj raw_faces =>
            let* faces :=
              convert_faces VALID_FACES raw_faces elem_name texture_plans
                model_resolution_width model_resolution_height in
            match faces with
            | [] => Ok None
            | _ :: _ =>
                Ok (Some {| elem_from := from;
                            elem_to := to;
                            elem_rotation := rotation;
                            elem_shade_false :=
                              is_false (dict_get "shade" elem);
                            elem_light_emission := light_emission;
                            elem_faces := faces |})
            end
        | _ => Err (FacesNotObject elem_name)
        end
  | _ => Err (ElementNotObject idx)
  end.

(** Lines 333-400: the loop over [enumerate(elements)]. *)
Fixpoint convert_elements (elements : list json) (idx : Z)
    (texture_plans : list TexturePlan)
    (model_resolution_width model_resolution_height : Z)
    : result (list element_out) :=
  match elements with
  | [] => Ok []
  | elem :: rest =>
      let* converted :=
        convert_element idx elem texture_plans model_resolution_width
          model_resolution_height in
      let* converted_elements :=
        convert_elements rest (idx + 1) texture_plans model_resolution_width
          model_resolution_height in
      Ok (match converted with
          | Some c => c :: converted_elements
          | None => converted_elements
          end)
  end.

Definition build_model_json (bbmodel : list (string * json))
    (texture_plans : list TexturePlan)
    (model_resolution_width model_resolution_height : Z) : result model_json :=
  match dict_get "elements" bbmodel with
  | JArr elements =>
      let* converted_elements :=
        convert_elements elements 0 texture_plans model_resolution_width
          model_resolution_height in
      match converted_elements with
      | [] => Err NoVisibleElements
      | _ :: _ =>
          let display := dict_get "display" bbmodel in
          Ok {| textures := texture_object texture_plans;
                elements := converted_elements;
                gui_light :=
                  if is_true (dict_get "front_gui_light" bbmodel)
                  then Some "front" else None;
                display :=
                  if is_dict display && truthy display then Some display
                  else None |}
      end
  | _ => Err ElementsNotArray
  end.

(** Lines 449-454 of [main]: [bbmodel.get("resolution", {}).get(key)]
    coerced with default 16; a [resolution] that is not an object has no
    [get]. *)
Definition model_resolution (key : string) (bbmodel : list (string * json))
    : result Z :=
  match dict_get_default "resolution" (JObj []) bbmodel with
  | JObj resolution => Ok (read_positive_int (dict_get key resolution) 16)
  | _ => Err (Uncaught "AttributeError")
  end.

End ModelAssembler.

(** ** Output planner *)

Inductive file_data : Type :=
| ModelDocument (m : model_json)
| RawBytes (b : bytes)
| AnimationMeta (mcmeta : bool * Z).

(** What [main] does to the file system, in order. *)
Inductive fs_op : Type :=
| Mkdir (path : string)
| WriteFile (path : string) (data : file_data).

Definition newline : string := String (ascii_of_nat 10) EmptyString.

(** [needle in hay] on strings. *)
Fixpoint occurs (needle hay : string) : bool :=
  String.prefix needle hay
  || match hay with
     | EmptyString => false
     | String _ rest => occurs needle rest
     end.

Definition collision_line (p : string) : string := "- " ++ p.

(** The message of [ensure_writable]. *)
Definition collision_message (collisions : list string) : string :=
  let preview :=
    String.concat newline (map collision_line (firstn 10 collisions)) in
  let rest :=
    if (length collisions <=? 10)%nat then ""
    else newline ++ "... and "
         ++ pretty (Z.of_nat (length collisions) - 10) ++ " more" in
  "Destination files already exist. Use --force to overwrite."
  ++ newline ++ preview ++ rest.

Section OutputPlanner.
Context `{Host}.

Definition ensure_writable (paths : list string) (force : bool)
    : result unit :=
  if force then Ok tt
  else
    match List.filter path_exists paths with
    | [] => Ok tt
    | collisions => Err (DestinationExists (collision_message collisions))
    end.

Definition asset_dir (assets_root namespace kind asset variant : string)
    : string :=
  path_div (path_div (path_div (path_div (path_div assets_root namespace) kind)
    "item") asset) variant.

Definition texture_path (texture_dir : string) (t : TexturePlan) : string :=
  path_div texture_dir (file_stem t ++ ".png").

Definition mcmeta_path (texture_dir : string) (t : TexturePlan) : string :=
  path_div texture_dir (file_stem t ++ ".png.mcmeta").

Definition has_mcmeta (t : TexturePlan) : bool :=
  match mcmeta_json t with Some _ => true | None => false end.

(** The argument of [ensure_writable] in [main]:
    [[model_path, *texture_paths, *mcmeta_paths]]. *)
Definition planned_paths (assets_root namespace asset variant model_name : string)
    (texture_plans : list TexturePlan) : list string :=
  let model_dir := asset_dir assets_root namespace "models" asset variant in
  let texture_dir := asset_dir assets_root namespace "textures" asset variant in
  path_div model_dir (model_name ++ ".json")
  :: map (texture_path texture_dir) texture_plans
  ++ map (mcmeta_path texture_dir) (List.filter has_mcmeta texture_plans).

(** Lines 497-507: the writes of a run that is not a dry run. *)
Definition write_outputs (assets_root namespace asset variant model_name : string)
    (texture_plans : list TexturePlan) (model : model_json) : list fs_op :=
  let model_dir := asset_dir assets_root namespace "models" asset variant in
  let texture_dir := asset_dir assets_root namespace "textures" asset variant in
  [Mkdir model_dir; Mkdir texture_dir;
   WriteFile (path_div model_dir (model_name ++ ".json")) (ModelDocument model)]
  ++ map (fun t => WriteFile (texture_path texture_dir t) (RawBytes (png_bytes t)))
       texture_plans
  ++ flat_map
       (fun t =>
          match mcmeta_json t with
          | Some m => [WriteFile (mcmeta_path texture_dir t) (AnimationMeta m)]
          | None => []
          end)
       texture_plans.

(** Lines 468-507 of [main] on a file system that lets every [mkdir] and
    write through: the operations performed and how the run ends.  (The
    run with operations that may raise is [main_effects].) *)
Definition main_outputs (assets_root namespace asset variant model_name : string)
    (texture_plans : list TexturePlan) (model : model_json)
    (force dry_run : bool) : list fs_op * result unit :=
  match
    ensure_writable
      (planned_paths assets_root namespace asset variant model_name
         texture_plans) force
  with
  | Err e => ([], Err e)
  | Ok _ =>
      if dry_run then ([], Ok tt)
      else
        (write_outputs assets_root namespace asset variant model_name
           texture_plans model, Ok tt)
  end.

End OutputPlanner.

(** The paths of the files an operation list writes. *)
Definition written_paths (ops : list fs_op) : list string :=
  flat_map
    (fun op => match op with WriteFile path _ => [path] | Mkdir _ => [] end)
    ops.

(** ** The failure taxonomy of the specification *)

Inductive failure_kind : Type :=
| MalformedInput
| InvalidNumericField
| InvalidPayload
| MissingExternalAsset
| UnsupportedRotation
| UnknownTextureRef
| EmptyResult
| DestinationCollision
| Crash.

(** The class of each failure of the script, following section 7 of the
    specification; [Crash] is an exception outside that taxonomy. *)
Definition kind_of (e : error) : failure_kind :=
  match e with
  | BadVector _ _ _ => MalformedInput
  | NonNumericVector _ _ => InvalidNumericField
  | MalformedDataUrl _ | InvalidBase64 _ => InvalidPayload
  | ExternalSourceMissing _ _ | ExternalPathMissing _ _ => MissingExternalAsset
  | NoTextureSource _ | TexturesNotArray | TextureNotObject _ => MalformedInput
  | NonNumericTextureRef _ _ _ | InvalidTextureRef _ _ => InvalidNumericField
  | RotationObjectIncomplete _ | MultiAxisRotation _ _
  | UnsupportedRotationFormat _ => UnsupportedRotation
  | ElementsNotArray | ElementNotObject _ | FacesNotObject _ => MalformedInput
  | MissingTextureIndex _ _ _ => UnknownTextureRef
  | NoVisibleElements => EmptyResult
  | DestinationExists _ => DestinationCollision
  | Uncaught _ | Diverged => Crash
  end.

(** ** A host for examples *)

(** Decimal digits only: enough of [int(s)] for the examples. *)
Fixpoint digits_value (acc : Z) (s : string) : option Z :=
  match s with
  | EmptyString => Some acc
  | String c rest =>
      if char_between "0" "9" c
      then digits_value (10 * acc + (Z.of_N (N_of_ascii c) - 48)) rest
      else None
  end.

(** A host whose file system holds exactly the files in [files], whose
    paths are joined with a slash, and whose decoders accept what the
    examples feed them.  Its case table knows the two code points outside
    ASCII that lower into ASCII: the capital I with a dot above (U+0130,
    which lowers to an i and a combining dot) and the Kelvin sign (U+212A,
    which lowers to a k); every other one lowers to code points outside
    ASCII, which [to_pack_name] replaces whatever they are. *)
Definition example_host (files : list string) : Host := {|
  b64decode := fun payload =>
    if String.eqb payload "!" then None else Some [];
  path_is_absolute := String.prefix "/";
  path_div := fun base p => base ++ "/" ++ p;
  path_is_file := fun p => existsb (String.eqb p) files;
  path_exists := fun p => existsb (String.eqb p) files;
  read_bytes := fun _ => [];
  path_stem := fun raw => raw;
  py_repr := fun _ => "?";
  int_of_str := fun s =>
    match s with EmptyString => None | _ => digits_value 0 s end;
  float_of_str := fun _ => None;
  lower_code_point := fun cp =>
    if (cp =? 304)%N then [105; 775]%N
    else if (cp =? 8490)%N then [107]%N
    else [cp]
|}.

(** ** Visible, texture-bearing elements *)

(** An element object that is not marked [visibility: false]. *)
Definition is_visible (elem : json) : bool :=
  match elem with
  | JObj elem =>
      negb (is_false (dict_get_default "visibility" (JBool true) elem))
  | _ => false
  end.

(** An element object that declares one of the six faces as an object. *)
Definition has_face_object (elem : json) : bool :=
  match elem with
  | JObj elem =>
      match dict_get "faces" elem with
      | JObj raw_faces =>
          existsb (fun face_name => is_dict (dict_get face_name raw_faces))
            VALID_FACES
      | _ => false
      end
  | _ => false
  end.

Definition texture_bearing (elem : json) : bool :=
  is_visible elem && has_face_object elem.

(** The entry of the texture table for one plan. *)
Definition texture_entry (plan : TexturePlan) : string * string :=
  (pretty (index plan), rel_namespace_path plan).

(** ** The conversion of [main] *)

Section Conversion.
Context `{Host}.

(** Lines 448-466 of [main]: the resolution, the texture plans and the
    model document of one parsed source document. *)
Definition convert_document (bbmodel : list (string * json))
    (bbmodel_dir namespace asset variant model_name : string)
    (prefix_textures : bool) : result (list TexturePlan * model_json) :=
  let* model_resolution_width := model_resolution "width" bbmodel in
  let* model_resolution_height := model_resolution "height" bbmodel in
  let* texture_plans :=
    build_texture_plans bbmodel bbmodel_dir namespace asset variant model_name
      prefix_textures in
  let* model_json :=
    build_model_json bbmodel texture_plans model_resolution_width
      model_resolution_height in
  Ok (texture_plans, model_json).

End Conversion.

(** ** Sample documents *)

Definition ints (l : list Z) : json := JArr (map JInt l).

Definition full_face (texture : json) : json :=
  JObj [("uv", ints [0; 0; 16; 16]); ("texture", texture)].

Definition six_faces (texture : json) : json :=
  JObj (map (fun face_name => (face_name, full_face texture)) VALID_FACES).

(** A cube from [[0,0,0]] to [[16,16,16]] with every face on texture 0. *)
Definition cube_element (extra : list (string * json)) : json :=
  JObj ([("name", JStr "cube"); ("from", ints [0; 0; 0]);
         ("to", ints [16; 16; 16]); ("faces", six_faces (JInt 0))] ++ extra).

Definition inline_texture (name : string) : json :=
  JObj [("name", JStr name); ("source", JStr "data:image/png;base64,AAAA")].

Definition cube_document : list (string * json) :=
  [("resolution", JObj [("width", JInt 16); ("height", JInt 16)]);
   ("textures", JArr [inline_texture "tex"]);
   ("elements", JArr [cube_element []])].

(** The cube of [cube_document] turned by 45 degrees about y, in a
    document of resolution 32x64. *)
Definition turned_cube_document : list (string * json) :=
  [("resolution", JObj [("width", JInt 32); ("height", JInt 64)]);
   ("textures", JArr [inline_texture "tex"]);
   ("elements",
    JArr [cube_element [("rotation", ints [0; 45; 0]);
                        ("origin", ints [8; 8; 8])]])].

(** [n] static textures with the stems t0, t1, ... *)
Definition numbered_plans (n : nat) : list TexturePlan :=
  map
    (fun i =>
       {| index := Z.of_nat i;
          file_stem := "t" ++ pretty (Z.of_nat i);
          rel_namespace_path := "ns:item/a/v/t" ++ pretty (Z.of_nat i);
          png_bytes := [];
          mcmeta_json := None |})
    (seq 0 n).

(** A host on which the model document and ten textures planned under
    assets/ns already exist. *)
Definition crowded_host : Host :=
  example_host
    (@planned_paths (example_host []) "assets" "ns" "a" "v" "m"
       (numbered_plans 10)).

Definition empty_model : model_json :=
  {| textures := []; elements := []; gui_light := None; display := None |}.

(** ** Pack names *)

Fixpoint string_forall (p : ascii -> bool) (s : string) : bool :=
  match s with
  | EmptyString => true
  | String c rest => p c && string_forall p rest
  end.

(** A string made of the characters [a-z0-9_.] only. *)
Definition is_pack_name (s : string) : bool := string_forall pack_char s.

(** A [str] of ASCII characters. *)
Definition is_ascii_name (s : string) : bool :=
  string_forall (fun c => (N_of_ascii c <? 128)%N) s.

(** A [string] that holds whole code points from its first byte on, as
    the [string] of a [str] does. *)
Definition starts_code_point (s : string) : bool :=
  match s with
  | EmptyString => true
  | String c _ => negb (is_continuation (N_of_ascii c))
  end.

(** ** The shape of a target document *)

Definition rotation_shaped (r : rotation_out) : Prop :=
  In (rot_axis r) ["x"; "y"; "z"] /\ length (rot_origin r) = 3%nat.

Definition element_shaped (converted : element_out) : Prop :=
  length (elem_from converted) = 3%nat
  /\ length (elem_to converted) = 3%nat
  /\ (forall r, elem_rotation converted = Some r -> rotation_shaped r)
  /\ (forall n, elem_light_emission converted = Some n -> 0 < pyint_value n).

Definition face_shaped (entry : string * face_out) : Prop :=
  In (fst entry) VALID_FACES
  /\ length (face_uv (snd entry)) = 4%nat
  /\ (forall r, face_rotation (snd entry) = Some r ->
                PrimFloat.eqb r 0%float = false)
  /\ (forall t, face_tintindex (snd entry) = Some t -> 0 <= pyint_value t).

(** ** What a failure names *)

(** The texture index a failure message interpolates. *)
Definition error_texture (e : error) : option Z :=
  match e with
  | MalformedDataUrl idx | InvalidBase64 idx | ExternalSourceMissing idx _
  | ExternalPathMissing idx _ | NoTextureSource idx | TextureNotObject idx =>
      Some idx
  | _ => None
  end.

(** The element name a failure message interpolates. *)
Definition error_element (e : error) : option string :=
  match e with
  | BadVector elem_name _ _ | NonNumericVector elem_name _
  | NonNumericTextureRef elem_name _ _ | InvalidTextureRef elem_name _
  | RotationObjectIncomplete elem_name | MultiAxisRotation elem_name _
  | UnsupportedRotationFormat elem_name | FacesNotObject elem_name
  | MissingTextureIndex elem_name _ _ => Some elem_name
  | _ => None
  end.

(** ** The whole run *)

(** The namespace [parse_args] returns. *)
Record Args : Type := mkArgs {
  arg_bbmodel : string;
  arg_assets_root : string;
  arg_namespace : string;
  arg_asset : option string;
  arg_variant : string;
  arg_model_name : option string;
  arg_prefix_textures : bool;
  arg_force : bool;
  arg_dry_run : bool
}.

(** The defaults of [parse_args] for one positional argument. *)
Definition default_args (bbmodel : string) : Args :=
  {| arg_bbmodel := bbmodel;
     arg_assets_root := "assets";
     arg_namespace := "bloodstone";
     arg_asset := None;
     arg_variant := "default";
     arg_model_name := None;
     arg_prefix_textures := false;
     arg_force := false;
     arg_dry_run := false |}.

(** What [main] and [read_bbmodel] take from the system beyond [Host]. *)
Class System : Type := {
  system_host : Host;
  (** [str(Path(p).resolve())]. *)
  path_resolve : string -> string;
  (** [p.is_dir()]. *)
  path_is_dir : string -> bool;
  (** [str(p.parent)]. *)
  path_parent : string -> string;
  (** [p.read_text(encoding="utf-8")]; [None] when it raises. *)
  read_text : string -> option string;
  (** [json.loads(text)]; [None] when it raises [JSONDecodeError]. *)
  json_loads : string -> option json;
  (** Whether [mkdir(parents=True, exist_ok=True)], [write_text] or
      [write_bytes] goes through after the operations [done] of the run;
      when it does not, it raises an [OSError] ([FileExistsError],
      [IsADirectoryError], [PermissionError], ...). *)
  fs_accepts : list fs_op -> fs_op -> bool
}.
#[global] Existing Instance system_host.

(** The failures of [main] and [read_bbmodel], and those of the
    conversion. *)
Inductive main_failure : Type :=
| AssetsRootMissing (assets_root : string)
| EmptyModelName
| EmptyAssetName
| EmptyVariantName
| BbmodelMissing (path : string)
| InvalidJson (path : string)
| Failed (e : error).

Inductive outcome (A : Type) : Type :=
| Done (a : A)
| Aborted (f : main_failure).
Arguments Done {A} a.
Arguments Aborted {A} f.

Section Main.
Context `{System}.

Definition read_bbmodel (path : string) : outcome json :=
  if path_is_file path then
    match read_text path with
    | None => Aborted (Failed (Uncaught "UnicodeDecodeError"))
    | Some text =>
        match json_loads text with
        | Some bbmodel => Done bbmodel
        | None => Aborted (InvalidJson path)
        end
    end
  else Aborted (BbmodelMissing path).

(** [given or fallback] for an optional argument of [argparse]. *)
Definition arg_or (given : option string) (fallback : string) : string :=
  match given with
  | Some s => if nonempty s then s else fallback
  | None => fallback
  end.

(** Lines 497-507: the operations one after the other, up to the first
    that raises; nothing catches the exception. *)
Fixpoint perform (done todo : list fs_op) : list fs_op * result unit :=
  match todo with
  | [] => (done, Ok tt)
  | op :: rest =>
      if fs_accepts done op then perform (done ++ [op]) rest
      else (done, Err (Uncaught "OSError"))
  end.

(** Lines 468-507 of [main]: the operations performed on the file system
    and how the run ends. *)
Definition main_effects
    (assets_root namespace asset variant model_name : string)
    (texture_plans : list TexturePlan) (model : model_json)
    (force dry_run : bool) : list fs_op * result unit :=
  match
    ensure_writable
      (planned_paths assets_root namespace asset variant model_name
         texture_plans) force
  with
  | Err e => ([], Err e)
  | Ok _ =>
      if dry_run then ([], Ok tt)
      else
        perform []
          (write_outputs assets_root namespace asset variant model_name
             texture_plans model)
  end.

(** Lines 448-509 of [main], without the prints: the run once the
    assets root and the names are settled. *)
Definition main_run (args : Args)
    (bbmodel_path assets_root namespace model_name asset variant : string)
    : list fs_op * outcome unit :=
  match read_bbmodel bbmodel_path with
  | Aborted f => ([], Aborted f)
  | Done (JObj bbmodel) =>
      match
        convert_document bbmodel (path_parent bbmodel_path) namespace
          asset variant model_name (arg_prefix_textures args)
      with
      | Err e => ([], Aborted (Failed e))
      | Ok (texture_plans, model_json) =>
          match
            main_effects assets_root namespace asset variant model_name
              texture_plans model_json (arg_force args) (arg_dry_run args)
          with
          | (ops, Ok _) => (ops, Done tt)
          | (ops, Err e) => (ops, Aborted (Failed e))
          end
      end
  | Done _ => ([], Aborted (Failed (Uncaught "AttributeError")))
  end.

(** [main], without its prints: the operations performed on the file
    system and how the run ends. *)
Definition main (args : Args) : list fs_op * outcome unit :=
  let bbmodel_path := path_resolve (arg_bbmodel args) in
  let assets_root := path_resolve (arg_assets_root args) in
  if negb (path_exists assets_root) || negb (path_is_dir assets_root) then
    ([], Aborted (AssetsRootMissing assets_root))
  else
    let namespace := to_pack_name (arg_namespace args) in
    let model_name :=
      to_pack_name (arg_or (arg_model_name args) (path_stem bbmodel_path)) in
    let asset :=
      to_pack_name (arg_or (arg_asset args) (path_stem bbmodel_path)) in
    let variant := to_pack_name (arg_variant args) in
    if negb (nonempty model_name) then ([], Aborted EmptyModelName)
    else if negb (nonempty asset) then ([], Aborted EmptyAssetName)
    else if negb (nonempty variant) then ([], Aborted EmptyVariantName)
    else
      main_run args bbmodel_path assets_root namespace model_name asset
        variant.

End Main.

(** A system over [example_host]: paths resolve to themselves, the
    assets root is the directory "assets", [docs] gives the parsed
    content of each readable document, and every operation on the file
    system goes through. *)
Definition example_system (files : list string)
    (docs : list (string * json)) : System := {|
  system_host := example_host files;
  path_resolve := fun p => p;
  path_is_dir := String.eqb "assets";
  path_parent := fun _ => "/models";
  read_text := fun p => Some p;
  json_loads := fun text =>
    match dict_get text docs with
    | JNull => None
    | bbmodel => Some bbmodel
    end;
  fs_accepts := fun _ _ => true
|}.

(** The same system with a directory at each path of [directories]: a
    file cannot be written there. *)
Definition blocked_system (files directories : list string)
    (docs : list (string * json)) : System := {|
  system_host := example_host files;
  path_resolve := fun p => p;
  path_is_dir := fun p =>
    String.eqb "assets" p || existsb (String.eqb p) directories;
  path_parent := fun _ => "/models";
  read_text := fun p => Some p;
  json_loads := fun text =>
    match dict_get text docs with
    | JNull => None
    | bbmodel => Some bbmodel
    end;
  fs_accepts := fun _ op =>
    match op with
    | Mkdir _ => true
    | WriteFile path _ => negb (existsb (String.eqb path) directories)
    end
|}.

Example float_of_int_45 : float_of_int 45 = Ok 45%float.
Proof. reflexivity. Qed.

Example int_truediv_32_32 : int_truediv 32 32 = Ok 1%float.
Proof. reflexivity. Qed.

Example pyint_str_7 : pyint_str (PInt 7) = "7".
Proof. reflexivity. Qed.

Example to_pack_name_mixed `{Host} :
  to_pack_name "My Tex-1.PNG" = "my_tex_1.png".
Proof. reflexivity. Qed.

Example is_animated_boundary : is_animated 16 32 16 32 = Ok false.
Proof. reflexivity. Qed.

Example is_animated_strip : is_animated 16 64 16 16 = Ok true.
Proof. reflexivity. Qed.

Example unique_stem_tex :
  unique_stem {[ "tex" ]} "tex" = Some "tex_2".
Proof. vm_compute. reflexivity. Qed.

(** ** Animation classification *)

Lemma bind_ok {A B} (r : result A) (k : A -> result B) (b : B) :
  bind r k = Ok b <-> exists a, r = Ok a /\ k a = Ok b.
Proof.
  destruct r as [a|e]; simpl; split.
  - intros Hk. exists a. auto.
  - intros (a' & Ha & Hk). congruence.
  - discriminate.
  - intros (a' & Ha & _). discriminate.
Qed.



(** ** Facts on doubles *)



(** A double equal to zero is at most zero. *)
Lemma eqb_zero_leb (x : float) :
  PrimFloat.eqb x 0%float = true -> PrimFloat.leb x 0%float = true.
Proof.
  rewrite FloatAxioms.eqb_spec, leb_spec. unfold SFeqb, SFleb.
  destruct (SFcompare (Prim2SF x) (Prim2SF 0)) as [[| |]|]; congruence.
Qed.

(** ** Coercion of loosely typed integers *)

Section CoercionFacts.
Context `{Host}.

Lemma read_positive_int_range (value : json) (default : Z) :
  read_positive_int value default = default
  \/ 0 < read_positive_int value default.
Proof.
  destruct value as [ |b|z|f|s|l|m]; simpl; auto.
  - destruct (0 <? z) eqn:Hz; [apply Z.ltb_lt in Hz|]; auto.
  - destruct (float_is_integer f); auto.
    destruct (0 <? int_of_float f) eqn:Hz; [apply Z.ltb_lt in Hz|]; auto.
  - destruct (int_of_str s) as [z|]; auto.
    destruct (0 <? z) eqn:Hz; [apply Z.ltb_lt in Hz|]; auto.
Qed.

End CoercionFacts.

(** ** Cube rotation *)

Section RotationFacts.
Context `{Host}.

Lemma non_zero_axes_3 (x y z : float) :
  non_zero_axes [x; y; z] =
  ((if axis_non_zero x then [("x", x)] else [])
   ++ (if axis_non_zero y then [("y", y)] else [])
   ++ (if axis_non_zero z then [("z", z)] else []))%list.
Proof.
  unfold non_zero_axes. simpl.
  destruct (axis_non_zero x), (axis_non_zero y), (axis_non_zero z);
    reflexivity.
Qed.

End RotationFacts.

(** ** UV rescaling *)

Section UvFacts.
Context `{Host}.

Lemma uv_scale_not_zero (resolution : Z) (scale : float) :
  uv_scale resolution = Ok scale -> PrimFloat.eqb scale 0%float = false.
Proof.
  unfold uv_scale. intros Hrun.
  apply bind_ok in Hrun as (r & _ & Hscale). injection Hscale as <-.
  destruct (PrimFloat.leb (r / 16) 0) eqn:Hle; [reflexivity|].
  destruct (PrimFloat.eqb (r / 16) 0) eqn:Heq; [|reflexivity].
  apply eqb_zero_leb in Heq. congruence.
Qed.

(** The faces of the converted cube of [cube_document]. *)
Lemma cube_faces_converted :
  convert_faces VALID_FACES
    (map (fun face_name => (face_name, full_face (JInt 0))) VALID_FACES)
    "cube"
    [{| index := 0; file_stem := "tex";
        rel_namespace_path := "ns:item/a/v/tex"; png_bytes := [];
        mcmeta_json := None |}] 16 16
  = Ok (map
          (fun face_name =>
             (face_name,
              {| face_uv := [0; 0; 16; 16]%float; face_texture := "#0";
                 face_rotation := None; face_tintindex := None |}))
          VALID_FACES).
Proof. reflexivity. Qed.

End UvFacts.

(** ** Texture sources *)

Section SourceFacts.
Context `{Host}.

Lemma nonempty_true (s : string) : s <> "" -> nonempty s = true.
Proof.
  intros Hs. unfold nonempty.
  destruct (String.eqb_spec s ""); simpl; congruence.
Qed.

(** The texture's [path], read when there is no usable [source]. *)
Lemma decode_without_source (texture : list (string * json))
    (bbmodel_dir : string) (idx : Z) :
  (forall source, dict_get "source" texture = JStr source -> source = "") ->
  decode_texture_source texture bbmodel_dir idx
  = match dict_get "path" texture with
    | JStr path_value =>
        if nonempty path_value then
          let external := resolve_external bbmodel_dir path_value in
          if path_is_file external then Ok (read_bytes external)
          else Err (ExternalPathMissing idx external)
        else Err (NoTextureSource idx)
    | _ => Err (NoTextureSource idx)
    end.
Proof.
  intros Hsource. unfold decode_texture_source.
  destruct (dict_get "source" texture) as [ | | | |source| | ];
    try reflexivity.
  now rewrite (Hsource source eq_refl).
Qed.

(** C6, amended. For a texture whose [source] is a non-empty string: if it
    starts with "data:", decoding fails with an InvalidPayload failure
    exactly when the source has no comma or base64 rejects what follows
    the first comma, and otherwise returns the decoded bytes; if it does
    not, the source is taken as a path, joined to the document's directory
    unless absolute, and decoding fails with a MissingExternalAsset
    failure exactly when that path is no file, and otherwise returns the
    file's bytes.  An empty [source] counts as no source: the result is
    that of the same texture without [source], which is read from the
    texture's [path] (the file's bytes, or the failure that names the
    missing path), or is the no-source failure when [path] is no
    non-empty string; the path the empty source would resolve to is never
    looked at. *)
Theorem decode_texture_source_string
    (texture : list (string * json)) (bbmodel_dir : string) (idx : Z)
    (source : string) :
  dict_get "source" texture = JStr source ->
  let decoded := decode_texture_source texture bbmodel_dir idx in
  let external := resolve_external bbmodel_dir source in
  (source <> "" -> String.prefix "data:" source = true ->
     ((exists e, decoded = Err e /\ kind_of e = InvalidPayload) <->
      (after_comma source = None
       \/ exists payload,
            after_comma source = Some payload /\ b64decode payload = None)) /\
     (forall e, decoded = Err e -> kind_of e = InvalidPayload) /\
     (forall payload data,
        after_comma source = Some payload ->
        b64decode payload = Some data -> decoded = Ok data)) /\
  (source <> "" -> String.prefix "data:" source = false ->
     external
     = (if path_is_absolute source then source
        else path_div bbmodel_dir source) /\
     ((exists e, decoded = Err e /\ kind_of e = MissingExternalAsset) <->
      path_is_file external = false) /\
     (path_is_file external = false ->
        decoded = Err (ExternalSourceMissing idx external)) /\
     (path_is_file external = true -> decoded = Ok (read_bytes external))) /\
  (source = "" ->
     (forall other,
        dict_get "source" other = JNull ->
        dict_get "path" other = dict_get "path" texture ->
        decoded = decode_texture_source other bbmodel_dir idx) /\
     (forall path_value,
        dict_get "path" texture = JStr path_value ->
        path_value <> "" ->
        let fallback := resolve_external bbmodel_dir path_value in
        (path_is_file fallback = true -> decoded = Ok (read_bytes fallback)) /\
        (path_is_file fallback = false ->
           decoded = Err (ExternalPathMissing idx fallback))) /\
     ((forall path_value,
         dict_get "path" texture = JStr path_value -> path_value = "") ->
        decoded = Err (NoTextureSource idx))).
Proof.
  intros Hsource decoded external.
  split; [|split].
  - intros Hne Hprefix. subst decoded. unfold decode_texture_source.
    rewrite Hsource, (nonempty_true _ Hne), Hprefix.
    destruct (after_comma source) as [payload|].
    + destruct (b64decode payload) as [data|] eqn:Hdecode.
      * repeat split.
        -- intros (e & He & _). discriminate.
        -- intros [Hnone|(p & Hp & Hd)]; [discriminate|].
           injection Hp as <-. congruence.
        -- intros e He. discriminate.
        -- intros p d Hp Hd. injection Hp as <-. congruence.
      * repeat split.
        -- intros _. right. eauto.
        -- intros _. eexists. split; reflexivity.
        -- intros e He. injection He as <-. reflexivity.
        -- intros p d Hp Hd. injection Hp as <-. congruence.
    + repeat split.
      * intros _. now left.
      * intros _. eexists. split; reflexivity.
      * intros e He. injection He as <-. reflexivity.
      * intros p d Hp. discriminate.
  - intros Hne Hprefix. subst decoded external. unfold decode_texture_source.
    rewrite Hsource, (nonempty_true _ Hne), Hprefix.
    fold (resolve_external bbmodel_dir source).
    destruct (path_is_file (resolve_external bbmodel_dir source)) eqn:Hfile.
    + repeat split; try congruence.
      intros (e & He & _). discriminate.
    + repeat split; try congruence.
      intros _. eexists. split; reflexivity.
  - intros Hempty. subst decoded.
    assert (Hno : forall s, dict_get "source" texture = JStr s -> s = "")
      by (intros s Hs; congruence).
    rewrite (decode_without_source texture bbmodel_dir idx Hno).
    split; [|split].
    + intros other Hother Hpath.
      rewrite (decode_without_source other bbmodel_dir idx)
        by (intros s Hs; congruence).
      now rewrite Hpath.
    + intros path_value Hpath Hne fallback. subst fallback.
      rewrite Hpath, (nonempty_true _ Hne). cbv zeta.
      split; intros ->; reflexivity.
    + intros Hpath.
      destruct (dict_get "path" texture) as [ | | | |path_value| | ];
        try reflexivity.
      now rewrite (Hpath path_value eq_refl).
Qed.

End SourceFacts.

(** A document directory that holds one texture file. *)
Lemma decode_texture_source_string_witness :
  let host := example_host ["/models/a.png"] in
  @decode_texture_source host [("source", JStr "a.png")] "/models" 0 = Ok []
  /\ @decode_texture_source host [("source", JStr "b.png")] "/models" 1
     = Err (ExternalSourceMissing 1 "/models/b.png")
  /\ @decode_texture_source host [("source", JStr "data:image/png;base64!")]
       "/models" 2
     = Err (MalformedDataUrl 2)
  /\ @decode_texture_source host [("source", JStr "data:image/png;base64,!")]
       "/models" 3
     = Err (InvalidBase64 3)
  /\ @decode_texture_source host [("source", JStr ""); ("path", JStr "a.png")]
       "/models" 4
     = Ok []
  /\ @decode_texture_source host [("source", JStr ""); ("path", JStr "b.png")]
       "/models" 5
     = Err (ExternalPathMissing 5 "/models/b.png")
  /\ @decode_texture_source host [("source", JStr "")] "/models" 6
     = Err (NoTextureSource 6).
Proof.
  intros host.
  pose proof (@decode_texture_source_string host
    [("source", JStr "a.png")] "/models" 0 "a.png" eq_refl) as (_ & Ha & _).
  pose proof (@decode_texture_source_string host
    [("source", JStr "b.png")] "/models" 1 "b.png" eq_refl) as (_ & Hb & _).
  pose proof (@decode_texture_source_string host
    [("source", JStr ""); ("path", JStr "a.png")] "/models" 4 "" eq_refl)
    as (_ & _ & Hc).
  pose proof (@decode_texture_source_string host
    [("source", JStr ""); ("path", JStr "b.png")] "/models" 5 "" eq_refl)
    as (_ & _ & Hd).
  pose proof (@decode_texture_source_string host
    [("source", JStr "")] "/models" 6 "" eq_refl) as (_ & _ & He).
  split; [apply Ha; [discriminate|reflexivity|reflexivity]|].
  split; [apply Hb; [discriminate|reflexivity|reflexivity]|].
  do 2 (split; [reflexivity|]).
  split.
  { destruct (Hc eq_refl) as (_ & Hpath & _).
    apply (Hpath "a.png"); [reflexivity|discriminate|reflexivity]. }
  split.
  { destruct (Hd eq_refl) as (_ & Hpath & _).
    apply (Hpath "b.png"); [reflexivity|discriminate|reflexivity]. }
  destruct (He eq_refl) as (_ & _ & Hnone). apply Hnone.
  intros path_value Hpath. vm_compute in Hpath. discriminate.
Defined.

(** C6 as stated fails on an empty [source]: the string does not start
    with "data:" and the path it resolves to is no file, yet no failure is
    raised, since an empty [source] counts as absent and the texture's
    [path] is read instead. *)
Lemma decode_empty_source_reads_path :
  ~ (forall (host : Host) texture bbmodel_dir idx source,
       dict_get "source" texture = JStr source ->
       String.prefix "data:" source = false ->
       ((exists e,
           @decode_texture_source host texture bbmodel_dir idx = Err e
           /\ kind_of e = MissingExternalAsset) <->
        @path_is_file host (@resolve_external host bbmodel_dir source)
        = false)).
Proof.
  intros Hclaim.
  destruct (Hclaim (example_host ["/models/a.png"])
              [("source", JStr ""); ("path", JStr "a.png")] "/models" 0 ""
              eq_refl eq_refl) as [_ Hraise].
  destruct (Hraise eq_refl) as (e & He & _).
  vm_compute in He. discriminate.
Qed.

(** ** Boolean texture references *)

Section TextureRefFacts.
Context `{Host}.

Lemma convert_face_texture (raw_face : list (string * json))
    (elem_name face_name : string) (texture_plans : list TexturePlan)
    (width height : Z) (face : face_out) :
  convert_face raw_face elem_name face_name texture_plans width height
  = Ok face ->
  exists tex_index,
    resolve_texture_index (dict_get "texture" raw_face) elem_name face_name
    = Ok tex_index
    /\ in_texture_lookup tex_index texture_plans = true
    /\ face_texture face = "#" ++ pyint_str tex_index.
Proof.
  unfold convert_face. intros Hrun.
  apply bind_ok in Hrun as (tex_index & Hresolve & Hrun).
  exists tex_index. split; [assumption|].
  destruct (in_texture_lookup tex_index texture_plans); [|discriminate].
  split; [reflexivity|].
  apply bind_ok in Hrun as (raw_uv & _ & Hrun).
  apply bind_ok in Hrun as (uv & _ & Hrun).
  apply bind_ok in Hrun as (rotation & _ & Hrun).
  injection Hrun as <-. reflexivity.
Qed.

(** A boolean texture reference is accepted and looked up as index 1 or
    0, but the emitted reference spells the boolean. *)
Lemma bool_texture_ref (b : bool) (raw_face : list (string * json))
    (elem_name face_name : string) (texture_plans : list TexturePlan)
    (width height : Z) :
  dict_get "texture" raw_face = JBool b ->
  resolve_texture_index (dict_get "texture" raw_face) elem_name face_name
  = Ok (PBool b)
  /\ in_texture_lookup (PBool b) texture_plans
     = in_texture_lookup (PInt (if b then 1 else 0)) texture_plans
  /\ (in_texture_lookup (PBool b) texture_plans = false ->
      convert_face raw_face elem_name face_name texture_plans width height
      = Err (MissingTextureIndex elem_name face_name
               (if b then "True" else "False")))
  /\ (forall face,
        convert_face raw_face elem_name face_name texture_plans width height
        = Ok face ->
        face_texture face = (if b then "#True" else "#False")).
Proof.
  intros Hraw. rewrite Hraw. repeat split.
  - intros Hmiss. unfold convert_face. rewrite Hraw. simpl.
    rewrite Hmiss. now destruct b.
  - intros face Hface.
    apply convert_face_texture in Hface as (tex & Hresolve & _ & ->).
    rewrite Hraw in Hresolve. injection Hresolve as <-. now destruct b.
Qed.

(** C9, evaluated: with textures 0 and 1 resolved, a face whose texture
    reference is [true] is emitted with texture "#True", and one whose
    reference is [false] with "#False"; neither is a key of the texture
    table, whose keys are "0", "1" and "particle". *)
Theorem bool_texture_ref_emitted :
  let plan idx :=
    {| index := idx; file_stem := "t"; rel_namespace_path := "ns:item/a/v/t";
       png_bytes := []; mcmeta_json := None |} in
  let face (ref : bool) :=
    [("texture", JBool ref); ("uv", ints [0; 0; 16; 16])] in
  convert_face (face true) "cube" "north" [plan 0; plan 1] 16 16
  = Ok {| face_uv := [0; 0; 16; 16]%float; face_texture := "#True";
          face_rotation := None; face_tintindex := None |}
  /\ convert_face (face false) "cube" "north" [plan 0; plan 1] 16 16
     = Ok {| face_uv := [0; 0; 16; 16]%float; face_texture := "#False";
             face_rotation := None; face_tintindex := None |}
  /\ map fst (texture_object [plan 0; plan 1]) = ["0"; "1"; "particle"]
  /\ convert_face (face true) "cube" "north" [plan 0] 16 16
     = Err (MissingTextureIndex "cube" "north" "True").
Proof. repeat split; reflexivity. Qed.

End TextureRefFacts.

(** ** Texture stems *)

Lemma append_empty_r (s : string) : s ++ "" = s.
Proof.
  induction s as [|c s IH]; [reflexivity|].
  change (String c (s ++ "") = String c s). congruence.
Qed.

Lemma stem_candidate_inj (stem : string) (j k : Z) :
  stem_candidate stem j = stem_candidate stem k -> j = k.
Proof.
  unfold stem_candidate. intros Heq.
  apply String.app_inj in Heq. apply String.app_inj in Heq.
  now apply (inj pretty) in Heq.
Qed.

Lemma stem_candidate_longer (stem : string) (k : Z) :
  stem_candidate stem k <> stem.
Proof.
  unfold stem_candidate. intros Heq.
  rewrite <- (append_empty_r stem) in Heq at 2.
  apply String.app_inj in Heq. discriminate.
Qed.

(** The loop ends within the fuel whenever the candidates still to be
    tried that are in use all lie in a set with fewer members than there
    is fuel; it returns the first candidate that is not in use. *)
Lemma unique_stem_loop_ends (used_names : gset string) (stem : string) :
  forall (fuel : nat) (pending : gset string) (current : string) (suffix : Z),
    (size pending < fuel)%nat ->
    (current ∈ used_names -> current ∈ pending) ->
    (forall k, suffix <= k -> stem_candidate stem k ∈ used_names ->
               stem_candidate stem k ∈ pending) ->
    (forall k, suffix <= k -> stem_candidate stem k <> current) ->
    exists r,
      unique_stem_loop fuel used_names stem current suffix = Some r
      /\ (r ∉ used_names)
      /\ (r = current
          \/ exists k,
               suffix <= k /\ r = stem_candidate stem k
               /\ current ∈ used_names
               /\ forall j, suffix <= j < k ->
                            stem_candidate stem j ∈ used_names).
Proof.
  induction fuel as [|fuel IH]; intros pending current suffix Hsize Hcur Hnext
    Hfresh; [lia|].
  simpl. destruct (decide (current ∈ used_names)) as [Hused|Hfree].
  - destruct (IH (pending ∖ {[current]}) (stem_candidate stem suffix)
                (suffix + 1)) as (r & Hloop & Hr & Hwhich).
    + assert (Hin : current ∈ pending) by auto.
      assert (Hpos : (0 < size pending)%nat).
      { destruct (size pending) eqn:Hzero; [|lia].
        apply size_empty_inv in Hzero.
        apply (proj1 (elem_of_equiv_empty pending) Hzero) in Hin as []. }
      rewrite size_difference, size_singleton;
        [lia|by apply singleton_subseteq_l].
    + intros Hc. apply elem_of_difference. split; [apply Hnext; [lia|done]|].
      rewrite elem_of_singleton. apply Hfresh. lia.
    + intros k Hk Hc. apply elem_of_difference.
      split; [apply Hnext; [lia|done]|].
      rewrite elem_of_singleton. apply Hfresh. lia.
    + intros k Hk Heq. apply stem_candidate_inj in Heq. lia.
    + exists r. split; [exact Hloop|]. split; [exact Hr|]. right.
      destruct Hwhich as [->|(k & Hk & -> & Hc & Hbefore)].
      * exists suffix. repeat split; [lia|done|]. intros j Hj. lia.
      * exists k. repeat split; [lia|done|]. intros j Hj.
        destruct (decide (j = suffix)) as [->|Hne]; [done|].
        apply Hbefore. lia.
  - exists current. repeat split; auto.
Qed.

(** The de-duplication loop always ends, on a stem that is not in use:
    the stem itself when it is free, and otherwise [stem_k] for the least
    [k >= 2] whose [stem_k] is free. *)
Lemma unique_stem_total (used_names : gset string) (stem : string) :
  exists r,
    unique_stem used_names stem = Some r
    /\ (r ∉ used_names)
    /\ (stem ∉ used_names -> r = stem)
    /\ (stem ∈ used_names ->
        exists k,
          2 <= k /\ r = stem_candidate stem k
          /\ forall j, 2 <= j < k -> stem_candidate stem j ∈ used_names).
Proof.
  destruct (unique_stem_loop_ends used_names stem (S (size used_names))
              used_names stem 2) as (r & Hloop & Hr & Hwhich).
  - lia.
  - auto.
  - auto.
  - intros k _. apply stem_candidate_longer.
  - exists r. split; [exact Hloop|]. split; [exact Hr|]. split.
    + intros Hfree. destruct Hwhich as [->|(k & _ & _ & Hused & _)]; done.
    + intros Hused. destruct Hwhich as [->|(k & Hk & -> & _ & Hbefore)];
        [done|]. eauto.
Qed.

Section StemFacts.
Context `{Host}.

Lemma texture_plan_ok (texture : json) (idx : Z) (used_names : gset string)
    (bbmodel_dir namespace asset variant model_name : string)
    (prefix_textures : bool) (plan : TexturePlan) :
  texture_plan texture idx used_names bbmodel_dir namespace asset variant
    model_name prefix_textures = Ok plan ->
  exists members,
    texture = JObj members
    /\ unique_stem used_names
         (texture_stem members idx model_name prefix_textures)
       = Some (file_stem plan)
    /\ index plan = idx
    /\ rel_namespace_path plan
       = namespace ++ ":item/" ++ asset ++ "/" ++ variant ++ "/"
         ++ file_stem plan.
Proof.
  destruct texture as [ | | | | | |members]; try discriminate.
  unfold texture_plan. intros Hrun. exists members. split; [reflexivity|].
  destruct (unique_stem used_names _) as [unique|]; [|discriminate].
  apply bind_ok in Hrun as (data & _ & Hrun).
  apply bind_ok in Hrun as (animated & _ & Hrun).
  injection Hrun as <-. repeat split.
Qed.

(** What a planned texture is read from. *)
Lemma texture_plan_data (members : list (string * json)) (idx : Z)
    (used_names : gset string)
    (bbmodel_dir namespace asset variant model_name : string)
    (prefix_textures : bool) (plan : TexturePlan) :
  texture_plan (JObj members) idx used_names bbmodel_dir namespace asset
    variant model_name prefix_textures = Ok plan ->
  decode_texture_source members bbmodel_dir idx = Ok (png_bytes plan)
  /\ exists animated,
       is_animated (read_positive_int (dict_get "width" members) 0)
         (read_positive_int (dict_get "height" members) 0)
         (read_positive_int (dict_get "uv_width" members) 0)
         (read_positive_int (dict_get "uv_height" members) 0)
       = Ok animated
       /\ mcmeta_json plan
          = (if animated
             then Some (truthy (dict_get "frame_interpolate" members),
                        read_positive_int (dict_get "frame_time" members) 1)
             else None).
Proof.
  unfold texture_plan. intros Hrun.
  destruct (unique_stem used_names _) as [unique|]; [|discriminate].
  apply bind_ok in Hrun as (data & Hdata & Hrun).
  apply bind_ok in Hrun as (animated & Hanimated & Hrun).
  injection Hrun as <-. simpl. split; [exact Hdata|]. eauto.
Qed.

Lemma texture_plan_ends (texture : json) (idx : Z) (used_names : gset string)
    (bbmodel_dir namespace asset variant model_name : string)
    (prefix_textures : bool) :
  texture_plan texture idx used_names bbmodel_dir namespace asset variant
    model_name prefix_textures <> Err Diverged.
Proof.
  destruct texture as [ | | | | | |members]; try discriminate.
  unfold texture_plan.
  destruct (unique_stem_total used_names
              (texture_stem members idx model_name prefix_textures))
    as (r & -> & _).
  destruct (decode_texture_source members bbmodel_dir idx) as [data|e] eqn:Hd.
  - simpl. unfold is_animated, pixel_ratio, int_truediv.
    repeat (match goal with
            | |- context [if ?b then _ else _] => destruct b
            | |- context [match ?x with _ => _ end] => destruct x
            end; simpl; try discriminate).
  - simpl. unfold decode_texture_source in Hd.
    repeat (match type of Hd with
            | context [if ?b then _ else _] => destruct b
            | context [match ?x with _ => _ end] => destruct x
            end; try discriminate); congruence.
Qed.

Lemma texture_plans_from_cons (texture : json) (rest : list json) (idx : Z)
    (used_names : gset string)
    (bbmodel_dir namespace asset variant model_name : string)
    (prefix_textures : bool) (plans : list TexturePlan) :
  texture_plans_from (texture :: rest) idx used_names bbmodel_dir namespace
    asset variant model_name prefix_textures = Ok plans ->
  exists plan plans',
    plans = plan :: plans'
    /\ texture_plan texture idx used_names bbmodel_dir namespace asset variant
         model_name prefix_textures = Ok plan
    /\ texture_plans_from rest (idx + 1) ({[ file_stem plan ]} ∪ used_names)
         bbmodel_dir namespace asset variant model_name prefix_textures
       = Ok plans'.
Proof.
  simpl. intros Hrun.
  apply bind_ok in Hrun as (plan & Hplan & Hrun).
  apply bind_ok in Hrun as (plans' & Hrest & Hrun).
  injection Hrun as <-. eauto.
Qed.

Lemma texture_plans_from_stems (raw_textures : list json) :
  forall (idx : Z) (used_names : gset string)
    (bbmodel_dir namespace asset variant model_name : string)
    (prefix_textures : bool) (plans : list TexturePlan),
  texture_plans_from raw_textures idx used_names bbmodel_dir namespace asset
    variant model_name prefix_textures = Ok plans ->
  List.NoDup (map file_stem plans)
  /\ forall stem, In stem (map file_stem plans) -> stem ∉ used_names.
Proof.
  induction raw_textures as [|texture rest IH];
    intros idx used_names bbmodel_dir namespace asset variant model_name
      prefix_textures plans Hrun.
  - injection Hrun as <-. split; [constructor|]. intros stem [].
  - apply texture_plans_from_cons in Hrun as (plan & plans' & -> & Hplan & Hrest).
    apply texture_plan_ok in Hplan as (members & _ & Hstem & _).
    destruct (unique_stem_total used_names
                (texture_stem members idx model_name prefix_textures))
      as (r & Hr & Hfree & _).
    rewrite Hr in Hstem. injection Hstem as ->.
    apply IH in Hrest as [Hnodup Hfresh]. simpl. split.
    + constructor; [|exact Hnodup].
      intros Hin. apply Hfresh in Hin. apply Hin, elem_of_union. left.
      now apply elem_of_singleton.
    + intros stem [<-|Hin]; [exact Hfree|].
      apply Hfresh in Hin. intros Hused. apply Hin, elem_of_union. now right.
Qed.

Lemma texture_plans_from_ends (raw_textures : list json) :
  forall (idx : Z) (used_names : gset string)
    (bbmodel_dir namespace asset variant model_name : string)
    (prefix_textures : bool),
  texture_plans_from raw_textures idx used_names bbmodel_dir namespace asset
    variant model_name prefix_textures <> Err Diverged.
Proof.
  induction raw_textures as [|texture rest IH]; intros; [discriminate|].
  simpl.
  pose proof (texture_plan_ends texture idx used_names bbmodel_dir namespace
                asset variant model_name prefix_textures) as Hplan.
  destruct (texture_plan texture idx used_names bbmodel_dir namespace asset
              variant model_name prefix_textures) as [plan|e]; simpl;
    [|congruence].
  pose proof (IH (idx + 1) ({[ file_stem plan ]} ∪ used_names) bbmodel_dir
                namespace asset variant model_name prefix_textures) as Hrest.
  destruct (texture_plans_from rest _ _ _ _ _ _ _ _) as [plans|e]; simpl;
    [discriminate|congruence].
Qed.

(** C3. The file stems of one run are pairwise distinct; the
    de-duplication loop always ends, keeping a stem that is still free and
    otherwise appending _2, _3, ... until the first free name; two
    textures both named "tex" get the stems "tex" and "tex_2". *)
Theorem texture_stems_distinct :
  (forall bbmodel bbmodel_dir namespace asset variant model_name
          prefix_textures plans,
     build_texture_plans bbmodel bbmodel_dir namespace asset variant
       model_name prefix_textures = Ok plans ->
     List.NoDup (map file_stem plans)) /\
  (forall bbmodel bbmodel_dir namespace asset variant model_name
          prefix_textures,
     build_texture_plans bbmodel bbmodel_dir namespace asset variant
       model_name prefix_textures <> Err Diverged) /\
  (forall used_names stem,
     exists unique,
       unique_stem used_names stem = Some unique
       /\ (unique ∉ used_names)
       /\ (stem ∉ used_names -> unique = stem)
       /\ (stem ∈ used_names ->
           exists k,
             2 <= k /\ unique = stem ++ "_" ++ pretty k
             /\ forall j, 2 <= j < k ->
                          stem ++ "_" ++ pretty j ∈ used_names)) /\
  (forall first second bbmodel_dir namespace asset variant model_name plans,
     dict_get "name" first = JStr "tex" ->
     dict_get "name" second = JStr "tex" ->
     path_stem "tex" = "tex" ->
     build_texture_plans [("textures", JArr [JObj first; JObj second])]
       bbmodel_dir namespace asset variant model_name false = Ok plans ->
     map file_stem plans = ["tex"; "tex_2"]) /\
  (exists plans,
     @build_texture_plans (example_host [])
       [("textures", JArr [inline_texture "tex"; inline_texture "tex"])]
       "/models" "ns" "asset" "default" "model" false = Ok plans
     /\ map file_stem plans = ["tex"; "tex_2"]
     /\ map rel_namespace_path plans
        = ["ns:item/asset/default/tex"; "ns:item/asset/default/tex_2"]).
Proof.
  split.
  { intros bbmodel bbmodel_dir namespace asset variant model_name
      prefix_textures plans. unfold build_texture_plans.
    destruct (dict_get "textures" bbmodel); try discriminate.
    intros Hrun. now apply texture_plans_from_stems in Hrun. }
  split.
  { intros. unfold build_texture_plans.
    destruct (dict_get "textures" bbmodel); try discriminate.
    apply texture_plans_from_ends. }
  split; [exact unique_stem_total|].
  split.
  { intros first second bbmodel_dir namespace asset variant model_name plans
      Hfirst Hsecond Hstem. unfold build_texture_plans.
    change (dict_get "textures" [("textures", JArr [JObj first; JObj second])])
      with (JArr [JObj first; JObj second]).
    intros Hrun.
    apply texture_plans_from_cons in Hrun as (p1 & plans1 & -> & Hp1 & Hrun).
    apply texture_plans_from_cons in Hrun as (p2 & plans2 & -> & Hp2 & Hrun).
    injection Hrun as <-.
    apply texture_plan_ok in Hp1 as (m1 & Hm1 & Hs1 & _).
    apply texture_plan_ok in Hp2 as (m2 & Hm2 & Hs2 & _).
    injection Hm1 as <-. injection Hm2 as <-.
    assert (Htex : forall members idx,
              dict_get "name" members = JStr "tex" ->
              texture_stem members idx model_name false = "tex").
    { intros members idx Hname. unfold texture_stem.
      rewrite Hname. simpl. rewrite Hstem. reflexivity. }
    assert (Hone : unique_stem ∅ "tex" = Some "tex")
      by (vm_compute; reflexivity).
    assert (Htwo : unique_stem ({[ "tex" ]} ∪ ∅) "tex" = Some "tex_2")
      by (vm_compute; reflexivity).
    rewrite (Htex first 0 Hfirst), Hone in Hs1. injection Hs1 as Hs1.
    rewrite (Htex second (0 + 1) Hsecond), <- Hs1, Htwo in Hs2.
    injection Hs2 as Hs2. simpl. now rewrite <- Hs1, <- Hs2. }
  eexists. split; [vm_compute; reflexivity|]. split; reflexivity.
Qed.

End StemFacts.

(** Two inline textures named "tex" in one document. *)
Lemma texture_stems_distinct_witness :
  exists plans,
    @build_texture_plans (example_host [])
      [("textures", JArr [inline_texture "tex"; inline_texture "tex"])]
      "/models" "ns" "asset" "default" "model" false = Ok plans
    /\ map file_stem plans = ["tex"; "tex_2"]
    /\ List.NoDup (map file_stem plans).
Proof.
  destruct (@build_texture_plans (example_host [])
              [("textures", JArr [inline_texture "tex"; inline_texture "tex"])]
              "/models" "ns" "asset" "default" "model" false)
    as [plans|e] eqn:Hrun; [|vm_compute in Hrun; discriminate].
  pose proof (@texture_stems_distinct (example_host []))
    as (Hdistinct & _ & _ & Htex & _).
  exists plans. split; [reflexivity|]. split.
  - apply (Htex [("name", JStr "tex");
                  ("source", JStr "data:image/png;base64,AAAA")]
                 [("name", JStr "tex");
                  ("source", JStr "data:image/png;base64,AAAA")]
                 "/models" "ns" "asset" "default" "model" plans
                 eq_refl eq_refl eq_refl).
    exact Hrun.
  - exact (Hdistinct _ _ _ _ _ _ _ _ Hrun).
Defined.

(** ** Coercion at its call sites *)

Section CoercionSites.
Context `{Host}.

(** A texture is planned whenever its source decodes and its coerced
    dimensions classify: no coercion stands in the way. *)
Lemma texture_plan_total (members : list (string * json)) (idx : Z)
    (used_names : gset string)
    (bbmodel_dir namespace asset variant model_name : string)
    (prefix_textures : bool) (data : bytes) (animated : bool) :
  decode_texture_source members bbmodel_dir idx = Ok data ->
  is_animated (read_positive_int (dict_get "width" members) 0)
    (read_positive_int (dict_get "height" members) 0)
    (read_positive_int (dict_get "uv_width" members) 0)
    (read_positive_int (dict_get "uv_height" members) 0) = Ok animated ->
  exists plan,
    texture_plan (JObj members) idx used_names bbmodel_dir namespace asset
      variant model_name prefix_textures = Ok plan
    /\ png_bytes plan = data
    /\ mcmeta_json plan
       = (if animated
          then Some (truthy (dict_get "frame_interpolate" members),
                     read_positive_int (dict_get "frame_time" members) 1)
          else None).
Proof.
  intros Hdata Hanimated. unfold texture_plan.
  destruct (unique_stem_total used_names
              (texture_stem members idx model_name prefix_textures))
    as (unique & -> & _).
  rewrite Hdata. cbv beta iota delta [bind]. rewrite Hanimated.
  eexists. split; [reflexivity|]. split; reflexivity.
Qed.

(** C10. [read_positive_int] is a total function: it returns the default
    or a positive integer, and returns the default on a boolean, an
    integer or integral float that is not positive, a float that is not
    integral, a string that [int] rejects, and anything that is no number
    or string.  A texture is planned from its [width], [height],
    [uv_width] and [uv_height] coerced with default 0 and its
    [frame_time] coerced with default 1, and no value of these fields
    makes the plan fail.  The resolution is coerced with default 16 when
    the document's [resolution] is an object or is absent; when it is
    anything else (null, an array, a number) the lookup of its width
    raises [AttributeError] and the run ends there. *)
Theorem read_positive_int_never_fails :
  (forall value default,
     read_positive_int value default = default
     \/ 0 < read_positive_int value default) /\
  (forall b default, read_positive_int (JBool b) default = default) /\
  (forall z default, z <= 0 -> read_positive_int (JInt z) default = default) /\
  (forall f default,
     float_is_integer f = false \/ int_of_float f <= 0 ->
     read_positive_int (JFloat f) default = default) /\
  (forall s default,
     int_of_str s = None -> read_positive_int (JStr s) default = default) /\
  (forall default,
     read_positive_int JNull default = default /\
     read_positive_int (JFloat (-1.5)%float) default = default /\
     read_positive_int (JFloat 2.5%float) default = default /\
     read_positive_int (JFloat 0%float) default = default /\
     read_positive_int (JFloat infinity) default = default /\
     read_positive_int (JFloat nan) default = default /\
     read_positive_int (JFloat 32%float) default = 32) /\
  (forall key bbmodel resolution,
     dict_get_default "resolution" (JObj []) bbmodel = JObj resolution ->
     exists n,
       model_resolution key bbmodel = Ok n /\ (n = 16 \/ 0 < n) /\
       n = read_positive_int (dict_get key resolution) 16 /\
       (forall b, dict_get key resolution = JBool b -> n = 16) /\
       (forall z, dict_get key resolution = JInt z -> z <= 0 -> n = 16) /\
       (forall f, dict_get key resolution = JFloat f ->
                  float_is_integer f = false -> n = 16) /\
       (forall s, dict_get key resolution = JStr s ->
                  int_of_str s = None -> n = 16)) /\
  (forall key bbmodel,
     dict_get_default "resolution" (JObj []) bbmodel = JObj [] ->
     model_resolution key bbmodel = Ok 16) /\
  (forall key bbmodel,
     is_dict (dict_get_default "resolution" (JObj []) bbmodel) = false ->
     model_resolution key bbmodel = Err (Uncaught "AttributeError")) /\
  (forall members idx used_names bbmodel_dir namespace asset variant
          model_name prefix_textures plan,
     texture_plan (JObj members) idx used_names bbmodel_dir namespace asset
       variant model_name prefix_textures = Ok plan ->
     exists animated,
       is_animated (read_positive_int (dict_get "width" members) 0)
         (read_positive_int (dict_get "height" members) 0)
         (read_positive_int (dict_get "uv_width" members) 0)
         (read_positive_int (dict_get "uv_height" members) 0)
       = Ok animated
       /\ mcmeta_json plan
          = (if animated
             then Some (truthy (dict_get "frame_interpolate" members),
                        read_positive_int (dict_get "frame_time" members) 1)
             else None)) /\
  (forall members idx used_names bbmodel_dir namespace asset variant
          model_name prefix_textures data animated,
     decode_texture_source members bbmodel_dir idx = Ok data ->
     is_animated (read_positive_int (dict_get "width" members) 0)
       (read_positive_int (dict_get "height" members) 0)
       (read_positive_int (dict_get "uv_width" members) 0)
       (read_positive_int (dict_get "uv_height" members) 0) = Ok animated ->
     exists plan,
       texture_plan (JObj members) idx used_names bbmodel_dir namespace asset
         variant model_name prefix_textures = Ok plan) /\
  (forall value : json,
     (value = JBool true \/ value = JInt (-16) \/ value = JFloat 2.5%float
      \/ value = JStr "wide" \/ value = JNull) ->
     (forall field,
        In field ["width"; "height"; "uv_width"; "uv_height"] ->
        @read_positive_int (example_host [])
          (dict_get field [(field, value)]) 0 = 0) /\
     @read_positive_int (example_host [])
       (dict_get "frame_time" [("frame_time", value)]) 1 = 1 /\
     @model_resolution (example_host []) "width"
       [("resolution", JObj [("width", value)])] = Ok 16 /\
     (let* plan :=
        @texture_plan (example_host [])
          (JObj [("source", JStr "data:image/png;base64,AAAA");
                 ("width", value); ("height", JInt 64)])
          0 ∅ "/models" "ns" "asset" "default" "model" false in
      Ok (mcmeta_json plan)) = Ok None /\
     (let* plan :=
        @texture_plan (example_host [])
          (JObj [("source", JStr "data:image/png;base64,AAAA");
                 ("width", JInt 16); ("height", JInt 64);
                 ("uv_width", value); ("uv_height", value);
                 ("frame_time", value)])
          0 ∅ "/models" "ns" "asset" "default" "model" false in
      Ok (mcmeta_json plan)) = Ok (Some (false, 1))) /\
  (forall (resolution : json) bbmodel_dir namespace asset variant model_name
          prefix_textures,
     (resolution = JNull \/ resolution = ints [16; 16]
      \/ resolution = JInt 16) ->
     model_resolution "width" [("resolution", resolution)]
     = Err (Uncaught "AttributeError")
     /\ convert_document
          [("resolution", resolution);
           ("textures", JArr [inline_texture "tex"]);
           ("elements", JArr [cube_element []])]
          bbmodel_dir namespace asset variant model_name prefix_textures
        = Err (Uncaught "AttributeError")).
Proof.
  split; [exact read_positive_int_range|].
  split; [reflexivity|].
  split.
  { intros z default Hz. simpl.
    destruct (0 <? z) eqn:Hpos; [apply Z.ltb_lt in Hpos; lia|reflexivity]. }
  split.
  { intros f default Hf. simpl. destruct (float_is_integer f); [|reflexivity].
    destruct Hf as [Hf|Hf]; [discriminate|].
    destruct (0 <? int_of_float f) eqn:Hpos;
      [apply Z.ltb_lt in Hpos; lia|reflexivity]. }
  split.
  { intros s default Hs. simpl. now rewrite Hs. }
  split.
  { intros default. repeat split; reflexivity. }
  split.
  { intros key bbmodel resolution Hres. unfold model_resolution.
    rewrite Hres. eexists. split; [reflexivity|].
    split; [apply read_positive_int_range|]. split; [reflexivity|].
    repeat split.
    - intros b ->. reflexivity.
    - intros z -> Hz. simpl.
      destruct (0 <? z) eqn:Hpos; [apply Z.ltb_lt in Hpos; lia|reflexivity].
    - intros f -> Hf. simpl. now rewrite Hf.
    - intros s -> Hs. simpl. now rewrite Hs. }
  split.
  { intros key bbmodel Hres. unfold model_resolution. now rewrite Hres. }
  split.
  { intros key bbmodel Hres. unfold model_resolution.
    destruct (dict_get_default "resolution" (JObj []) bbmodel);
      try reflexivity. discriminate. }
  split.
  { intros members idx used_names bbmodel_dir namespace asset variant
      model_name prefix_textures plan Hplan.
    now apply texture_plan_data in Hplan as (_ & Hsite). }
  split.
  { intros members idx used_names bbmodel_dir namespace asset variant
      model_name prefix_textures data animated Hdata Hanimated.
    destruct (texture_plan_total members idx used_names bbmodel_dir namespace
                asset variant model_name prefix_textures data animated Hdata
                Hanimated) as (plan & Hplan & _).
    now exists plan. }
  split.
  { intros value Hvalue.
    destruct Hvalue as [->|[->|[->|[->| ->]]]];
      (split;
       [intros field [<-|[<-|[<-|[<-|[]]]]]; reflexivity
       |repeat split; reflexivity]). }
  intros resolution bbmodel_dir namespace asset variant model_name
    prefix_textures [->|[->| ->]]; split; reflexivity.
Qed.

End CoercionSites.

(** A resolution whose width is the string "wide" falls back to 16, and a
    strip whose [frame_time] is a boolean is planned with frame time 1. *)
Lemma read_positive_int_never_fails_witness :
  @model_resolution (example_host []) "width"
    [("resolution", JObj [("width", JStr "wide"); ("height", JInt 32)])]
  = Ok 16
  /\ exists plan,
       @texture_plan (example_host [])
         (JObj [("source", JStr "data:image/png;base64,AAAA");
                ("width", JInt 16); ("height", JInt 64);
                ("frame_time", JBool true)])
         0 ∅ "/models" "ns" "asset" "default" "model" false = Ok plan
       /\ mcmeta_json plan = Some (false, 1).
Proof.
  pose proof (@read_positive_int_never_fails (example_host []))
    as (_ & _ & _ & _ & _ & _ & Hsite & _ & _ & Htexture & _).
  split.
  - destruct (Hsite "width"
                [("resolution",
                  JObj [("width", JStr "wide"); ("height", JInt 32)])]
                [("width", JStr "wide"); ("height", JInt 32)] eq_refl)
      as (n & Hrun & _ & _ & _ & _ & _ & Hstr).
    rewrite Hrun. f_equal. apply (Hstr "wide"); reflexivity.
  - destruct (@texture_plan (example_host [])
                (JObj [("source", JStr "data:image/png;base64,AAAA");
                       ("width", JInt 16); ("height", JInt 64);
                       ("frame_time", JBool true)])
                0 ∅ "/models" "ns" "asset" "default" "model" false)
      as [plan|e] eqn:Hrun; [|vm_compute in Hrun; discriminate].
    exists plan. split; [reflexivity|].
    destruct (Htexture _ _ _ _ _ _ _ _ _ _ Hrun) as (animated & Hclass & ->).
    vm_compute in Hclass. injection Hclass as <-. reflexivity.
Defined.

(** ** Elements and faces *)

Section ElementFacts.
Context `{Host}.

(** The converted faces are the declared face objects, in the order of
    [VALID_FACES]. *)
Lemma convert_faces_keys (face_names : list string)
    (raw_faces : list (string * json)) (elem_name : string)
    (texture_plans : list TexturePlan) (width height : Z) :
  forall faces,
    convert_faces face_names raw_faces elem_name texture_plans width height
    = Ok faces ->
    map fst faces
    = List.filter (fun face_name => is_dict (dict_get face_name raw_faces))
        face_names.
Proof.
  induction face_names as [|face_name rest IH]; simpl; intros faces Hrun.
  - now injection Hrun as <-.
  - destruct (dict_get face_name raw_faces) as [ | | | | | |raw_face]; simpl;
      auto.
    apply bind_ok in Hrun as (face_obj & _ & Hrun).
    apply bind_ok in Hrun as (faces' & Hrest & Hrun).
    injection Hrun as <-. simpl. f_equal. auto.
Qed.

Lemma in_texture_lookup_nonempty (tex_index : pyint)
    (texture_plans : list TexturePlan) :
  in_texture_lookup tex_index texture_plans = true -> texture_plans <> [].
Proof. now destruct texture_plans. Qed.

(** Every converted face carries the reference of a resolved texture. *)
Lemma convert_faces_lookup (face_names : list string)
    (raw_faces : list (string * json)) (elem_name : string)
    (texture_plans : list TexturePlan) (width height : Z) :
  forall faces,
    convert_faces face_names raw_faces elem_name texture_plans width height
    = Ok faces ->
    Forall
      (fun entry =>
         exists tex_index,
           in_texture_lookup tex_index texture_plans = true
           /\ face_texture (snd entry) = "#" ++ pyint_str tex_index)
      faces.
Proof.
  induction face_names as [|face_name rest IH]; simpl; intros faces Hrun.
  - injection Hrun as <-. constructor.
  - destruct (dict_get face_name raw_faces) as [ | | | | | |raw_face]; auto.
    apply bind_ok in Hrun as (face_obj & Hface & Hrun).
    apply bind_ok in Hrun as (faces' & Hrest & Hrun).
    injection Hrun as <-. constructor; [|auto].
    apply convert_face_texture in Hface as (tex & _ & Hin & Htex). eauto.
Qed.

Lemma filter_nil_existsb {A : Type} (f : A -> bool) (l : list A) :
  List.filter f l = [] <-> existsb f l = false.
Proof.
  induction l as [|a l IH]; simpl; [tauto|].
  destruct (f a); simpl; [split; discriminate|exact IH].
Qed.

(** What a converted element is made of. *)
Lemma convert_element_some (idx : Z) (elem : json)
    (texture_plans : list TexturePlan) (width height : Z)
    (converted : element_out) :
  convert_element idx elem texture_plans width height = Ok (Some converted) ->
  texture_bearing elem = true
  /\ elem_faces converted <> []
  /\ texture_plans <> [].
Proof.
  destruct elem as [ | | | | | |elem]; try discriminate.
  unfold convert_element, texture_bearing, is_visible, has_face_object.
  destruct (is_false (dict_get_default "visibility" (JBool true) elem));
    [discriminate|].
  intros Hrun.
  apply bind_ok in Hrun as (from & _ & Hrun).
  apply bind_ok in Hrun as (to & _ & Hrun).
  apply bind_ok in Hrun as (rotation & _ & Hrun).
  destruct (dict_get "faces" elem) as [ | | | | | |raw_faces];
    try discriminate.
  apply bind_ok in Hrun as (faces & Hfaces & Hrun).
  destruct faces as [|face faces]; [discriminate|].
  injection Hrun as <-.
  pose proof (convert_faces_keys _ _ _ _ _ _ _ Hfaces) as Hkeys.
  pose proof (convert_faces_lookup _ _ _ _ _ _ _ Hfaces) as Hlookup.
  split; [|split; [discriminate|]].
  - destruct (existsb (fun face_name => is_dict (dict_get face_name raw_faces))
                VALID_FACES) eqn:Hnone; [reflexivity|].
    apply filter_nil_existsb in Hnone. rewrite Hnone in Hkeys. discriminate.
  - inversion Hlookup as [|entry rest (tex & Hin & _) _]; subst.
    now apply in_texture_lookup_nonempty in Hin.
Qed.

(** An element that is skipped is invisible or declares no face object. *)
Lemma convert_element_none (idx : Z) (elem : json)
    (texture_plans : list TexturePlan) (width height : Z) :
  convert_element idx elem texture_plans width height = Ok None ->
  texture_bearing elem = false.
Proof.
  destruct elem as [ | | | | | |elem]; try discriminate.
  unfold convert_element, texture_bearing, is_visible, has_face_object.
  destruct (is_false (dict_get_default "visibility" (JBool true) elem));
    [reflexivity|].
  intros Hrun.
  apply bind_ok in Hrun as (from & _ & Hrun).
  apply bind_ok in Hrun as (to & _ & Hrun).
  apply bind_ok in Hrun as (rotation & _ & Hrun).
  destruct (dict_get "faces" elem) as [ | | | | | |raw_faces];
    try discriminate.
  apply bind_ok in Hrun as (faces & Hfaces & Hrun).
  destruct faces as [|face faces]; [|discriminate].
  apply convert_faces_keys in Hfaces. symmetry in Hfaces.
  apply filter_nil_existsb in Hfaces. rewrite Hfaces. reflexivity.
Qed.

Lemma convert_elements_cons (elem : json) (rest : list json) (idx : Z)
    (texture_plans : list TexturePlan) (width height : Z)
    (converted_elements : list element_out) :
  convert_elements (elem :: rest) idx texture_plans width height
  = Ok converted_elements ->
  exists converted others,
    convert_element idx elem texture_plans width height = Ok converted
    /\ convert_elements rest (idx + 1) texture_plans width height = Ok others
    /\ converted_elements
       = match converted with Some c => c :: others | None => others end.
Proof.
  simpl. intros Hrun.
  apply bind_ok in Hrun as (converted & Helem & Hrun).
  apply bind_ok in Hrun as (others & Hrest & Hrun).
  injection Hrun as <-. eauto.
Qed.

(** The converted elements are the conversions of the visible,
    texture-bearing elements, in the order of the source. *)
Lemma convert_elements_in_order (elements : list json)
    (texture_plans : list TexturePlan) (width height : Z) :
  forall idx converted_elements,
    convert_elements elements idx texture_plans width height
    = Ok converted_elements ->
    Forall2
      (fun elem converted =>
         exists position,
           convert_element position elem texture_plans width height
           = Ok (Some converted))
      (List.filter texture_bearing elements) converted_elements.
Proof.
  induction elements as [|elem rest IH]; intros idx converted_elements Hrun.
  - injection Hrun as <-. constructor.
  - apply convert_elements_cons in Hrun
      as (converted & others & Helem & Hrest & ->).
    apply IH in Hrest. simpl. destruct converted as [c|].
    + destruct (convert_element_some _ _ _ _ _ _ Helem) as (-> & _).
      constructor; eauto.
    + now rewrite (convert_element_none _ _ _ _ _ Helem).
Qed.

Lemma convert_elements_faces (elements : list json)
    (texture_plans : list TexturePlan) (width height : Z) :
  forall idx converted_elements,
    convert_elements elements idx texture_plans width height
    = Ok converted_elements ->
    Forall (fun converted => elem_faces converted <> []) converted_elements
    /\ (converted_elements <> [] -> texture_plans <> []).
Proof.
  induction elements as [|elem rest IH]; intros idx converted_elements Hrun.
  - injection Hrun as <-. split; [constructor|congruence].
  - apply convert_elements_cons in Hrun
      as (converted & others & Helem & Hrest & ->).
    apply IH in Hrest as [Hfaces Hplans]. destruct converted as [c|]; [|auto].
    destruct (convert_element_some _ _ _ _ _ _ Helem) as (_ & Hc & Hne).
    split; [constructor; assumption|auto].
Qed.

(** What a converted element is read from. *)
Lemma convert_element_inv (idx : Z) (elem : list (string * json))
    (texture_plans : list TexturePlan) (width height : Z)
    (converted : element_out) :
  convert_element idx (JObj elem) texture_plans width height
  = Ok (Some converted) ->
  let elem_name := element_name idx elem in
  exists raw_faces,
    dict_get "faces" elem = JObj raw_faces
    /\ ensure_list3 (dict_get "from" elem) "from" elem_name
       = Ok (elem_from converted)
    /\ ensure_list3 (dict_get "to" elem) "to" elem_name
       = Ok (elem_to converted)
    /\ convert_rotation (dict_get "rotation" elem) elem elem_name
       = Ok (elem_rotation converted)
    /\ convert_faces VALID_FACES raw_faces elem_name texture_plans width
         height = Ok (elem_faces converted)
    /\ elem_shade_false converted = is_false (dict_get "shade" elem)
    /\ elem_light_emission converted
       = match as_pyint (dict_get "light_emission" elem) with
         | Some n => if 0 <? pyint_value n then Some n else None
         | None => None
         end.
Proof.
  intros Hrun elem_name. unfold convert_element in Hrun.
  destruct (is_false (dict_get_default "visibility" (JBool true) elem));
    [discriminate|].
  fold elem_name in Hrun.
  apply bind_ok in Hrun as (from & Hfrom & Hrun).
  apply bind_ok in Hrun as (to & Hto & Hrun).
  apply bind_ok in Hrun as (rotation & Hrotation & Hrun).
  destruct (dict_get "faces" elem) as [ | | | | | |raw_faces];
    try discriminate.
  apply bind_ok in Hrun as (faces & Hfaces & Hrun).
  destruct faces as [|face faces]; [discriminate|].
  injection Hrun as <-. exists raw_faces. simpl. repeat split; assumption.
Qed.

(** A visible element with sound vectors fails where its rotation or its
    [faces] member does. *)
Lemma convert_element_unfold (idx : Z) (elem : list (string * json))
    (texture_plans : list TexturePlan) (width height : Z)
    (from to : list float) :
  let elem_name := element_name idx elem in
  is_visible (JObj elem) = true ->
  ensure_list3 (dict_get "from" elem) "from" elem_name = Ok from ->
  ensure_list3 (dict_get "to" elem) "to" elem_name = Ok to ->
  convert_element idx (JObj elem) texture_plans width height
  = (let* rotation :=
       convert_rotation (dict_get "rotation" elem) elem elem_name in
     match dict_get "faces" elem with
     | JObj raw_faces =>
         let* faces :=
           convert_faces VALID_FACES raw_faces elem_name texture_plans width
             height in
         match faces with
         | [] => Ok None
         | _ :: _ =>
             Ok (Some {| elem_from := from;
                         elem_to := to;
                         elem_rotation := rotation;
                         elem_shade_false := is_false (dict_get "shade" elem);
                         elem_light_emission :=
                           match as_pyint (dict_get "light_emission" elem) with
                           | Some n =>
                               if 0 <? pyint_value n then Some n else None
                           | None => None
                           end;
                         elem_faces := faces |})
         end
     | _ => Err (FacesNotObject elem_name)
     end).
Proof.
  intros elem_name Hvisible Hfrom Hto. unfold convert_element.
  unfold is_visible in Hvisible. apply negb_true_iff in Hvisible.
  rewrite Hvisible. fold elem_name. now rewrite Hfrom, Hto.
Qed.

(** Every converted face is the conversion of the face object declared
    under its name. *)
Lemma convert_faces_source (face_names : list string)
    (raw_faces : list (string * json)) (elem_name : string)
    (texture_plans : list TexturePlan) (width height : Z) :
  forall faces,
    convert_faces face_names raw_faces elem_name texture_plans width height
    = Ok faces ->
    Forall
      (fun entry =>
         exists raw_face,
           dict_get (fst entry) raw_faces = JObj raw_face
           /\ convert_face raw_face elem_name (fst entry) texture_plans width
                height = Ok (snd entry))
      faces.
Proof.
  induction face_names as [|face_name rest IH]; simpl; intros faces Hrun.
  - injection Hrun as <-. constructor.
  - destruct (dict_get face_name raw_faces) as [ | | | | | |raw_face] eqn:Hraw;
      auto.
    apply bind_ok in Hrun as (face_obj & Hface & Hrun).
    apply bind_ok in Hrun as (faces' & Hrest & Hrun).
    injection Hrun as <-. constructor; [simpl; eauto|auto].
Qed.

(** The rectangle of a converted face is the rescaled rectangle of its
    source. *)
Lemma convert_face_inv (raw_face : list (string * json))
    (elem_name face_name : string) (texture_plans : list TexturePlan)
    (width height : Z) (face : face_out) :
  convert_face raw_face elem_name face_name texture_plans width height
  = Ok face ->
  exists raw_uv,
    ensure_list4 (dict_get "uv" raw_face) "face uv" elem_name = Ok raw_uv
    /\ convert_face_uv raw_uv width height = Ok (face_uv face).
Proof.
  unfold convert_face. intros Hrun.
  apply bind_ok in Hrun as (tex_index & _ & Hrun).
  destruct (in_texture_lookup tex_index texture_plans); [|discriminate].
  apply bind_ok in Hrun as (raw_uv & Hraw & Hrun).
  apply bind_ok in Hrun as (uv & Huv & Hrun).
  apply bind_ok in Hrun as (rotation & _ & Hrun).
  injection Hrun as <-. exists raw_uv. auto.
Qed.

(** The elements of a produced document are the conversions of the
    document's element array. *)
Lemma build_model_json_elements (bbmodel : list (string * json))
    (texture_plans : list TexturePlan) (width height : Z)
    (model : model_json) :
  build_model_json bbmodel texture_plans width height = Ok model ->
  exists raw_elements,
    dict_get "elements" bbmodel = JArr raw_elements
    /\ convert_elements raw_elements 0 texture_plans width height
       = Ok (elements model).
Proof.
  unfold build_model_json.
  destruct (dict_get "elements" bbmodel) as [ | | | | |raw_elements|];
    try discriminate.
  destruct (convert_elements raw_elements 0 texture_plans width height)
    as [converted_elements|e] eqn:Hrun; [|discriminate].
  simpl. destruct converted_elements as [|c rest]; [discriminate|].
  intros Hmodel. injection Hmodel as <-. exists raw_elements.
  split; [reflexivity|exact Hrun].
Qed.

Lemma convert_document_inv (bbmodel : list (string * json))
    (bbmodel_dir namespace asset variant model_name : string)
    (prefix_textures : bool) (texture_plans : list TexturePlan)
    (model : model_json) :
  convert_document bbmodel bbmodel_dir namespace asset variant model_name
    prefix_textures = Ok (texture_plans, model) ->
  exists width height,
    model_resolution "width" bbmodel = Ok width
    /\ model_resolution "height" bbmodel = Ok height
    /\ build_texture_plans bbmodel bbmodel_dir namespace asset variant
         model_name prefix_textures = Ok texture_plans
    /\ build_model_json bbmodel texture_plans width height = Ok model.
Proof.
  unfold convert_document. intros Hrun.
  apply bind_ok in Hrun as (width & Hwidth & Hrun).
  apply bind_ok in Hrun as (height & Hheight & Hrun).
  apply bind_ok in Hrun as (plans & Hplans & Hrun).
  apply bind_ok in Hrun as (built & Hbuilt & Hrun).
  injection Hrun as <- <-. exists width, height. auto.
Qed.

End ElementFacts.

(** ** The rotation of an emitted element *)

Section EmittedRotation.
Context `{Host}.


End EmittedRotation.


(** ** The rectangles of emitted faces *)

Section EmittedUv.
Context `{Host}.

Lemma convert_face_uv_inv (raw_uv : list float) (width height : Z)
    (uv : list float) :
  convert_face_uv raw_uv width height = Ok uv ->
  exists u0 v0 u1 v1 scale_width scale_height,
    raw_uv = [u0; v0; u1; v1]
    /\ uv_scale width = Ok scale_width
    /\ uv_scale height = Ok scale_height
    /\ uv = [u0 / scale_width; v0 / scale_height;
             u1 / scale_width; v1 / scale_height]%float.
Proof.
  unfold convert_face_uv. intros Hrun.
  apply bind_ok in Hrun as (sw & Hsw & Hrun).
  apply bind_ok in Hrun as (sh & Hsh & Hrun).
  destruct raw_uv as [|u0 [|v0 [|u1 [|v1 [|extra rest]]]]]; try discriminate.
  unfold float_truediv in Hrun.
  rewrite (uv_scale_not_zero _ _ Hsw), (uv_scale_not_zero _ _ Hsh) in Hrun.
  simpl in Hrun. injection Hrun as <-.
  exists u0, v0, u1, v1, sw, sh. auto.
Qed.

(** The rectangle of every face of a converted element is the rectangle
    of the face declared under that name, divided by the scale factors. *)
Lemma convert_element_uv (idx : Z) (elem : list (string * json))
    (texture_plans : list TexturePlan) (width height : Z)
    (converted : element_out) :
  convert_element idx (JObj elem) texture_plans width height
  = Ok (Some converted) ->
  exists raw_faces,
    dict_get "faces" elem = JObj raw_faces
    /\ Forall
         (fun entry =>
            exists raw_face u0 v0 u1 v1 scale_width scale_height,
              dict_get (fst entry) raw_faces = JObj raw_face
              /\ ensure_list4 (dict_get "uv" raw_face) "face uv"
                   (element_name idx elem) = Ok [u0; v0; u1; v1]
              /\ uv_scale width = Ok scale_width
              /\ uv_scale height = Ok scale_height
              /\ face_uv (snd entry)
                 = [u0 / scale_width; v0 / scale_height;
                    u1 / scale_width; v1 / scale_height]%float)
         (elem_faces converted).
Proof.
  intros Hrun.
  apply convert_element_inv in Hrun
    as (raw_faces & Hfaces & _ & _ & _ & Hconverted & _).
  exists raw_faces. split; [exact Hfaces|].
  apply convert_faces_source in Hconverted.
  eapply List.Forall_impl; [|exact Hconverted].
  intros entry (raw_face & Hraw & Hface).
  apply convert_face_inv in Hface as (raw_uv & Huv & Hscaled).
  apply convert_face_uv_inv in Hscaled
    as (u0 & v0 & u1 & v1 & sw & sh & -> & Hsw & Hsh & Hout).
  exists raw_face, u0, v0, u1, v1, sw, sh. auto.
Qed.

(** C5. The scale factor of a resolution is [resolution / 16.0], replaced
    by 1.0 when it is not positive; each UV x-coordinate is divided by the
    width's factor and each y-coordinate by the height's, and the
    rectangle of every face of every element of a produced document is
    the rectangle of its source face so divided, with the factors of the
    document's own resolution; at resolution 16x16 both factors are 1.0,
    and the cube from [[0,0,0]] to [[16,16,16]] with six faces of uv
    [[0,0,16,16]] on texture 0 and no rotation converts to six faces with
    texture "#0" and uv [[0,0,16,16]], which at resolution 32x64 becomes
    [[0,0,8,4]]. *)
Theorem convert_face_uv_rescales :
  (forall resolution scale,
     uv_scale resolution = Ok scale <->
     exists r,
       float_of_int resolution = Ok r /\
       scale = (if PrimFloat.leb (r / 16) 0 then 1 else (r / 16))%float) /\
  (forall u0 v0 u1 v1 width height scale_width scale_height,
     uv_scale width = Ok scale_width ->
     uv_scale height = Ok scale_height ->
     convert_face_uv [u0; v0; u1; v1] width height
     = Ok [u0 / scale_width; v0 / scale_height;
           u1 / scale_width; v1 / scale_height]%float) /\
  uv_scale 16 = Ok 1%float /\
  uv_scale 32 = Ok 2%float /\
  uv_scale 0 = Ok 1%float /\
  uv_scale (-16) = Ok 1%float /\
  convert_face_uv [0; 0; 16; 16]%float 16 16 = Ok [0; 0; 16; 16]%float /\
  convert_face_uv [0; 0; 16; 16]%float 32 64 = Ok [0; 0; 8; 4]%float /\
  (forall bbmodel_dir namespace asset variant model_name prefix_textures,
     exists texture_plans model,
       @convert_document (example_host []) cube_document bbmodel_dir namespace
         asset variant model_name prefix_textures
       = Ok (texture_plans, model) /\
       elements model =
       [{| elem_from := [0; 0; 0]%float;
           elem_to := [16; 16; 16]%float;
           elem_rotation := None;
           elem_shade_false := false;
           elem_light_emission := None;
           elem_faces :=
             map
               (fun face_name =>
                  (face_name,
                   {| face_uv := [0; 0; 16; 16]%float;
                      face_texture := "#0";
                      face_rotation := None;
                      face_tintindex := None |}))
               VALID_FACES |}]) /\
  (forall raw_face elem_name face_name texture_plans width height face,
     convert_face raw_face elem_name face_name texture_plans width height
     = Ok face ->
     exists u0 v0 u1 v1 scale_width scale_height,
       ensure_list4 (dict_get "uv" raw_face) "face uv" elem_name
       = Ok [u0; v0; u1; v1]
       /\ uv_scale width = Ok scale_width
       /\ uv_scale height = Ok scale_height
       /\ face_uv face
          = [u0 / scale_width; v0 / scale_height;
             u1 / scale_width; v1 / scale_height]%float) /\
  (forall bbmodel bbmodel_dir namespace asset variant model_name
          prefix_textures texture_plans model,
     convert_document bbmodel bbmodel_dir namespace asset variant model_name
       prefix_textures = Ok (texture_plans, model) ->
     exists width height scale_width scale_height raw_elements,
       model_resolution "width" bbmodel = Ok width
       /\ model_resolution "height" bbmodel = Ok height
       /\ uv_scale width = Ok scale_width
       /\ uv_scale height = Ok scale_height
       /\ dict_get "elements" bbmodel = JArr raw_elements
       /\ Forall2
            (fun elem converted =>
               exists position members raw_faces,
                 elem = JObj members
                 /\ dict_get "faces" members = JObj raw_faces
                 /\ Forall
                      (fun entry =>
                         exists raw_face u0 v0 u1 v1,
                           dict_get (fst entry) raw_faces = JObj raw_face
                           /\ ensure_list4 (dict_get "uv" raw_face) "face uv"
                                (element_name position members)
                              = Ok [u0; v0; u1; v1]
                           /\ face_uv (snd entry)
                              = [u0 / scale_width; v0 / scale_height;
                                 u1 / scale_width; v1 / scale_height]%float)
                      (elem_faces converted))
            (List.filter texture_bearing raw_elements) (elements model)) /\
  (forall bbmodel_dir namespace asset variant model_name prefix_textures,
     exists texture_plans model,
       @convert_document (example_host []) turned_cube_document bbmodel_dir
         namespace asset variant model_name prefix_textures
       = Ok (texture_plans, model) /\
       map (fun converted => map snd (elem_faces converted)) (elements model)
       = [map
            (fun _ =>
               {| face_uv := [0; 0; 8; 4]%float;
                  face_texture := "#0";
                  face_rotation := None;
                  face_tintindex := None |})
            VALID_FACES]).
Proof.
  split.
  { intros resolution scale. unfold uv_scale. rewrite bind_ok.
    split; intros (r & Hr & Hscale); exists r; split; congruence. }
  split.
  { intros u0 v0 u1 v1 width height sw sh Hw Hh. unfold convert_face_uv.
    rewrite Hw, Hh. simpl. unfold float_truediv.
    rewrite (uv_scale_not_zero _ _ Hw), (uv_scale_not_zero _ _ Hh).
    reflexivity. }
  do 6 (split; [reflexivity|]).
  split.
  { intros bbmodel_dir namespace asset variant model_name prefix_textures.
    do 2 eexists. split; reflexivity. }
  split.
  { intros raw_face elem_name face_name texture_plans width height face
      Hface.
    apply convert_face_inv in Hface as (raw_uv & Huv & Hscaled).
    apply convert_face_uv_inv in Hscaled
      as (u0 & v0 & u1 & v1 & sw & sh & -> & Hsw & Hsh & Hout).
    exists u0, v0, u1, v1, sw, sh. auto. }
  split.
  { intros bbmodel bbmodel_dir namespace asset variant model_name
      prefix_textures texture_plans model Hrun.
    apply convert_document_inv in Hrun
      as (width & height & Hwidth & Hheight & _ & Hmodel).
    pose proof Hmodel as Hnonempty.
    apply build_model_json_elements in Hmodel
      as (raw_elements & Hraw & Hconverted).
    apply convert_elements_in_order in Hconverted.
    assert (Hne : elements model <> []).
    { unfold build_model_json in Hnonempty. rewrite Hraw in Hnonempty.
      destruct (convert_elements raw_elements 0 texture_plans width height)
        as [[|c rest]|e]; simpl in Hnonempty; try discriminate.
      injection Hnonempty as <-. discriminate. }
    assert (Hscales : exists sw sh,
              uv_scale width = Ok sw /\ uv_scale height = Ok sh).
    { inversion Hconverted as [|elem c elems rest (position & Helem)].
      - exfalso. apply Hne. congruence.
      - destruct elem as [ | | | | | |members]; try discriminate.
        pose proof (convert_element_some _ _ _ _ _ _ Helem)
          as (_ & Hfaces & _).
        apply convert_element_uv in Helem as (raw_faces & _ & Hall).
        destruct (elem_faces c) as [|entry entries]; [now destruct Hfaces|].
        inversion Hall as [|first others Hentry].
        destruct Hentry
          as (raw_face & u0 & v0 & u1 & v1 & sw & sh & _ & _ & Hsw & Hsh
              & _).
        eauto. }
    destruct Hscales as (sw & sh & Hsw & Hsh).
    exists width, height, sw, sh, raw_elements.
    do 5 (split; [assumption|]).
    eapply Forall2_impl; [exact Hconverted|].
    intros elem converted (position & Helem).
    destruct elem as [ | | | | | |members]; try discriminate.
    apply convert_element_uv in Helem as (raw_faces & Hfaces & Hall).
    exists position, members, raw_faces. do 2 (split; [auto|]).
    eapply List.Forall_impl; [|exact Hall].
    intros entry (raw_face & u0 & v0 & u1 & v1 & sw' & sh' & Hface & Huv
                  & Hsw' & Hsh' & Hout).
    rewrite Hsw in Hsw'. injection Hsw' as <-.
    rewrite Hsh in Hsh'. injection Hsh' as <-.
    exists raw_face, u0, v0, u1, v1. auto. }
  intros bbmodel_dir namespace asset variant model_name prefix_textures.
  do 2 eexists. split; reflexivity.
Qed.

End EmittedUv.

(** At resolution 32x64 the rectangle [[4, 8, 12, 16]] becomes
    [[2, 2, 6, 4]], alone and on the north face of a converted element. *)
Lemma convert_face_uv_rescales_witness :
  convert_face_uv [4; 8; 12; 16]%float 32 64 = Ok [2; 2; 6; 4]%float
  /\ exists face,
       @convert_face (example_host [])
         [("uv", ints [4; 8; 12; 16]); ("texture", JInt 0)] "cube" "north"
         (numbered_plans 1) 32 64 = Ok face
       /\ face_uv face = [2; 2; 6; 4]%float.
Proof.
  pose proof (@convert_face_uv_rescales (example_host []))
    as (_ & Hdiv & _ & _ & _ & _ & _ & _ & _ & Hface & _).
  split.
  - rewrite (Hdiv 4%float 8%float 12%float 16%float 32 64 2%float 4%float
               eq_refl eq_refl).
    reflexivity.
  - destruct (@convert_face (example_host [])
                [("uv", ints [4; 8; 12; 16]); ("texture", JInt 0)] "cube"
                "north" (numbered_plans 1) 32 64) as [face|e] eqn:Hrun;
      [|vm_compute in Hrun; discriminate].
    exists face. split; [reflexivity|].
    destruct (Hface _ _ _ _ _ _ _ Hrun)
      as (u0 & v0 & u1 & v1 & sw & sh & Huv & Hsw & Hsh & ->).
    vm_compute in Huv, Hsw, Hsh.
    injection Huv as <- <- <- <-. injection Hsw as <-. injection Hsh as <-.
    reflexivity.
Defined.

(** ** The empty result *)

Section EmptyResultFacts.
Context `{Host}.

Lemma convert_faces_none (face_names : list string)
    (raw_faces : list (string * json)) (elem_name : string)
    (texture_plans : list TexturePlan) (width height : Z) :
  existsb (fun face_name => is_dict (dict_get face_name raw_faces)) face_names
  = false ->
  convert_faces face_names raw_faces elem_name texture_plans width height
  = Ok [].
Proof.
  induction face_names as [|face_name rest IH]; simpl; [reflexivity|].
  intros Hnone. apply orb_false_iff in Hnone as [Hface Hrest].
  destruct (dict_get face_name raw_faces); try discriminate; auto.
Qed.

Lemma convert_elements_invisible (elements : list json)
    (texture_plans : list TexturePlan) (width height : Z) :
  Forall
    (fun elem =>
       exists members,
         elem = JObj members
         /\ dict_get_default "visibility" (JBool true) members = JBool false)
    elements ->
  forall idx,
    convert_elements elements idx texture_plans width height = Ok [].
Proof.
  induction 1 as [|elem rest (members & -> & Hvis) _ IH]; intros idx;
    [reflexivity|].
  simpl. rewrite Hvis. simpl. now rewrite IH.
Qed.

(** C8, amended. A model document is never empty: a document that is
    produced has at least one element and every element has at least one
    face.  An element marked [visibility: false] is skipped; an element
    none of whose six faces is an object is never emitted, and is dropped
    without a failure when its [faces] member is an object and its
    vectors and rotation are sound; a visible element with sound vectors
    and rotation whose [faces] member is missing or no object fails with
    the missing-faces failure instead; when no element is left, as when
    every element is marked not visible, the run fails with the
    no-visible-elements failure (an EmptyResult). *)
Theorem empty_result_is_a_failure :
  (forall bbmodel texture_plans width height model,
     build_model_json bbmodel texture_plans width height = Ok model ->
     elements model <> []
     /\ Forall (fun converted => elem_faces converted <> []) (elements model)) /\
  (forall idx elem texture_plans width height,
     dict_get_default "visibility" (JBool true) elem = JBool false ->
     convert_element idx (JObj elem) texture_plans width height = Ok None) /\
  (forall idx elem texture_plans width height converted,
     has_face_object elem = false ->
     convert_element idx elem texture_plans width height = Ok converted ->
     converted = None) /\
  (forall idx elem texture_plans width height from to rotation raw_faces,
     ensure_list3 (dict_get "from" elem) "from" (element_name idx elem)
     = Ok from ->
     ensure_list3 (dict_get "to" elem) "to" (element_name idx elem) = Ok to ->
     convert_rotation (dict_get "rotation" elem) elem (element_name idx elem)
     = Ok rotation ->
     dict_get "faces" elem = JObj raw_faces ->
     has_face_object (JObj elem) = false ->
     convert_element idx (JObj elem) texture_plans width height = Ok None) /\
  (forall idx elem texture_plans width height from to rotation,
     is_visible (JObj elem) = true ->
     ensure_list3 (dict_get "from" elem) "from" (element_name idx elem)
     = Ok from ->
     ensure_list3 (dict_get "to" elem) "to" (element_name idx elem) = Ok to ->
     convert_rotation (dict_get "rotation" elem) elem (element_name idx elem)
     = Ok rotation ->
     is_dict (dict_get "faces" elem) = false ->
     has_face_object (JObj elem) = false
     /\ convert_element idx (JObj elem) texture_plans width height
        = Err (FacesNotObject (element_name idx elem))
     /\ kind_of (FacesNotObject (element_name idx elem)) = MalformedInput) /\
  (forall bbmodel texture_plans width height raw_elements,
     dict_get "elements" bbmodel = JArr raw_elements ->
     convert_elements raw_elements 0 texture_plans width height = Ok [] ->
     build_model_json bbmodel texture_plans width height
     = Err NoVisibleElements) /\
  (forall bbmodel texture_plans width height raw_elements,
     dict_get "elements" bbmodel = JArr raw_elements ->
     Forall
       (fun elem =>
          exists members,
            elem = JObj members
            /\ dict_get_default "visibility" (JBool true) members
               = JBool false)
       raw_elements ->
     build_model_json bbmodel texture_plans width height
     = Err NoVisibleElements) /\
  kind_of NoVisibleElements = EmptyResult.
Proof.
  split.
  { intros bbmodel texture_plans width height model. unfold build_model_json.
    destruct (dict_get "elements" bbmodel); try discriminate.
    destruct (convert_elements items 0 texture_plans width height)
      as [converted_elements|e] eqn:Hrun; [|discriminate].
    simpl. destruct converted_elements as [|c rest]; [discriminate|].
    intros Hmodel. injection Hmodel as <-. simpl.
    split; [discriminate|]. now apply convert_elements_faces in Hrun. }
  split.
  { intros idx elem texture_plans width height Hvis. simpl.
    now rewrite Hvis. }
  split.
  { intros idx elem texture_plans width height [c|] Hnone Hrun;
      [|reflexivity].
    apply convert_element_some in Hrun as (Hbearing & _).
    unfold texture_bearing in Hbearing. rewrite Hnone in Hbearing.
    now rewrite andb_false_r in Hbearing. }
  split.
  { intros idx elem texture_plans width height from to rotation raw_faces
      Hfrom Hto Hrotation Hfaces Hnone.
    unfold has_face_object in Hnone. rewrite Hfaces in Hnone.
    unfold convert_element.
    destruct (is_false (dict_get_default "visibility" (JBool true) elem));
      [reflexivity|].
    cbv zeta. rewrite Hfrom, Hto, Hrotation, Hfaces.
    cbv beta iota delta [bind].
    now rewrite (convert_faces_none _ _ _ _ _ _ Hnone). }
  split.
  { intros idx elem texture_plans width height from to rotation
      Hvisible Hfrom Hto Hrotation Hfaces.
    split; [|split; [|reflexivity]].
    - unfold has_face_object.
      destruct (dict_get "faces" elem); try reflexivity. discriminate.
    - rewrite (convert_element_unfold idx elem texture_plans width height
                 from to Hvisible Hfrom Hto).
      rewrite Hrotation. cbv beta iota delta [bind].
      destruct (dict_get "faces" elem); try reflexivity. discriminate. }
  split.
  { intros bbmodel texture_plans width height raw_elements Helements Hrun.
    unfold build_model_json. now rewrite Helements, Hrun. }
  split; [|reflexivity].
  intros bbmodel texture_plans width height raw_elements Helements Hall.
  unfold build_model_json. rewrite Helements.
  now rewrite (convert_elements_invisible _ _ _ _ Hall).
Qed.

(** A document whose only element is hidden, and one whose only element
    has an empty [faces] object, both end in the empty-result failure; one
    whose only element has no [faces] member, or an empty [faces] object
    but no [from], fails on that element. *)
Example hidden_cube_is_empty :
  build_model_json
    [("elements", JArr [cube_element [("visibility", JBool false)]])]
    (numbered_plans 1) 16 16 = Err NoVisibleElements
  /\ build_model_json
       [("elements",
         JArr [JObj [("from", ints [0; 0; 0]); ("to", ints [1; 1; 1]);
                     ("faces", JObj [])]])]
       (numbered_plans 1) 16 16 = Err NoVisibleElements
  /\ build_model_json
       [("elements",
         JArr [JObj [("from", ints [0; 0; 0]); ("to", ints [1; 1; 1])]])]
       (numbered_plans 1) 16 16 = Err (FacesNotObject "element_0")
  /\ build_model_json
       [("elements", JArr [JObj [("to", ints [1; 1; 1]); ("faces", JObj [])]])]
       (numbered_plans 1) 16 16 = Err (BadVector "element_0" "from" 3).
Proof. repeat split; reflexivity. Qed.

End EmptyResultFacts.

(** A document whose two elements are both hidden, and an element without
    a [faces] member. *)
Lemma empty_result_is_a_failure_witness :
  @build_model_json (example_host [])
    [("elements",
      JArr [cube_element [("visibility", JBool false)];
            JObj [("visibility", JBool false)]])]
    (numbered_plans 1) 16 16
  = Err NoVisibleElements
  /\ @convert_element (example_host []) 0
       (JObj [("from", ints [0; 0; 0]); ("to", ints [1; 1; 1])])
       (numbered_plans 1) 16 16
     = Err (FacesNotObject "element_0").
Proof.
  pose proof (@empty_result_is_a_failure (example_host []))
    as (_ & _ & _ & _ & Hfaceless & _ & Hhidden & _).
  split.
  - apply (Hhidden
             [("elements",
               JArr [cube_element [("visibility", JBool false)];
                     JObj [("visibility", JBool false)]])]
             (numbered_plans 1) 16 16
             [cube_element [("visibility", JBool false)];
              JObj [("visibility", JBool false)]] eq_refl).
    repeat constructor; eexists; split; reflexivity.
  - apply (Hfaceless 0 [("from", ints [0; 0; 0]); ("to", ints [1; 1; 1])]
             (numbered_plans 1) 16 16 [0; 0; 0]%float [1; 1; 1]%float None);
      reflexivity.
Defined.

(** C8 as stated fails on an element without a [faces] member: its six
    faces are all absent, it is visible and its vectors and rotation are
    sound, yet it is not dropped but ends the run with the missing-faces
    failure. *)
Lemma faceless_element_is_a_failure :
  ~ (forall (host : Host) idx elem texture_plans width height from to
            rotation,
       is_visible (JObj elem) = true ->
       @ensure_list3 host (dict_get "from" elem) "from"
         (@element_name host idx elem) = Ok from ->
       @ensure_list3 host (dict_get "to" elem) "to"
         (@element_name host idx elem) = Ok to ->
       @convert_rotation host (dict_get "rotation" elem) elem
         (@element_name host idx elem) = Ok rotation ->
       has_face_object (JObj elem) = false ->
       @convert_element host idx (JObj elem) texture_plans width height
       = Ok None).
Proof.
  intros Hclaim.
  specialize (Hclaim (example_host []) 0
                [("from", ints [0; 0; 0]); ("to", ints [1; 1; 1])]
                (numbered_plans 1) 16 16 [0; 0; 0]%float [1; 1; 1]%float None
                eq_refl eq_refl eq_refl eq_refl eq_refl).
  vm_compute in Hclaim. discriminate.
Qed.

(** ** The texture table *)

(** Decimal numerals begin with a digit or a sign, never with a "p". *)
Lemma pretty_N_go_head (x : N) :
  forall s t, pretty_N_go x s = String "p" t -> s = String "p" t.
Proof.
  induction x as [x IH] using (well_founded_induction N.lt_wf_0).
  intros s t Hgo. destruct (N.eq_dec x 0%N) as [->|Hpos].
  - now rewrite pretty_N_go_0 in Hgo.
  - rewrite pretty_N_go_step in Hgo by lia.
    apply IH in Hgo; [|apply N.div_lt; lia].
    injection Hgo as Hchar _. exfalso.
    unfold pretty_N_char in Hchar. repeat case_match; discriminate.
Qed.

Lemma pretty_not_particle (z : Z) : pretty z <> "particle".
Proof.
  unfold pretty, pretty_Z. destruct z as [|p|p]; [discriminate| |discriminate].
  unfold pretty, pretty_positive, pretty, pretty_N.
  destruct (decide (N.pos p = 0%N)); [discriminate|].
  intros Hgo. apply pretty_N_go_head in Hgo. discriminate.
Qed.

Lemma dict_set_fresh {V : Type} (key : string) (v : V)
    (d : list (string * V)) :
  ~ In key (map fst d) -> dict_set key v d = (d ++ [(key, v)])%list.
Proof.
  induction d as [|[k x] d IH]; simpl; intros Hfresh; [reflexivity|].
  destruct (String.eqb_spec k key) as [->|Hne]; [tauto|].
  f_equal. apply IH. tauto.
Qed.

Lemma texture_table_fold (texture_plans : list TexturePlan) :
  forall table,
    List.NoDup (map index texture_plans) ->
    (forall plan, In plan texture_plans ->
                  ~ In (pretty (index plan)) (map fst table)) ->
    fold_left
      (fun d plan => dict_set (pretty (index plan)) (rel_namespace_path plan) d)
      texture_plans table
    = (table ++ map texture_entry texture_plans)%list.
Proof.
  induction texture_plans as [|plan rest IH]; intros table Hnodup Hfresh; simpl.
  - now rewrite app_nil_r.
  - inversion Hnodup as [|i l Hnotin Hrest]; subst.
    rewrite dict_set_fresh by (apply Hfresh; now left).
    rewrite IH; [now rewrite <- app_assoc|exact Hrest|].
    intros other Hother. rewrite map_app, in_app_iff. simpl.
    intros [Hin|[Heq|[]]].
    + apply (Hfresh other); [now right|exact Hin].
    + apply (inj pretty) in Heq. apply Hnotin. rewrite Heq.
      now apply in_map.
Qed.

(** With pairwise distinct indices the texture table lists one entry per
    plan, in order, and then the particle entry of the first plan. *)
Lemma texture_object_entries (texture_plans : list TexturePlan) :
  List.NoDup (map index texture_plans) ->
  texture_object texture_plans
  = (map texture_entry texture_plans
     ++ match texture_plans with
        | [] => []
        | first :: _ => [("particle", rel_namespace_path first)]
        end)%list.
Proof.
  intros Hnodup. unfold texture_object.
  rewrite (texture_table_fold texture_plans [] Hnodup) by (intros plan _ []).
  simpl. destruct texture_plans as [|first rest]; [now rewrite app_nil_r|].
  apply dict_set_fresh. rewrite map_map. intros Hin.
  apply in_map_iff in Hin as (plan & Hkey & _).
  now apply pretty_not_particle in Hkey.
Qed.

Section CountFacts.
Context `{Host}.

Lemma texture_plans_from_indices (raw_textures : list json) :
  forall (idx : Z) (used_names : gset string)
    (bbmodel_dir namespace asset variant model_name : string)
    (prefix_textures : bool) (plans : list TexturePlan),
  texture_plans_from raw_textures idx used_names bbmodel_dir namespace asset
    variant model_name prefix_textures = Ok plans ->
  map index plans
  = map (fun i => idx + Z.of_nat i) (seq 0 (length raw_textures)).
Proof.
  induction raw_textures as [|texture rest IH];
    intros idx used_names bbmodel_dir namespace asset variant model_name
      prefix_textures plans Hrun.
  - now injection Hrun as <-.
  - apply texture_plans_from_cons in Hrun
      as (plan & plans' & -> & Hplan & Hrest).
    apply texture_plan_ok in Hplan as (members & _ & _ & Hidx & _).
    apply IH in Hrest. cbn [map length seq]. rewrite Hidx, Hrest.
    f_equal; [lia|]. rewrite <- seq_shift, map_map.
    apply map_ext. intros i. lia.
Qed.

Lemma index_range_nodup (idx : Z) (n : nat) :
  List.NoDup (map (fun i => idx + Z.of_nat i) (seq 0 n)).
Proof.
  apply Finite.Injective_map_NoDup; [|apply seq_NoDup].
  intros i j Hij. lia.
Qed.

(** C1. For a source document that converts, with N declared textures and
    M visible, texture-bearing elements: there is one plan per texture,
    with indices 0..N-1; N is at least 1; the texture table is the N
    entries keyed by the decimal indices, in order, followed by the entry
    "particle" that repeats the first texture's resource reference, so it
    has N+1 pairwise distinct keys; and the element array has M entries,
    which are the conversions of the visible, texture-bearing elements in
    source order. *)
Theorem document_counts
    (bbmodel : list (string * json))
    (bbmodel_dir namespace asset variant model_name : string)
    (prefix_textures : bool) (texture_plans : list TexturePlan)
    (model : model_json) (raw_textures raw_elements : list json) :
  convert_document bbmodel bbmodel_dir namespace asset variant model_name
    prefix_textures = Ok (texture_plans, model) ->
  dict_get "textures" bbmodel = JArr raw_textures ->
  dict_get "elements" bbmodel = JArr raw_elements ->
  let N := length raw_textures in
  let M := length (List.filter texture_bearing raw_elements) in
  length texture_plans = N
  /\ map index texture_plans = map Z.of_nat (seq 0 N)
  /\ (exists first rest,
        texture_plans = first :: rest
        /\ textures model
           = (map texture_entry texture_plans
              ++ [("particle", rel_namespace_path first)])%list)
  /\ map fst (textures model)
     = (map (fun i => pretty (Z.of_nat i)) (seq 0 N) ++ ["particle"])%list
  /\ List.NoDup (map fst (textures model))
  /\ length (textures model) = (N + 1)%nat
  /\ length (elements model) = M
  /\ Forall2
       (fun elem converted =>
          exists position width height,
            convert_element position elem texture_plans width height
            = Ok (Some converted))
       (List.filter texture_bearing raw_elements) (elements model).
Proof.
  intros Hrun Htextures Helements N M. unfold convert_document in Hrun.
  apply bind_ok in Hrun as (width & _ & Hrun).
  apply bind_ok in Hrun as (height & _ & Hrun).
  apply bind_ok in Hrun as (plans & Hplans & Hrun).
  apply bind_ok in Hrun as (built & Hbuild & Hrun).
  injection Hrun as -> ->.
  unfold build_texture_plans in Hplans. rewrite Htextures in Hplans.
  apply texture_plans_from_indices in Hplans. simpl in Hplans.
  assert (Hlen : length texture_plans = N).
  { rewrite <- (length_map index), Hplans, length_map. apply length_seq. }
  assert (Hnodup : List.NoDup (map index texture_plans)).
  { rewrite Hplans. apply (index_range_nodup 0). }
  unfold build_model_json in Hbuild. rewrite Helements in Hbuild.
  destruct (convert_elements raw_elements 0 texture_plans width height)
    as [converted_elements|e] eqn:Hconv; [|discriminate].
  simpl in Hbuild.
  destruct converted_elements as [|c others] eqn:Hsome; [discriminate|].
  rewrite <- Hsome in *. injection Hbuild as <-. cbn [textures elements].
  pose proof (convert_elements_in_order _ _ _ _ _ _ Hconv) as Horder.
  destruct (convert_elements_faces _ _ _ _ _ _ Hconv) as [_ Hplansne].
  destruct texture_plans as [|first rest] eqn:Hshape;
    [exfalso; apply Hplansne; [rewrite Hsome; discriminate|reflexivity]|].
  rewrite <- Hshape in *.
  assert (Htable : texture_object texture_plans
                   = (map texture_entry texture_plans
                      ++ [("particle", rel_namespace_path first)])%list).
  { rewrite (texture_object_entries _ Hnodup), Hshape. reflexivity. }
  assert (Hkeys : map fst (texture_object texture_plans)
                  = (map (fun i => pretty (Z.of_nat i)) (seq 0 N)
                     ++ ["particle"])%list).
  { rewrite Htable, map_app, map_map. simpl. f_equal.
    change (fun x => (texture_entry x).1) with (fun x => pretty (index x)).
    rewrite <- (map_map index pretty), Hplans, map_map. reflexivity. }
  split; [exact Hlen|]. split; [exact Hplans|].
  split; [exists first, rest; split; [exact Hshape|exact Htable]|].
  split; [exact Hkeys|]. split; [|split; [|split]].
  - rewrite Hkeys. apply NoDup_ListNoDup, NoDup_app. split; [|split].
    + apply NoDup_ListNoDup, Finite.Injective_map_NoDup; [|apply seq_NoDup].
      intros i j Hij. apply (inj pretty) in Hij. lia.
    + intros key Hkey Hparticle. apply list_elem_of_In in Hkey, Hparticle.
      destruct Hparticle as [<-|[]].
      apply in_map_iff in Hkey as (i & Hi & _).
      now apply pretty_not_particle in Hi.
    + apply NoDup_ListNoDup. repeat constructor. intros [].
  - rewrite <- (length_map fst), Hkeys, length_app, length_map, length_seq.
    reflexivity.
  - apply Forall2_length in Horder. now rewrite <- Horder.
  - eapply Forall2_impl; [exact Horder|]. intros elem converted [position Hc].
    eauto.
Qed.

End CountFacts.

(** The cube document has one texture and one visible, textured element. *)
Lemma document_counts_witness :
  exists texture_plans model,
    @convert_document (example_host []) cube_document "/models" "ns" "asset"
      "default" "cube" false = Ok (texture_plans, model)
    /\ map fst (textures model) = ["0"; "particle"]
    /\ length (textures model) = 2%nat
    /\ length (elements model) = 1%nat.
Proof.
  destruct (@convert_document (example_host []) cube_document "/models" "ns"
              "asset" "default" "cube" false)
    as [[texture_plans model]|e] eqn:Hrun; [|vm_compute in Hrun; discriminate].
  exists texture_plans, model. split; [reflexivity|].
  destruct (@document_counts (example_host []) cube_document "/models" "ns"
              "asset" "default" "cube" false texture_plans model
              [inline_texture "tex"] [cube_element []] Hrun eq_refl eq_refl)
    as (_ & _ & _ & Hkeys & _ & Hlen & Helems & _).
  split; [exact Hkeys|]. split; [exact Hlen|exact Helems].
Defined.

(** ** Destination collisions *)

Lemma prefix_append (needle rest : string) :
  String.prefix needle (needle ++ rest) = true.
Proof.
  induction needle as [|c needle IH]; [now destruct rest|].
  change (String.prefix (String c needle) (String c (needle ++ rest)) = true).
  simpl. destruct (ascii_dec c c); [exact IH|congruence].
Qed.

Lemma prefix_append_l (needle hay rest : string) :
  String.prefix needle hay = true ->
  String.prefix needle (hay ++ rest) = true.
Proof.
  revert hay. induction needle as [|c needle IH]; intros hay Hprefix.
  - now destruct (hay ++ rest).
  - destruct hay as [|d hay]; [discriminate|].
    change (String.prefix (String c needle) (String d (hay ++ rest)) = true).
    simpl in *. destruct (ascii_dec c d); [auto|discriminate].
Qed.

Lemma occurs_unfold (needle : string) (c : ascii) (hay : string) :
  occurs needle (String c hay)
  = String.prefix needle (String c hay) || occurs needle hay.
Proof. reflexivity. Qed.

Lemma occurs_prefix (needle hay : string) :
  String.prefix needle hay = true -> occurs needle hay = true.
Proof.
  intros Hpre. destruct hay as [|c hay].
  - cbn [occurs]. now rewrite Hpre.
  - now rewrite occurs_unfold, Hpre.
Qed.

Lemma occurs_append_r (needle front hay : string) :
  occurs needle hay = true -> occurs needle (front ++ hay) = true.
Proof.
  intros Hocc. induction front as [|c front IH]; [exact Hocc|].
  change (occurs needle (String c (front ++ hay)) = true).
  rewrite occurs_unfold, IH. apply orb_true_r.
Qed.

Lemma occurs_append_l (needle hay rest : string) :
  occurs needle hay = true -> occurs needle (hay ++ rest) = true.
Proof.
  induction hay as [|c hay IH]; intros Hocc.
  - destruct needle; [|discriminate]. apply occurs_prefix.
    now destruct (""%string ++ rest).
  - change (occurs needle (String c (hay ++ rest)) = true).
    rewrite occurs_unfold in *. apply orb_true_iff in Hocc as [Hpre|Hocc].
    + change (String c (hay ++ rest)) with (String c hay ++ rest).
      now rewrite (prefix_append_l _ _ rest Hpre).
    + rewrite (IH Hocc). apply orb_true_r.
Qed.

Lemma occurs_here (needle rest : string) :
  occurs needle (needle ++ rest) = true.
Proof.
  apply occurs_prefix, prefix_append.
Qed.

Lemma occurs_concat (sep line : string) (lines : list string) :
  In line lines -> occurs line (String.concat sep lines) = true.
Proof.
  induction lines as [|first rest IH]; intros Hin; [destruct Hin|].
  destruct rest as [|second rest].
  - destruct Hin as [->|[]]. simpl.
    rewrite <- (append_empty_r line) at 2. apply occurs_here.
  - change (String.concat sep (first :: second :: rest))
      with (first ++ sep ++ String.concat sep (second :: rest)).
    destruct Hin as [->|Hin]; [apply occurs_here|].
    do 2 apply occurs_append_r. auto.
Qed.

Section CollisionFacts.
Context `{Host}.

Lemma written_paths_planned
    (assets_root namespace asset variant model_name : string)
    (texture_plans : list TexturePlan) (model : model_json) :
  written_paths
    (write_outputs assets_root namespace asset variant model_name
       texture_plans model)
  = planned_paths assets_root namespace asset variant model_name
      texture_plans.
Proof.
  unfold write_outputs, planned_paths, written_paths.
  cbn [flat_map app]. f_equal. rewrite flat_map_app. f_equal.
  - induction texture_plans as [|t rest IH]; simpl; congruence.
  - induction texture_plans as [|t rest IH]; [reflexivity|].
    simpl. unfold has_mcmeta at 1.
    destruct (mcmeta_json t); simpl; congruence.
Qed.

(** C7, amended. The planned paths are the model document, one PNG per
    texture and one sidecar per animated texture.  Without the overwrite
    flag, when some planned path exists the run is refused before any
    directory is made or file written; the message names the first ten
    colliding paths, which is all of them when there are at most ten, and
    otherwise ends with the count of the others.  With the flag, or
    without any collision, a run that is not a dry run writes exactly the
    planned paths. *)
Theorem ensure_writable_refuses
    (assets_root namespace asset variant model_name : string)
    (texture_plans : list TexturePlan) (model : model_json)
    (dry_run : bool) :
  let paths :=
    planned_paths assets_root namespace asset variant model_name
      texture_plans in
  let collisions := List.filter path_exists paths in
  let run force :=
    main_outputs assets_root namespace asset variant model_name texture_plans
      model force dry_run in
  length paths
  = (1 + length texture_plans
     + length (List.filter has_mcmeta texture_plans))%nat
  /\ (collisions <> [] ->
      run false
      = ([], Err (DestinationExists (collision_message collisions)))
      /\ kind_of (DestinationExists (collision_message collisions))
         = DestinationCollision
      /\ (forall p,
            In p (firstn 10 collisions) ->
            occurs (collision_line p) (collision_message collisions) = true)
      /\ ((length collisions <= 10)%nat ->
          forall p,
            In p collisions ->
            occurs (collision_line p) (collision_message collisions) = true)
      /\ ((10 < length collisions)%nat ->
          occurs
            ("... and " ++ pretty (Z.of_nat (length collisions) - 10)
             ++ " more")
            (collision_message collisions) = true))
  /\ (dry_run = false ->
      (collisions = [] -> written_paths (fst (run false)) = paths)
      /\ written_paths (fst (run true)) = paths
      /\ snd (run true) = Ok tt).
Proof.
  intros paths collisions run. split; [|split].
  - subst paths. unfold planned_paths. simpl.
    now rewrite length_app, !length_map.
  - intros Hsome.
    assert (Hfirst : forall p,
              In p (firstn 10 collisions) ->
              occurs (collision_line p) (collision_message collisions) = true).
    { intros p Hp. unfold collision_message.
      do 2 apply occurs_append_r. apply occurs_append_l.
      apply occurs_concat. now apply in_map. }
    split; [|split; [reflexivity|split; [exact Hfirst|split]]].
    + subst run. unfold main_outputs, ensure_writable.
      fold paths. fold collisions.
      destruct collisions; [congruence|reflexivity].
    + intros Hlen p Hp. apply Hfirst. now rewrite firstn_all2.
    + intros Hlen. unfold collision_message.
      destruct (length collisions <=? 10)%nat eqn:Hle;
        [apply Nat.leb_le in Hle; lia|].
      do 4 apply occurs_append_r.
      rewrite <- (append_empty_r (_ ++ _ ++ " more")) at 2.
      change ("... and " ++ pretty (Z.of_nat (length collisions) - 10)
              ++ " more")
        with ("... and "
              ++ (pretty (Z.of_nat (length collisions) - 10) ++ " more")).
      apply occurs_here.
  - intros ->. subst run. unfold main_outputs, ensure_writable.
    fold paths. fold collisions. cbn [fst snd].
    split; [|split; [apply written_paths_planned|reflexivity]].
    intros ->. apply written_paths_planned.
Qed.

End CollisionFacts.

(** Two planned files exist already: the run is refused, nothing is
    written, and the message names both. *)
Lemma ensure_writable_refuses_witness :
  let host := example_host ["assets/ns/models/item/a/v/m.json";
                            "assets/ns/textures/item/a/v/t1.png"] in
  @main_outputs host "assets" "ns" "a" "v" "m" (numbered_plans 2) empty_model
    false false
  = ([], Err (DestinationExists
                (collision_message
                   ["assets/ns/models/item/a/v/m.json";
                    "assets/ns/textures/item/a/v/t1.png"])))
  /\ occurs "- assets/ns/textures/item/a/v/t1.png"
       (collision_message
          ["assets/ns/models/item/a/v/m.json";
           "assets/ns/textures/item/a/v/t1.png"]) = true.
Proof.
  intros host.
  destruct (@ensure_writable_refuses host "assets" "ns" "a" "v" "m"
              (numbered_plans 2) empty_model false)
    as (_ & Hrefused & _).
  destruct Hrefused as (Hrun & _ & Hfirst & _).
  { vm_compute. discriminate. }
  split; [exact Hrun|].
  apply (Hfirst "assets/ns/textures/item/a/v/t1.png").
  vm_compute. right. left. reflexivity.
Defined.

(** C7 as stated fails with eleven colliding paths: the message names the
    first ten and counts the eleventh, so it is no complete listing. *)
Lemma collision_listing_truncated :
  ~ (forall (host : Host) assets_root namespace asset variant model_name
            texture_plans model dry_run p,
       In p (List.filter (@path_exists host)
               (@planned_paths host assets_root namespace asset variant
                  model_name texture_plans)) ->
       exists message,
         snd (@main_outputs host assets_root namespace asset variant
                model_name texture_plans model false dry_run)
         = Err (DestinationExists message)
         /\ occurs p message = true).
Proof.
  intros Hclaim.
  destruct (Hclaim crowded_host "assets" "ns" "a" "v" "m" (numbered_plans 10)
              empty_model false "assets/ns/textures/item/a/v/t9.png")
    as (message & Hrun & Hlisted).
  - vm_compute. do 10 right. left. reflexivity.
  - vm_compute in Hrun. injection Hrun as <-.
    vm_compute in Hlisted. discriminate.
Qed.

(** ** Pack names *)

Lemma pack_char_not_upper (c : ascii) :
  pack_char c = true -> lower_char c = c.
Proof.
  unfold pack_char, lower_char, char_between. intros Hpack.
  destruct ((N_of_ascii "A" <=? N_of_ascii c)%N
            && (N_of_ascii c <=? N_of_ascii "Z")%N) eqn:Hupper;
    [|reflexivity].
  exfalso. apply andb_true_iff in Hupper as [Hlo Hhi].
  apply N.leb_le in Hlo, Hhi. cbn in Hlo, Hhi.
  repeat (apply orb_true_iff in Hpack as [Hpack|Hpack]).
  - apply andb_true_iff in Hpack as [Ha Hz]. apply N.leb_le in Ha.
    cbn in Ha. lia.
  - apply andb_true_iff in Hpack as [H0 H9]. apply N.leb_le in H9.
    cbn in H9. lia.
  - apply Ascii.eqb_eq in Hpack. subst c. cbn in Hlo, Hhi. lia.
  - apply Ascii.eqb_eq in Hpack. subst c. cbn in Hlo, Hhi. lia.
Qed.

Lemma pack_char_ascii (c : ascii) :
  pack_char c = true -> (N_of_ascii c <? 128)%N = true.
Proof.
  unfold pack_char, char_between. intros Hpack. apply N.ltb_lt.
  repeat (apply orb_true_iff in Hpack as [Hpack|Hpack]).
  - apply andb_true_iff in Hpack as [_ Hz]. apply N.leb_le in Hz.
    cbn in Hz. lia.
  - apply andb_true_iff in Hpack as [_ H9]. apply N.leb_le in H9.
    cbn in H9. lia.
  - apply Ascii.eqb_eq in Hpack. subst c. cbn. lia.
  - apply Ascii.eqb_eq in Hpack. subst c. cbn. lia.
Qed.

Lemma is_pack_name_append (a b : string) :
  is_pack_name (a ++ b) = is_pack_name a && is_pack_name b.
Proof.
  induction a as [|c a IH]; [reflexivity|].
  change (pack_char c && is_pack_name (a ++ b)
          = pack_char c && is_pack_name a && is_pack_name b).
  now rewrite IH, andb_assoc.
Qed.

Lemma is_pack_name_ascii (s : string) :
  is_pack_name s = true -> is_ascii_name s = true.
Proof.
  unfold is_pack_name, is_ascii_name.
  induction s as [|c s IH]; [reflexivity|]. simpl. intros Hpack.
  apply andb_true_iff in Hpack as [Hc Hs].
  now rewrite (pack_char_ascii c Hc), IH.
Qed.

Lemma ascii_not_continuation (b : N) :
  (b <? 128)%N = true -> is_continuation b = false /\ lead_value b = b.
Proof.
  intros Hb. apply N.ltb_lt in Hb. unfold is_continuation, lead_value. split.
  - apply andb_false_iff. left. apply N.leb_gt. exact Hb.
  - destruct (b <? 192)%N eqn:Hlt; [reflexivity|]. apply N.ltb_ge in Hlt. lia.
Qed.

(** The code points of an ASCII [str] are its bytes. *)
Lemma code_points_from_ascii (s : string) :
  is_ascii_name s = true ->
  forall current,
    code_points_from current s
    = current :: map N_of_ascii (list_ascii_of_string s).
Proof.
  unfold is_ascii_name.
  induction s as [|c s IH]; [reflexivity|]. simpl. intros Hascii current.
  apply andb_true_iff in Hascii as [Hc Hs].
  destruct (ascii_not_continuation _ Hc) as [-> ->].
  now rewrite (IH Hs).
Qed.

Lemma code_points_ascii (s : string) :
  is_ascii_name s = true ->
  code_points s = map N_of_ascii (list_ascii_of_string s).
Proof.
  destruct s as [|c s]; [reflexivity|]. intros Hascii.
  pose proof Hascii as Hc. unfold is_ascii_name in Hc. simpl in Hc.
  apply andb_true_iff in Hc as [Hc Hs].
  unfold code_points. destruct (ascii_not_continuation _ Hc) as [_ ->].
  now rewrite (code_points_from_ascii s Hs).
Qed.

Lemma code_points_from_nonempty (s : string) (current : N) :
  code_points_from current s <> [].
Proof.
  revert current. induction s as [|c s IH]; intros current; simpl.
  - discriminate.
  - destruct (is_continuation (N_of_ascii c)); [apply IH|discriminate].
Qed.

(** Where a code point begins, the code points of a [str] can be read
    apart from those before it. *)
Lemma code_points_from_append (a b : string) (c : ascii) :
  is_continuation (N_of_ascii c) = false ->
  forall current,
    code_points_from current (a ++ String c b)
    = (code_points_from current a ++ code_points (String c b))%list.
Proof.
  intros Hc. induction a as [|d a IH]; intros current.
  - change (("" ++ String c b)%string) with (String c b).
    simpl. now rewrite Hc.
  - change ((String d a ++ String c b)%string)
      with (String d (a ++ String c b)).
    simpl code_points_from.
    destruct (is_continuation (N_of_ascii d)).
    + apply IH.
    + now rewrite IH.
Qed.

Lemma code_points_append (a b : string) :
  starts_code_point b = true ->
  code_points (a ++ b) = (code_points a ++ code_points b)%list.
Proof.
  destruct b as [|c b].
  - intros _. replace (a ++ "")%string with a.
    + now rewrite app_nil_r.
    + induction a as [|d a IH]; [reflexivity|].
      change (String d a = String d (a ++ "")). now rewrite <- IH.
  - simpl. intros Hc. apply negb_true_iff in Hc.
    destruct a as [|d a]; [reflexivity|].
    change ((String d a ++ String c b)%string)
      with (String d (a ++ String c b)).
    unfold code_points at 1 2.
    now apply code_points_from_append.
Qed.

Lemma string_of_list_ascii_append (l k : list ascii) :
  string_of_list_ascii (l ++ k)
  = (string_of_list_ascii l ++ string_of_list_ascii k)%string.
Proof.
  induction l as [|c l IH]; [reflexivity|].
  change (String c (string_of_list_ascii (l ++ k))
          = String c (string_of_list_ascii l ++ string_of_list_ascii k)).
  now rewrite IH.
Qed.

Lemma pack_code_point_pack (cp : N) : pack_char (pack_code_point cp) = true.
Proof.
  unfold pack_code_point.
  destruct ((cp <? 128)%N && pack_char (ascii_of_N cp)) eqn:Hcp;
    [|reflexivity].
  now apply andb_true_iff in Hcp as [_ Hpack].
Qed.

Section PackNames.
Context `{Host}.

Lemma lower_code_points_nonempty (cp : N) : lower_code_points cp <> [].
Proof.
  unfold lower_code_points. destruct (cp <? 128)%N; [discriminate|].
  destruct (lower_code_point cp) eqn:Hlow; discriminate.
Qed.

Lemma lower_code_points_ascii (c : ascii) :
  (N_of_ascii c <? 128)%N = true ->
  lower_code_points (N_of_ascii c) = [N_of_ascii (lower_char c)].
Proof.
  intros Hc. unfold lower_code_points. now rewrite Hc, ascii_N_embedding.
Qed.

Lemma to_pack_name_fixed (s : string) :
  is_pack_name s = true -> to_pack_name s = s.
Proof.
  intros Hpack. unfold to_pack_name.
  rewrite (code_points_ascii s (is_pack_name_ascii s Hpack)).
  unfold is_pack_name in Hpack.
  induction s as [|c s IH]; [reflexivity|]. simpl in Hpack.
  apply andb_true_iff in Hpack as [Hc Hs].
  simpl list_ascii_of_string. simpl map at 2. simpl flat_map.
  rewrite (lower_code_points_ascii c (pack_char_ascii c Hc)).
  rewrite (pack_char_not_upper c Hc). simpl.
  unfold pack_code_point at 1.
  rewrite (pack_char_ascii c Hc), ascii_N_embedding, Hc. simpl.
  f_equal. exact (IH Hs).
Qed.

Lemma to_pack_name_is_pack_name (raw : string) :
  is_pack_name (to_pack_name raw) = true.
Proof.
  unfold to_pack_name, is_pack_name.
  induction (flat_map lower_code_points (code_points raw)) as [|cp l IH];
    [reflexivity|].
  simpl. now rewrite pack_code_point_pack, IH.
Qed.

Lemma to_pack_name_append (a b : string) :
  starts_code_point b = true ->
  to_pack_name (a ++ b) = to_pack_name a ++ to_pack_name b.
Proof.
  intros Hb. unfold to_pack_name.
  now rewrite (code_points_append a b Hb), flat_map_app, map_app,
    string_of_list_ascii_append.
Qed.

Lemma to_pack_name_empty (raw : string) : to_pack_name raw = "" <-> raw = "".
Proof.
  split; [|now intros ->].
  destruct raw as [|c raw]; [reflexivity|]. unfold to_pack_name, code_points.
  pose proof (code_points_from_nonempty raw (lead_value (N_of_ascii c)))
    as Hpoints.
  destruct (code_points_from (lead_value (N_of_ascii c)) raw) as [|cp l];
    [contradiction|].
  simpl. pose proof (lower_code_points_nonempty cp) as Hlow.
  destruct (lower_code_points cp); [contradiction|]. discriminate.
Qed.

(** On ASCII names nothing but the case and the characters outside the
    class changes. *)
Lemma to_pack_name_ascii_length (raw : string) :
  is_ascii_name raw = true ->
  String.length (to_pack_name raw) = String.length raw.
Proof.
  intros Hascii. unfold to_pack_name. rewrite (code_points_ascii raw Hascii).
  unfold is_ascii_name in Hascii.
  induction raw as [|c raw IH]; [reflexivity|]. simpl in Hascii.
  apply andb_true_iff in Hascii as [Hc Hs].
  simpl list_ascii_of_string. simpl map at 2. simpl flat_map.
  rewrite (lower_code_points_ascii c Hc). simpl. f_equal. exact (IH Hs).
Qed.

(** X1. [to_pack_name] returns a string over [a-z0-9_.], leaves such a
    string unchanged (so it is idempotent), distributes over the
    concatenation of two [str]s, returns the empty string for the empty
    string only, and keeps the length of a name of ASCII characters.
    Outside ASCII the length can change: where the capital I with a dot
    above lowers to an i and a combining dot, the four characters of
    "İcon" become the five of "i_con". *)
Theorem to_pack_name_normalises :
  (forall raw, is_pack_name (to_pack_name raw) = true) /\
  (forall name, is_pack_name name = true -> to_pack_name name = name) /\
  (forall raw, to_pack_name (to_pack_name raw) = to_pack_name raw) /\
  (forall a b,
     starts_code_point b = true ->
     to_pack_name (a ++ b) = to_pack_name a ++ to_pack_name b) /\
  (forall raw, to_pack_name raw = "" <-> raw = "") /\
  (forall raw,
     is_ascii_name raw = true ->
     String.length (to_pack_name raw) = String.length raw) /\
  code_points "İcon" = [304; 99; 111; 110]%N /\
  @to_pack_name (example_host []) "İcon" = "i_con" /\
  @to_pack_name (example_host []) "Ünïcode.PNG" = "_n_code.png" /\
  @to_pack_name (example_host []) "My Tex-1.PNG" = "my_tex_1.png".
Proof.
  split; [exact to_pack_name_is_pack_name|].
  split; [exact to_pack_name_fixed|].
  split.
  { intros raw. apply to_pack_name_fixed, to_pack_name_is_pack_name. }
  split; [exact to_pack_name_append|].
  split; [exact to_pack_name_empty|].
  split; [exact to_pack_name_ascii_length|].
  repeat split.
Qed.

End PackNames.

Lemma nonempty_length (s : string) :
  nonempty s = true <-> (0 < String.length s)%nat.
Proof. destruct s; simpl; split; intros; try lia; try discriminate; auto. Qed.

Lemma string_length_append (a b : string) :
  String.length (a ++ b) = (String.length a + String.length b)%nat.
Proof.
  induction a as [|c a IH]; [reflexivity|].
  change (S (String.length (a ++ b))
          = S (String.length a + String.length b)). now rewrite IH.
Qed.

Lemma to_pack_name_nonempty `{Host} (raw : string) :
  nonempty raw = true -> nonempty (to_pack_name raw) = true.
Proof.
  unfold nonempty. rewrite !negb_true_iff, !String.eqb_neq.
  now rewrite to_pack_name_empty.
Qed.

(** Decimal numerals of natural numbers are pack names. *)
Lemma pretty_N_go_pack (x : N) :
  forall s, is_pack_name s = true -> is_pack_name (pretty_N_go x s) = true.
Proof.
  induction x as [x IH] using (well_founded_induction N.lt_wf_0).
  intros s Hs. destruct (N.eq_dec x 0%N) as [->|Hpos].
  - now rewrite pretty_N_go_0.
  - rewrite pretty_N_go_step by lia. apply IH; [apply N.div_lt; lia|].
    change (pack_char (pretty_N_char (x `mod` 10)) && is_pack_name s = true).
    rewrite Hs, andb_true_r.
    unfold pretty_N_char. repeat case_match; reflexivity.
Qed.

Lemma pretty_pack (z : Z) : 0 <= z -> is_pack_name (pretty z) = true.
Proof.
  intros Hz. unfold pretty, pretty_Z. destruct z as [|p|p]; [reflexivity| |lia].
  unfold pretty, pretty_positive, pretty, pretty_N.
  destruct (decide (N.pos p = 0%N)); [reflexivity|].
  now apply pretty_N_go_pack.
Qed.

Section StemShape.
Context `{Host}.

Lemma texture_fallback_nonempty (idx : Z) :
  nonempty ("texture_" ++ pretty idx) = true.
Proof. apply nonempty_length. rewrite string_length_append. simpl. lia. Qed.

(** The stem before de-duplication, without its last-resort fallback,
    which is never taken. *)
Lemma texture_stem_unfold (texture : list (string * json)) (idx : Z)
    (model_name : string) (prefix_textures : bool) :
  let fallback := "texture_" ++ pretty idx in
  let name := dict_get "name" texture in
  let stem := path_stem (if truthy name then py_str name else fallback) in
  let base := to_pack_name (if nonempty stem then stem else fallback) in
  nonempty base = true
  /\ texture_stem texture idx model_name prefix_textures
     = (if prefix_textures then to_pack_name model_name ++ "_" ++ base
        else base).
Proof.
  intros fallback name stem base.
  assert (Hbase : nonempty base = true).
  { subst base. apply to_pack_name_nonempty.
    destruct (nonempty stem) eqn:Hstem; [exact Hstem|].
    apply texture_fallback_nonempty. }
  split; [exact Hbase|].
  unfold texture_stem. fold fallback. fold name. fold stem. fold base.
  destruct prefix_textures.
  - rewrite (to_pack_name_append model_name ("_" ++ base) eq_refl).
    rewrite (to_pack_name_fixed ("_" ++ base)).
    2:{ rewrite is_pack_name_append. subst base.
        now rewrite to_pack_name_is_pack_name. }
    subst base.
    set (prefixed := to_pack_name model_name ++ "_" ++
                     to_pack_name (if nonempty stem then stem else fallback)).
    assert (Hne : nonempty prefixed = true).
    { apply nonempty_length. subst prefixed.
      rewrite !string_length_append. simpl. lia. }
    now rewrite Hne.
  - now rewrite Hbase.
Qed.

Lemma texture_stem_shape (texture : list (string * json)) (idx : Z)
    (model_name : string) (prefix_textures : bool) :
  let stem := texture_stem texture idx model_name prefix_textures in
  nonempty stem = true /\ is_pack_name stem = true.
Proof.
  destruct (texture_stem_unfold texture idx model_name prefix_textures)
    as [Hbase Hstem].
  cbv zeta in *. rewrite Hstem.
  destruct prefix_textures.
  - split.
    + apply nonempty_length. rewrite !string_length_append. simpl. lia.
    + now rewrite !is_pack_name_append, !to_pack_name_is_pack_name.
  - split; [exact Hbase|apply to_pack_name_is_pack_name].
Qed.

Lemma unique_stem_shape (used_names : gset string) (stem unique : string) :
  nonempty stem = true -> is_pack_name stem = true ->
  unique_stem used_names stem = Some unique ->
  nonempty unique = true /\ is_pack_name unique = true.
Proof.
  intros Hne Hpack Hunique.
  destruct (unique_stem_total used_names stem)
    as (r & Hr & _ & Hfree & Hused).
  rewrite Hr in Hunique. injection Hunique as <-.
  destruct (decide (stem ∈ used_names)) as [Hin|Hout].
  - destruct (Hused Hin) as (k & Hk & -> & _). unfold stem_candidate. split.
    + apply nonempty_length. rewrite !string_length_append. simpl. lia.
    + rewrite !is_pack_name_append, Hpack, pretty_pack by lia. reflexivity.
  - now rewrite (Hfree Hout).
Qed.

(** X2. Every file stem planned by [build_texture_plans] is a non-empty
    string over [a-z0-9_.], whatever the textures are named. *)
Theorem file_stems_are_pack_names
    (bbmodel : list (string * json))
    (bbmodel_dir namespace asset variant model_name : string)
    (prefix_textures : bool) (plans : list TexturePlan) :
  build_texture_plans bbmodel bbmodel_dir namespace asset variant model_name
    prefix_textures = Ok plans ->
  Forall
    (fun plan =>
       nonempty (file_stem plan) = true
       /\ is_pack_name (file_stem plan) = true)
    plans.
Proof.
  unfold build_texture_plans.
  destruct (dict_get "textures" bbmodel) as [ | | | | |raw_textures|];
    try discriminate.
  generalize 0 (∅ : gset string). revert plans.
  induction raw_textures as [|texture rest IH]; intros plans idx used Hrun.
  - injection Hrun as <-. constructor.
  - apply texture_plans_from_cons in Hrun
      as (plan & plans' & -> & Hplan & Hrest).
    constructor; [|eapply IH; exact Hrest].
    apply texture_plan_ok in Hplan as (members & _ & Hstem & _).
    destruct (texture_stem_shape members idx model_name prefix_textures).
    eapply unique_stem_shape; eauto.
Qed.

(** X3. With [--prefix-textures] the stem of a texture, before
    de-duplication, is the normalised model name, an underscore and the
    stem it has without the flag. *)
Theorem prefixed_stem (texture : list (string * json)) (idx : Z)
    (model_name : string) :
  texture_stem texture idx model_name true
  = to_pack_name model_name ++ "_" ++ texture_stem texture idx model_name false.
Proof.
  destruct (texture_stem_unfold texture idx model_name true) as [_ Hwith].
  destruct (texture_stem_unfold texture idx model_name false) as [_ Hwithout].
  cbv zeta in *. now rewrite Hwith, Hwithout.
Qed.

(** X4. A texture without a usable name (absent, null, empty, zero or
    false) at a position [idx >= 0] gets the stem [texture_<idx>], and a
    texture named by a string gets the normalised stem of that name,
    provided pathlib finds a non-empty stem. *)
Theorem named_and_unnamed_stems (texture : list (string * json)) (idx : Z)
    (model_name : string) :
  (truthy (dict_get "name" texture) = false ->
   0 <= idx ->
   path_stem ("texture_" ++ pretty idx) = "texture_" ++ pretty idx ->
   texture_stem texture idx model_name false = "texture_" ++ pretty idx) /\
  (forall name,
     dict_get "name" texture = JStr name ->
     name <> "" ->
     path_stem name <> "" ->
     texture_stem texture idx model_name false
     = to_pack_name (path_stem name)).
Proof.
  destruct (texture_stem_unfold texture idx model_name false) as [_ Hstem].
  cbv zeta in Hstem. rewrite Hstem. split.
  - intros Hname Hidx Hpath. rewrite Hname, Hpath.
    rewrite texture_fallback_nonempty.
    apply to_pack_name_fixed. rewrite is_pack_name_append.
    now rewrite pretty_pack.
  - intros name Hname Hne Hpath. rewrite Hname.
    change (truthy (JStr name)) with (nonempty name).
    rewrite (nonempty_true name Hne). simpl py_str.
    now rewrite (nonempty_true _ Hpath).
Qed.

End StemShape.

(** Two textures, the second an unnamed animated strip read from a file. *)
Lemma file_stems_are_pack_names_witness :
  exists plans,
    @build_texture_plans (example_host ["/models/Strip 1.PNG"])
      [("textures",
        JArr [inline_texture "My Tex.png";
              JObj [("path", JStr "Strip 1.PNG"); ("width", JInt 16);
                    ("height", JInt 64)]])]
      "/models" "ns" "asset" "default" "model" true = Ok plans
    /\ map file_stem plans = ["model_my_tex.png"; "model_texture_1"]
    /\ Forall
         (fun plan =>
            nonempty (file_stem plan) = true
            /\ is_pack_name (file_stem plan) = true)
         plans.
Proof.
  destruct (@build_texture_plans (example_host ["/models/Strip 1.PNG"])
              [("textures",
                JArr [inline_texture "My Tex.png";
                      JObj [("path", JStr "Strip 1.PNG"); ("width", JInt 16);
                            ("height", JInt 64)]])]
              "/models" "ns" "asset" "default" "model" true)
    as [plans|e] eqn:Hrun; [|vm_compute in Hrun; discriminate].
  exists plans. split; [reflexivity|]. split.
  - vm_compute in Hrun. injection Hrun as <-. reflexivity.
  - exact (@file_stems_are_pack_names (example_host ["/models/Strip 1.PNG"])
             _ _ _ _ _ _ _ _ Hrun).
Defined.

Lemma named_and_unnamed_stems_witness :
  @texture_stem (example_host []) [("name", JStr "")] 3 "model" false
  = "texture_3"
  /\ @texture_stem (example_host []) [("name", JStr "Iron Bar")] 0 "model"
       false
     = "iron_bar".
Proof.
  split.
  - apply (@named_and_unnamed_stems (example_host []) [("name", JStr "")] 3
             "model"); [reflexivity|lia|reflexivity].
  - etransitivity.
    + apply (@named_and_unnamed_stems (example_host [])
               [("name", JStr "Iron Bar")] 0 "model");
        [reflexivity|discriminate|discriminate].
    + reflexivity.
Defined.

(** ** What a texture plan holds *)

Section PlanFacts.
Context `{Host}.

(** The plan at each position is the plan of the texture at that
    position. *)
Lemma texture_plans_from_nth (raw_textures : list json) :
  forall (idx : Z) (used_names : gset string)
    (bbmodel_dir namespace asset variant model_name : string)
    (prefix_textures : bool) (plans : list TexturePlan) (i : nat)
    (texture : json) (plan : TexturePlan),
  texture_plans_from raw_textures idx used_names bbmodel_dir namespace asset
    variant model_name prefix_textures = Ok plans ->
  nth_error raw_textures i = Some texture ->
  nth_error plans i = Some plan ->
  exists used,
    texture_plan texture (idx + Z.of_nat i) used bbmodel_dir namespace asset
      variant model_name prefix_textures = Ok plan.
Proof.
  induction raw_textures as [|first rest IH];
    intros idx used_names bbmodel_dir namespace asset variant model_name
      prefix_textures plans i texture plan Hrun Htexture Hplan.
  - destruct i; discriminate.
  - apply texture_plans_from_cons in Hrun
      as (p & plans' & -> & Hp & Hrest).
    destruct i as [|i]; simpl in Htexture, Hplan.
    + injection Htexture as <-. injection Hplan as <-.
      exists used_names. now rewrite Z.add_0_r.
    + destruct (IH _ _ _ _ _ _ _ _ _ i texture plan Hrest Htexture Hplan)
        as (used & Hrun).
      exists used. now replace (idx + Z.of_nat (S i))
                       with (idx + 1 + Z.of_nat i) by lia.
Qed.

(** X5. The plan at position [i] belongs to the texture at position [i]:
    that texture is an object, the plan has index [i], carries the bytes
    decoded from that texture and the resource reference
    [<namespace>:item/<asset>/<variant>/<stem>]. *)
Theorem plans_mirror_textures
    (bbmodel : list (string * json))
    (bbmodel_dir namespace asset variant model_name : string)
    (prefix_textures : bool) (plans : list TexturePlan)
    (raw_textures : list json) (i : nat) (texture : json)
    (plan : TexturePlan) :
  build_texture_plans bbmodel bbmodel_dir namespace asset variant model_name
    prefix_textures = Ok plans ->
  dict_get "textures" bbmodel = JArr raw_textures ->
  nth_error raw_textures i = Some texture ->
  nth_error plans i = Some plan ->
  exists members,
    texture = JObj members
    /\ index plan = Z.of_nat i
    /\ decode_texture_source members bbmodel_dir (Z.of_nat i)
       = Ok (png_bytes plan)
    /\ rel_namespace_path plan
       = namespace ++ ":item/" ++ asset ++ "/" ++ variant ++ "/"
         ++ file_stem plan.
Proof.
  unfold build_texture_plans. intros Hrun Htextures Htexture Hplan.
  rewrite Htextures in Hrun.
  destruct (texture_plans_from_nth _ _ _ _ _ _ _ _ _ _ _ _ _ Hrun Htexture
              Hplan) as (used & Hone).
  simpl in Hone.
  destruct (texture_plan_ok _ _ _ _ _ _ _ _ _ _ Hone)
    as (members & -> & _ & Hidx & Hpath).
  exists members. split; [reflexivity|]. split; [exact Hidx|].
  split; [|exact Hpath].
  now apply texture_plan_data in Hone as [Hdata _].
Qed.

(** X6. A plan has an animation sidecar exactly when its texture is
    classified animated; the sidecar then holds the truth value of
    [frame_interpolate] and a frame time that is the texture's
    [frame_time] coerced with default 1, hence at least 1. *)
Theorem sidecar_iff_animated
    (bbmodel : list (string * json))
    (bbmodel_dir namespace asset variant model_name : string)
    (prefix_textures : bool) (plans : list TexturePlan)
    (raw_textures : list json) (i : nat) (members : list (string * json))
    (plan : TexturePlan) :
  build_texture_plans bbmodel bbmodel_dir namespace asset variant model_name
    prefix_textures = Ok plans ->
  dict_get "textures" bbmodel = JArr raw_textures ->
  nth_error raw_textures i = Some (JObj members) ->
  nth_error plans i = Some plan ->
  let animated :=
    is_animated (read_positive_int (dict_get "width" members) 0)
      (read_positive_int (dict_get "height" members) 0)
      (read_positive_int (dict_get "uv_width" members) 0)
      (read_positive_int (dict_get "uv_height" members) 0) in
  (has_mcmeta plan = true <-> animated = Ok true)
  /\ (has_mcmeta plan = false <-> animated = Ok false)
  /\ (forall interpolate frametime,
        mcmeta_json plan = Some (interpolate, frametime) ->
        interpolate = truthy (dict_get "frame_interpolate" members)
        /\ frametime = read_positive_int (dict_get "frame_time" members) 1
        /\ 1 <= frametime).
Proof.
  intros Hrun Htextures Htexture Hplan animated.
  unfold build_texture_plans in Hrun. rewrite Htextures in Hrun.
  destruct (texture_plans_from_nth _ _ _ _ _ _ _ _ _ _ _ _ _ Hrun Htexture
              Hplan) as (used & Hone).
  apply texture_plan_data in Hone as (_ & flag & Hflag & Hmeta).
  subst animated. rewrite Hflag. unfold has_mcmeta. rewrite Hmeta.
  split; [|split].
  - destruct flag; split; congruence.
  - destruct flag; split; congruence.
  - intros interpolate frametime Hsome.
    destruct flag; [|discriminate]. injection Hsome as <- <-.
    split; [reflexivity|]. split; [reflexivity|].
    destruct (read_positive_int_range (dict_get "frame_time" members) 1)
      as [->|Hpos]; lia.
Qed.

End PlanFacts.

Lemma plans_mirror_textures_witness :
  exists plan,
    index plan = 1
    /\ rel_namespace_path plan = "ns:item/asset/default/strip_1"
    /\ mcmeta_json plan = Some (true, 4).
Proof.
  set (host := example_host ["/models/Strip 1.PNG"]).
  set (strip :=
         [("name", JStr "Strip 1"); ("path", JStr "Strip 1.PNG");
          ("width", JInt 16); ("height", JInt 64);
          ("frame_time", JStr "4"); ("frame_interpolate", JInt 1)]).
  set (bbmodel := [("textures", JArr [inline_texture "tex"; JObj strip])]).
  destruct (@build_texture_plans host bbmodel "/models" "ns" "asset" "default"
              "model" false) as [plans|e] eqn:Hrun;
    [|vm_compute in Hrun; discriminate].
  destruct (nth_error plans 1) as [plan|] eqn:Hplan;
    [|vm_compute in Hrun; injection Hrun as <-; discriminate].
  exists plan.
  destruct (@plans_mirror_textures host bbmodel "/models" "ns" "asset"
              "default" "model" false plans _ 1%nat (JObj strip) plan Hrun
              eq_refl eq_refl Hplan) as (members & _ & Hidx & _ & Hpath).
  split; [exact Hidx|]. split.
  - rewrite Hpath. vm_compute in Hrun. injection Hrun as <-.
    injection Hplan as <-. reflexivity.
  - vm_compute in Hrun. injection Hrun as <-. injection Hplan as <-.
    reflexivity.
Defined.

Lemma sidecar_iff_animated_witness :
  exists plan frametime,
    mcmeta_json plan = Some (true, frametime) /\ 1 <= frametime.
Proof.
  set (host := example_host ["/models/Strip 1.PNG"]).
  set (strip :=
         [("name", JStr "Strip 1"); ("path", JStr "Strip 1.PNG");
          ("width", JInt 16); ("height", JInt 64);
          ("frame_time", JStr "4"); ("frame_interpolate", JInt 1)]).
  set (bbmodel := [("textures", JArr [inline_texture "tex"; JObj strip])]).
  destruct (@build_texture_plans host bbmodel "/models" "ns" "asset" "default"
              "model" false) as [plans|e] eqn:Hrun;
    [|vm_compute in Hrun; discriminate].
  destruct (nth_error plans 1) as [plan|] eqn:Hplan;
    [|vm_compute in Hrun; injection Hrun as <-; discriminate].
  destruct (@sidecar_iff_animated host bbmodel "/models" "ns" "asset"
              "default" "model" false plans _ 1%nat strip plan Hrun
              eq_refl eq_refl Hplan) as (Hsome & _ & Hmeta).
  destruct (mcmeta_json plan) as [[interpolate frametime]|] eqn:Hjson.
  - destruct (Hmeta interpolate frametime eq_refl) as (-> & _ & Hft).
    exists plan, frametime. split; [exact Hjson|exact Hft].
  - exfalso. assert (Hno : has_mcmeta plan = false)
      by (unfold has_mcmeta; now rewrite Hjson).
    destruct Hsome as [_ Hback]. rewrite Hback in Hno; [discriminate|].
    reflexivity.
Defined.

(** ** Sources and paths *)

Lemma after_comma_first (meta payload : string) :
  string_forall (fun c => negb (Ascii.eqb c ",")) meta = true ->
  after_comma (meta ++ "," ++ payload) = Some payload.
Proof.
  induction meta as [|c meta IH]; [reflexivity|].
  change (string_forall (fun c => negb (Ascii.eqb c ",")) (String c meta))
    with (negb (Ascii.eqb c ",")
          && string_forall (fun c => negb (Ascii.eqb c ",")) meta).
  intros Hfree. apply andb_true_iff in Hfree as [Hc Hmeta].
  change (after_comma (String c (meta ++ "," ++ payload)) = Some payload).
  simpl. apply negb_true_iff in Hc. rewrite Hc. auto.
Qed.

Lemma after_comma_none (source : string) :
  after_comma source = None
  <-> string_forall (fun c => negb (Ascii.eqb c ",")) source = true.
Proof.
  induction source as [|c source IH]; simpl; [tauto|].
  destruct (Ascii.eqb c ","); simpl; [split; discriminate|exact IH].
Qed.

Section DecodeFacts.
Context `{Host}.

(** X7. The payload of a data URI is everything after its first comma:
    for a source "data:<meta>,<payload>" whose <meta> has no comma,
    decoding returns what base64 makes of <payload>, or fails with the
    invalid-base64 failure when base64 rejects it; a source that starts
    with "data:" fails with the malformed-URL failure exactly when it has
    no comma at all. *)
Theorem data_uri_payload (texture : list (string * json))
    (bbmodel_dir : string) (idx : Z) :
  (forall meta payload,
     dict_get "source" texture = JStr ("data:" ++ meta ++ "," ++ payload) ->
     string_forall (fun c => negb (Ascii.eqb c ",")) meta = true ->
     decode_texture_source texture bbmodel_dir idx
     = match b64decode payload with
       | Some data => Ok data
       | None => Err (InvalidBase64 idx)
       end) /\
  (forall rest,
     dict_get "source" texture = JStr ("data:" ++ rest) ->
     (decode_texture_source texture bbmodel_dir idx
      = Err (MalformedDataUrl idx)
      <-> string_forall (fun c => negb (Ascii.eqb c ",")) rest = true)).
Proof.
  split.
  - intros meta payload Hsource Hmeta. unfold decode_texture_source.
    rewrite Hsource.
    change (nonempty ("data:" ++ meta ++ "," ++ payload)) with true.
    rewrite prefix_append.
    change (after_comma ("data:" ++ meta ++ "," ++ payload))
      with (after_comma (meta ++ "," ++ payload)).
    now rewrite (after_comma_first meta payload Hmeta).
  - intros rest Hsource. unfold decode_texture_source. rewrite Hsource.
    change (nonempty ("data:" ++ rest)) with true.
    rewrite prefix_append.
    change (after_comma ("data:" ++ rest)) with (after_comma rest).
    rewrite <- after_comma_none.
    destruct (after_comma rest) as [payload|]; [|tauto].
    destruct (b64decode payload); split; discriminate.
Qed.

(** X8. A non-empty [source] string decides alone: two textures with the
    same non-empty source decode alike, whatever their [path] and other
    fields are, so [path] is never consulted when a source is given. *)
Theorem source_wins_over_path (first second : list (string * json))
    (bbmodel_dir : string) (idx : Z) (source : string) :
  dict_get "source" first = JStr source ->
  dict_get "source" second = JStr source ->
  source <> "" ->
  decode_texture_source first bbmodel_dir idx
  = decode_texture_source second bbmodel_dir idx.
Proof.
  intros Hfirst Hsecond Hne. unfold decode_texture_source.
  rewrite Hfirst, Hsecond, (nonempty_true _ Hne). reflexivity.
Qed.

(** X9. Without a usable [source] (absent, not a string, or empty) the
    texture is read from its [path]: a non-empty path string is joined
    to the document's directory unless absolute and read when it is a
    file, and fails with the missing-path failure otherwise; with no
    usable path either, decoding fails with the no-source failure. *)
Theorem path_is_the_fallback (texture : list (string * json))
    (bbmodel_dir : string) (idx : Z) :
  (forall source, dict_get "source" texture = JStr source -> source = "") ->
  (forall path_value,
     dict_get "path" texture = JStr path_value ->
     path_value <> "" ->
     let external := resolve_external bbmodel_dir path_value in
     decode_texture_source texture bbmodel_dir idx
     = (if path_is_file external then Ok (read_bytes external)
        else Err (ExternalPathMissing idx external))) /\
  ((forall path_value,
      dict_get "path" texture = JStr path_value -> path_value = "") ->
   decode_texture_source texture bbmodel_dir idx = Err (NoTextureSource idx)).
Proof.
  intros Hsource.
  assert (Hfallback :
    decode_texture_source texture bbmodel_dir idx
    = match dict_get "path" texture with
      | JStr path_value =>
          if nonempty path_value then
            let external := resolve_external bbmodel_dir path_value in
            if path_is_file external then Ok (read_bytes external)
            else Err (ExternalPathMissing idx external)
          else Err (NoTextureSource idx)
      | _ => Err (NoTextureSource idx)
      end).
  { unfold decode_texture_source.
    destruct (dict_get "source" texture) as [ | | | |source| |];
      try reflexivity.
    now rewrite (Hsource source eq_refl). }
  rewrite Hfallback. split.
  - intros path_value Hpath Hne. now rewrite Hpath, (nonempty_true _ Hne).
  - intros Hnone.
    destruct (dict_get "path" texture) as [ | | | |path_value| |];
      try reflexivity.
    now rewrite (Hnone path_value eq_refl).
Qed.

End DecodeFacts.

Lemma source_wins_over_path_witness :
  @decode_texture_source (example_host ["/models/a.png"])
    [("source", JStr "b.png"); ("path", JStr "a.png")] "/models" 0
  = Err (ExternalSourceMissing 0 "/models/b.png").
Proof.
  rewrite (@source_wins_over_path (example_host ["/models/a.png"])
             [("source", JStr "b.png"); ("path", JStr "a.png")]
             [("source", JStr "b.png")] "/models" 0 "b.png" eq_refl eq_refl
             ltac:(discriminate)).
  reflexivity.
Defined.

Lemma path_is_the_fallback_witness :
  @decode_texture_source (example_host ["/models/a.png"])
    [("source", JNull); ("path", JStr "a.png")] "/models" 0 = Ok []
  /\ @decode_texture_source (example_host ["/models/a.png"])
       [("source", JStr "")] "/models" 1 = Err (NoTextureSource 1).
Proof.
  split.
  - destruct (@path_is_the_fallback (example_host ["/models/a.png"])
                [("source", JNull); ("path", JStr "a.png")] "/models" 0)
      as [Hpath _]; [discriminate|].
    rewrite (Hpath "a.png" eq_refl ltac:(discriminate)). reflexivity.
  - destruct (@path_is_the_fallback (example_host ["/models/a.png"])
                [("source", JStr "")] "/models" 1) as [_ Hnone].
    + intros source Hsource. now injection Hsource as <-.
    + apply Hnone. discriminate.
Defined.

Lemma data_uri_payload_witness :
  @decode_texture_source (example_host [])
    [("source", JStr "data:image/png;base64,AA,BB")] "/models" 0 = Ok []
  /\ @decode_texture_source (example_host [])
       [("source", JStr "data:image/png;base64")] "/models" 0
     = Err (MalformedDataUrl 0).
Proof.
  destruct (@data_uri_payload (example_host [])
              [("source", JStr "data:image/png;base64,AA,BB")] "/models" 0)
    as [Hpayload _].
  destruct (@data_uri_payload (example_host [])
              [("source", JStr "data:image/png;base64")] "/models" 0)
    as [_ Hmalformed].
  split.
  - rewrite (Hpayload "image/png;base64" "AA,BB" eq_refl eq_refl).
    reflexivity.
  - apply (Hmalformed "image/png;base64" eq_refl). reflexivity.
Defined.

(** ** The shape of converted elements *)

Section ShapeFacts.
Context `{Host}.

Lemma floats_of_length (items : list json) (label elem_name : string) :
  forall fs,
    floats_of items label elem_name = Ok fs -> length fs = length items.
Proof.
  induction items as [|v rest IH]; simpl; intros fs Hrun.
  - now injection Hrun as <-.
  - destruct (py_float v); try discriminate.
    apply bind_ok in Hrun as (fs' & Hrest & Hrun). injection Hrun as <-.
    simpl. f_equal. auto.
Qed.

Lemma ensure_list_length (n : nat) (value : json) (label elem_name : string)
    (fs : list float) :
  ensure_list n value label elem_name = Ok fs -> length fs = n.
Proof.
  unfold ensure_list. destruct value as [ | | | | |items|]; try discriminate.
  destruct (length items =? n)%nat eqn:Hlen; [|discriminate].
  intros Hrun. apply floats_of_length in Hrun.
  apply Nat.eqb_eq in Hlen. congruence.
Qed.

Lemma axis_name_known (axis : json) (a : string) :
  axis_name axis = Some a -> In a ["x"; "y"; "z"].
Proof.
  destruct axis as [ | | | |s| |]; try discriminate. simpl.
  destruct (String.eqb_spec s "x") as [->|_];
    [intros Ha; injection Ha as <-; simpl; auto|].
  destruct (String.eqb_spec s "y") as [->|_];
    [intros Ha; injection Ha as <-; simpl; auto|].
  destruct (String.eqb_spec s "z") as [->|_];
    [intros Ha; injection Ha as <-; simpl; auto|discriminate].
Qed.

Lemma convert_rotation_shaped (raw_rotation : json)
    (elem : list (string * json)) (elem_name : string) (r : rotation_out) :
  convert_rotation raw_rotation elem elem_name = Ok (Some r) ->
  rotation_shaped r.
Proof.
  unfold convert_rotation, rotation_shaped.
  destruct raw_rotation as [ | | | | |items|rotation]; try discriminate.
  - intros Hrun. apply bind_ok in Hrun as (vec & Hvec & Hrun).
    pose proof (ensure_list_length _ _ _ _ _ Hvec) as Hlen.
    destruct vec as [|x [|y [|z [|]]]]; try discriminate.
    rewrite non_zero_axes_3 in Hrun.
    destruct (axis_non_zero x), (axis_non_zero y), (axis_non_zero z);
      simpl in Hrun; try discriminate;
      apply bind_ok in Hrun as (origin & Horigin & Hrun);
      injection Hrun as <-; simpl;
      (split; [tauto|exact (ensure_list_length _ _ _ _ _ Horigin)]).
  - destruct (axis_name (dict_get "axis" rotation)) as [axis|] eqn:Haxis;
      [|discriminate].
    destruct (number_value (dict_get "angle" rotation)) as [angle|];
      [|discriminate].
    intros Hrun. apply bind_ok in Hrun as (a & _ & Hrun).
    apply bind_ok in Hrun as (origin & Horigin & Hrun).
    injection Hrun as <-. simpl.
    split; [exact (axis_name_known _ _ Haxis)|].
    exact (ensure_list_length _ _ _ _ _ Horigin).
Qed.

Lemma convert_elements_forall (Q : element_out -> Prop)
    (texture_plans : list TexturePlan) (width height : Z) :
  (forall idx elem converted,
     convert_element idx elem texture_plans width height = Ok (Some converted)
     -> Q converted) ->
  forall raw_elements idx converted_elements,
    convert_elements raw_elements idx texture_plans width height
    = Ok converted_elements ->
    Forall Q converted_elements.
Proof.
  intros Hone raw_elements. induction raw_elements as [|elem rest IH];
    intros idx converted_elements Hrun.
  - injection Hrun as <-. constructor.
  - apply convert_elements_cons in Hrun
      as (converted & others & Helem & Hrest & ->).
    apply IH in Hrest. destruct converted as [c|]; [|exact Hrest].
    constructor; eauto.
Qed.

Lemma build_model_json_forall (Q : element_out -> Prop)
    (bbmodel : list (string * json)) (texture_plans : list TexturePlan)
    (width height : Z) (model : model_json) :
  (forall idx elem converted,
     convert_element idx elem texture_plans width height = Ok (Some converted)
     -> Q converted) ->
  build_model_json bbmodel texture_plans width height = Ok model ->
  Forall Q (elements model).
Proof.
  intros Hone. unfold build_model_json.
  destruct (dict_get "elements" bbmodel) as [ | | | | |raw_elements|];
    try discriminate.
  destruct (convert_elements raw_elements 0 texture_plans width height)
    as [converted_elements|e] eqn:Hrun; [|discriminate].
  simpl. destruct converted_elements as [|c rest] eqn:Hshape; [discriminate|].
  intros Hmodel. injection Hmodel as <-. simpl. rewrite <- Hshape in *.
  eapply convert_elements_forall; eauto.
Qed.

(** X10. Every element of a produced model document has a three-number
    [from] and [to]; its rotation, when present, is about "x", "y" or "z"
    with a three-number origin; its [light_emission], when present, is
    positive. *)
Theorem elements_are_shaped
    (bbmodel : list (string * json)) (texture_plans : list TexturePlan)
    (width height : Z) (model : model_json) :
  build_model_json bbmodel texture_plans width height = Ok model ->
  Forall element_shaped (elements model).
Proof.
  apply build_model_json_forall. intros idx elem converted Hrun.
  destruct elem as [ | | | | | |elem]; try discriminate.
  apply convert_element_inv in Hrun
    as (raw_faces & _ & Hfrom & Hto & Hrotation & _ & _ & Hlight).
  unfold element_shaped. split; [|split; [|split]].
  - exact (ensure_list_length _ _ _ _ _ Hfrom).
  - exact (ensure_list_length _ _ _ _ _ Hto).
  - intros r Hr. rewrite Hr in Hrotation.
    exact (convert_rotation_shaped _ _ _ _ Hrotation).
  - intros n Hn. rewrite Hlight in Hn.
    destruct (as_pyint (dict_get "light_emission" elem)) as [m|];
      [|discriminate].
    destruct (0 <? pyint_value m) eqn:Hpos; [|discriminate].
    injection Hn as <-. now apply Z.ltb_lt.
Qed.

End ShapeFacts.

Lemma elements_are_shaped_witness :
  exists model,
    @build_model_json (example_host [])
      [("elements",
        JArr [cube_element [("rotation", ints [0; 45; 0]);
                            ("origin", ints [8; 8; 8]);
                            ("light_emission", JInt 7)]])]
      (numbered_plans 1) 16 16 = Ok model
    /\ Forall element_shaped (elements model).
Proof.
  destruct (@build_model_json (example_host [])
              [("elements",
                JArr [cube_element [("rotation", ints [0; 45; 0]);
                                    ("origin", ints [8; 8; 8]);
                                    ("light_emission", JInt 7)]])]
              (numbered_plans 1) 16 16) as [model|e] eqn:Hrun;
    [|vm_compute in Hrun; discriminate].
  exists model. split; [reflexivity|].
  exact (@elements_are_shaped (example_host []) _ _ _ _ _ Hrun).
Defined.

(** ** The shape of converted faces *)

Section FaceFacts.
Context `{Host}.

Lemma convert_face_uv_length (raw_uv : list float) (width height : Z)
    (uv : list float) :
  convert_face_uv raw_uv width height = Ok uv -> length uv = 4%nat.
Proof.
  unfold convert_face_uv. intros Hrun.
  apply bind_ok in Hrun as (sw & _ & Hrun).
  apply bind_ok in Hrun as (sh & _ & Hrun).
  destruct raw_uv as [|u0 [|v0 [|u1 [|v1 [|]]]]]; try discriminate.
  apply bind_ok in Hrun as (a & _ & Hrun).
  apply bind_ok in Hrun as (b & _ & Hrun).
  apply bind_ok in Hrun as (c & _ & Hrun).
  apply bind_ok in Hrun as (d & _ & Hrun).
  now injection Hrun as <-.
Qed.

Lemma convert_face_shape (raw_face : list (string * json))
    (elem_name face_name : string) (texture_plans : list TexturePlan)
    (width height : Z) (face : face_out) :
  convert_face raw_face elem_name face_name texture_plans width height
  = Ok face ->
  length (face_uv face) = 4%nat
  /\ (forall r, face_rotation face = Some r -> PrimFloat.eqb r 0%float = false)
  /\ (forall t, face_tintindex face = Some t -> 0 <= pyint_value t).
Proof.
  unfold convert_face. intros Hrun.
  apply bind_ok in Hrun as (tex_index & _ & Hrun).
  destruct (in_texture_lookup tex_index texture_plans); [|discriminate].
  apply bind_ok in Hrun as (raw_uv & _ & Hrun).
  apply bind_ok in Hrun as (uv & Huv & Hrun).
  apply bind_ok in Hrun as (rotation & Hrotation & Hrun).
  injection Hrun as <-. simpl. split; [|split].
  - exact (convert_face_uv_length _ _ _ _ Huv).
  - intros r ->.
    destruct (number_value (dict_get "rotation" raw_face)) as [value|];
      [|discriminate].
    apply bind_ok in Hrotation as (v & _ & Hrotation).
    destruct (PrimFloat.eqb v 0) eqn:Hzero; [discriminate|].
    now injection Hrotation as <-.
  - intros t Ht.
    destruct (as_pyint (dict_get "tintindex" raw_face)) as [a|].
    + destruct (0 <=? pyint_value a) eqn:Ha.
      * injection Ht as <-. now apply Z.leb_le.
      * destruct (as_pyint (dict_get "tint" raw_face)) as [b|];
          [|discriminate].
        destruct (0 <=? pyint_value b) eqn:Hb; [|discriminate].
        injection Ht as <-. now apply Z.leb_le.
    + destruct (as_pyint (dict_get "tint" raw_face)) as [b|];
        [|discriminate].
      destruct (0 <=? pyint_value b) eqn:Hb; [|discriminate].
      injection Ht as <-. now apply Z.leb_le.
Qed.

Lemma convert_faces_forall (P : face_out -> Prop)
    (raw_faces : list (string * json)) (elem_name : string)
    (texture_plans : list TexturePlan) (width height : Z) :
  (forall raw_face face_name face,
     convert_face raw_face elem_name face_name texture_plans width height
     = Ok face -> P face) ->
  forall face_names faces,
    convert_faces face_names raw_faces elem_name texture_plans width height
    = Ok faces ->
    Forall (fun entry => P (snd entry)) faces.
Proof.
  intros Hone. induction face_names as [|face_name rest IH]; simpl;
    intros faces Hrun.
  - injection Hrun as <-. constructor.
  - destruct (dict_get face_name raw_faces) as [ | | | | | |raw_face]; auto.
    apply bind_ok in Hrun as (face_obj & Hface & Hrun).
    apply bind_ok in Hrun as (faces' & Hrest & Hrun).
    injection Hrun as <-. constructor; [simpl; eauto|auto].
Qed.

Lemma filter_sublist_nodup {A : Type} (f : A -> bool) (l : list A) :
  List.NoDup l -> List.NoDup (List.filter f l).
Proof.
  induction 1 as [|a l Hnotin Hnodup IH]; simpl; [constructor|].
  destruct (f a); [|exact IH]. constructor; [|exact IH].
  intros Hin. apply filter_In in Hin. tauto.
Qed.

(** X11. An element is emitted with exactly the faces it declares as
    objects under the six face names, in the order north, east, south,
    west, up, down; members of [faces] under other names, and faces that
    are not objects, are ignored. *)
Theorem faces_are_the_declared_ones (idx : Z) (elem : list (string * json))
    (texture_plans : list TexturePlan) (width height : Z)
    (converted : element_out) :
  convert_element idx (JObj elem) texture_plans width height
  = Ok (Some converted) ->
  exists raw_faces,
    dict_get "faces" elem = JObj raw_faces
    /\ map fst (elem_faces converted)
       = List.filter (fun face_name => is_dict (dict_get face_name raw_faces))
           VALID_FACES
    /\ List.NoDup (map fst (elem_faces converted))
    /\ (forall face_name,
          In face_name (map fst (elem_faces converted)) <->
          In face_name VALID_FACES
          /\ is_dict (dict_get face_name raw_faces) = true).
Proof.
  intros Hrun. apply convert_element_inv in Hrun
    as (raw_faces & Hfaces & _ & _ & _ & Hconv & _).
  apply convert_faces_keys in Hconv.
  exists raw_faces. split; [exact Hfaces|]. split; [exact Hconv|].
  rewrite Hconv. split.
  - apply filter_sublist_nodup. unfold VALID_FACES.
    repeat (constructor; [simpl; intuition discriminate|]). constructor.
  - intros face_name. apply filter_In.
Qed.

(** X12. Every face of a produced model document is stored under one of
    the six face names and has a four-number uv rectangle; its rotation,
    when present, is not zero, and its tint index, when present, is not
    negative. *)
Theorem faces_are_shaped
    (bbmodel : list (string * json)) (texture_plans : list TexturePlan)
    (width height : Z) (model : model_json) :
  build_model_json bbmodel texture_plans width height = Ok model ->
  Forall (fun converted => Forall face_shaped (elem_faces converted))
    (elements model).
Proof.
  apply build_model_json_forall. intros idx elem converted Hrun.
  destruct elem as [ | | | | | |elem]; try discriminate.
  apply convert_element_inv in Hrun
    as (raw_faces & _ & _ & _ & _ & Hconv & _).
  pose proof (convert_faces_keys _ _ _ _ _ _ _ Hconv) as Hkeys.
  pose proof (convert_faces_forall
                (fun face =>
                   length (face_uv face) = 4%nat
                   /\ (forall r, face_rotation face = Some r ->
                                 PrimFloat.eqb r 0%float = false)
                   /\ (forall t, face_tintindex face = Some t ->
                                 0 <= pyint_value t))
                _ _ _ _ _ (fun raw_face face_name face =>
                             convert_face_shape raw_face _ face_name _ _ _ face)
                _ _ Hconv) as Hshape.
  apply List.Forall_forall. intros entry Hentry.
  rewrite List.Forall_forall in Hshape. unfold face_shaped. split.
  - apply (in_map fst) in Hentry. rewrite Hkeys in Hentry.
    now apply filter_In in Hentry as [Hin _].
  - now apply Hshape.
Qed.

End FaceFacts.

Lemma faces_are_the_declared_ones_witness :
  exists converted,
    @convert_element (example_host []) 0
      (JObj [("from", ints [0; 0; 0]); ("to", ints [1; 1; 1]);
             ("faces",
              JObj [("up", full_face (JInt 0)); ("top", full_face (JInt 0));
                    ("south", JNull); ("east", full_face (JInt 0))])])
      (numbered_plans 1) 16 16 = Ok (Some converted)
    /\ map fst (elem_faces converted) = ["east"; "up"].
Proof.
  set (elem := [("from", ints [0; 0; 0]); ("to", ints [1; 1; 1]);
                ("faces",
                 JObj [("up", full_face (JInt 0)); ("top", full_face (JInt 0));
                       ("south", JNull); ("east", full_face (JInt 0))])]).
  destruct (@convert_element (example_host []) 0 (JObj elem)
              (numbered_plans 1) 16 16) as [[converted|]|e] eqn:Hrun;
    try (vm_compute in Hrun; discriminate).
  exists converted. split; [reflexivity|].
  destruct (@faces_are_the_declared_ones (example_host []) 0 elem
              (numbered_plans 1) 16 16 converted Hrun)
    as (raw_faces & Hfaces & Hkeys & _).
  rewrite Hkeys. injection Hfaces as <-. reflexivity.
Defined.

Lemma faces_are_shaped_witness :
  exists model,
    @build_model_json (example_host [])
      [("elements",
        JArr [JObj [("from", ints [0; 0; 0]); ("to", ints [1; 1; 1]);
                    ("faces",
                     JObj [("up",
                            JObj [("uv", ints [0; 0; 16; 16]);
                                  ("texture", JStr "0");
                                  ("rotation", JInt 90);
                                  ("tint", JInt 2);
                                  ("tintindex", JInt (-1))])])]])]
      (numbered_plans 1) 16 16 = Ok model
    /\ Forall (fun converted => Forall face_shaped (elem_faces converted))
         (elements model).
Proof.
  destruct (@build_model_json (example_host [])
      [("elements",
        JArr [JObj [("from", ints [0; 0; 0]); ("to", ints [1; 1; 1]);
                    ("faces",
                     JObj [("up",
                            JObj [("uv", ints [0; 0; 16; 16]);
                                  ("texture", JStr "0");
                                  ("rotation", JInt 90);
                                  ("tint", JInt 2);
                                  ("tintindex", JInt (-1))])])]])]
      (numbered_plans 1) 16 16) as [model|e] eqn:Hrun;
    [|vm_compute in Hrun; discriminate].
  exists model. split; [reflexivity|].
  exact (@faces_are_shaped (example_host []) _ _ _ _ _ Hrun).
Defined.

(** ** Texture references *)

Lemma dict_set_keys {V : Type} (key : string) (v : V)
    (d : list (string * V)) (k : string) :
  In k (map fst (dict_set key v d)) <-> k = key \/ In k (map fst d).
Proof.
  induction d as [|[k' x] d IH]; simpl; [intuition congruence|].
  destruct (String.eqb_spec k' key) as [->|Hne]; simpl.
  - intuition congruence.
  - rewrite IH. intuition congruence.
Qed.

Lemma texture_table_keys (texture_plans : list TexturePlan) :
  forall table k,
    In k (map fst
            (fold_left
               (fun d plan =>
                  dict_set (pretty (index plan)) (rel_namespace_path plan) d)
               texture_plans table))
    <-> In k (map fst table)
        \/ exists plan, In plan texture_plans /\ k = pretty (index plan).
Proof.
  induction texture_plans as [|plan rest IH]; intros table k; simpl.
  - split; [auto|]. intros [Hin|(plan & [] & _)]. exact Hin.
  - rewrite IH, dict_set_keys. split.
    + intros [[->|Hin]|(p & Hp & ->)]; eauto 6.
    + intros [Hin|(p & [<-|Hp] & ->)]; eauto 6.
Qed.

(** Each plan's decimal index is a key of the texture table. *)
Lemma texture_object_has_key (texture_plans : list TexturePlan)
    (plan : TexturePlan) :
  In plan texture_plans ->
  In (pretty (index plan)) (map fst (texture_object texture_plans)).
Proof.
  intros Hin. unfold texture_object.
  assert (Htable : In (pretty (index plan))
                     (map fst
                        (fold_left
                           (fun d p =>
                              dict_set (pretty (index p))
                                (rel_namespace_path p) d)
                           texture_plans [])))
    by (apply texture_table_keys; eauto).
  destruct texture_plans as [|first rest]; [exact Htable|].
  apply dict_set_keys. now right.
Qed.

Lemma in_texture_lookup_plan (tex_index : pyint)
    (texture_plans : list TexturePlan) :
  in_texture_lookup tex_index texture_plans = true <->
  exists plan, In plan texture_plans /\ index plan = pyint_value tex_index.
Proof.
  unfold in_texture_lookup. rewrite existsb_exists.
  split; intros (plan & Hin & Heq); exists plan; split; auto;
    now apply Z.eqb_eq.
Qed.

Section ReferenceFacts.
Context `{Host}.

(** X13. Every face of a produced model document has a texture of the
    form "#k" where k is a key of the document's texture table, or else
    the texture "#True" or "#False" that a boolean reference leaves. *)
Theorem face_textures_name_table_keys
    (bbmodel : list (string * json)) (texture_plans : list TexturePlan)
    (width height : Z) (model : model_json) :
  build_model_json bbmodel texture_plans width height = Ok model ->
  Forall
    (fun converted =>
       Forall
         (fun entry =>
            (exists key,
               face_texture (snd entry) = "#" ++ key
               /\ In key (map fst (textures model)))
            \/ face_texture (snd entry) = "#True"
            \/ face_texture (snd entry) = "#False")
         (elem_faces converted))
    (elements model).
Proof.
  intros Hrun.
  assert (Htable : textures model = texture_object texture_plans).
  { unfold build_model_json in Hrun.
    destruct (dict_get "elements" bbmodel); try discriminate.
    destruct (convert_elements _ _ _ _ _) as [[|c rest]|e];
      try discriminate.
    now injection Hrun as <-. }
  rewrite Htable. revert Hrun. apply build_model_json_forall.
  intros idx elem converted Hrun.
  destruct elem as [ | | | | | |elem]; try discriminate.
  apply convert_element_inv in Hrun
    as (raw_faces & _ & _ & _ & _ & Hconv & _).
  apply convert_faces_lookup in Hconv.
  eapply List.Forall_impl; [|exact Hconv].
  intros entry (tex_index & Hin & ->).
  destruct tex_index as [[|]|z]; [right; now left|right; now right|].
  left. exists (pretty z). split; [reflexivity|].
  apply in_texture_lookup_plan in Hin as (plan & Hplan & Hidx).
  simpl in Hidx. rewrite <- Hidx. now apply texture_object_has_key.
Qed.

(** X14. With the plans of a document that declares N textures, a
    texture reference is accepted exactly when its value lies in 0..N-1;
    a face whose reference is an integer outside that range fails with
    the missing-texture-index failure, which names the element, the face
    and the index. *)
Theorem texture_refs_in_range
    (bbmodel : list (string * json))
    (bbmodel_dir namespace asset variant model_name : string)
    (prefix_textures : bool) (texture_plans : list TexturePlan)
    (raw_textures : list json) :
  build_texture_plans bbmodel bbmodel_dir namespace asset variant model_name
    prefix_textures = Ok texture_plans ->
  dict_get "textures" bbmodel = JArr raw_textures ->
  (forall tex_index,
     in_texture_lookup tex_index texture_plans = true <->
     0 <= pyint_value tex_index < Z.of_nat (length raw_textures)) /\
  (forall raw_face elem_name face_name width height z,
     dict_get "texture" raw_face = JInt z ->
     ~ 0 <= z < Z.of_nat (length raw_textures) ->
     convert_face raw_face elem_name face_name texture_plans width height
     = Err (MissingTextureIndex elem_name face_name (pretty z))
     /\ kind_of (MissingTextureIndex elem_name face_name (pretty z))
        = UnknownTextureRef).
Proof.
  intros Hrun Htextures. unfold build_texture_plans in Hrun.
  rewrite Htextures in Hrun. apply texture_plans_from_indices in Hrun.
  assert (Hrange : forall tex_index,
            in_texture_lookup tex_index texture_plans = true <->
            0 <= pyint_value tex_index < Z.of_nat (length raw_textures)).
  { intros tex_index. rewrite in_texture_lookup_plan. split.
    - intros (plan & Hin & Hidx). rewrite <- Hidx.
      apply (in_map index) in Hin. rewrite Hrun in Hin.
      apply in_map_iff in Hin as (i & <- & Hi). apply in_seq in Hi. lia.
    - intros Hbound.
      assert (Hin : In (pyint_value tex_index) (map index texture_plans)).
      { rewrite Hrun. apply in_map_iff.
        exists (Z.to_nat (pyint_value tex_index)).
        split; [lia|]. apply in_seq. lia. }
      apply in_map_iff in Hin as (plan & Hidx & Hin). eauto. }
  split; [exact Hrange|].
  intros raw_face elem_name face_name width height z Href Hout.
  split; [|reflexivity]. unfold convert_face. rewrite Href. simpl.
  destruct (in_texture_lookup (PInt z) texture_plans) eqn:Hin; [|reflexivity].
  apply Hrange in Hin. simpl in Hin. contradiction.
Qed.

(** X15. A face is converted from its texture reference only through the
    index the reference resolves to: two faces that agree on every other
    member and whose references resolve alike convert alike, so the
    integer [z], an integral float of value [z] and a string that [int]
    reads as [z] are interchangeable. *)
Theorem texture_ref_forms_agree
    (elem_name face_name : string) (texture_plans : list TexturePlan)
    (width height : Z) :
  (forall first second,
     (forall key, key <> "texture" ->
                  dict_get key first = dict_get key second) ->
     resolve_texture_index (dict_get "texture" first) elem_name face_name
     = resolve_texture_index (dict_get "texture" second) elem_name face_name ->
     convert_face first elem_name face_name texture_plans width height
     = convert_face second elem_name face_name texture_plans width height) /\
  (forall z f s,
     float_is_integer f = true -> int_of_float f = z ->
     int_of_str s = Some z ->
     resolve_texture_index (JFloat f) elem_name face_name = Ok (PInt z)
     /\ resolve_texture_index (JStr s) elem_name face_name = Ok (PInt z)
     /\ resolve_texture_index (JInt z) elem_name face_name = Ok (PInt z)).
Proof.
  split.
  - intros first second Hsame Hresolve. unfold convert_face.
    rewrite Hresolve.
    rewrite (Hsame "uv"), (Hsame "rotation"), (Hsame "tint"),
      (Hsame "tintindex") by discriminate.
    reflexivity.
  - intros z f s Hint Hvalue Hstr. simpl. now rewrite Hint, Hvalue, Hstr.
Qed.

(** X16. In a produced model document [gui_light] is "front" exactly
    when the source's [front_gui_light] is the boolean true, and is
    absent otherwise; [display] is the source's [display], verbatim,
    exactly when that is a non-empty object, and is absent otherwise; the
    texture table is the one built from the plans alone. *)
Theorem document_members_pass_through
    (bbmodel : list (string * json)) (texture_plans : list TexturePlan)
    (width height : Z) (model : model_json) :
  build_model_json bbmodel texture_plans width height = Ok model ->
  textures model = texture_object texture_plans
  /\ (gui_light model = Some "front" <->
      dict_get "front_gui_light" bbmodel = JBool true)
  /\ (gui_light model = None <->
      dict_get "front_gui_light" bbmodel <> JBool true)
  /\ (forall d,
        display model = Some d <->
        d = dict_get "display" bbmodel
        /\ exists member members, d = JObj (member :: members))
  /\ (display model = None <->
      forall member members,
        dict_get "display" bbmodel <> JObj (member :: members)).
Proof.
  unfold build_model_json.
  destruct (dict_get "elements" bbmodel); try discriminate.
  destruct (convert_elements _ _ _ _ _) as [[|c rest]|e]; try discriminate.
  simpl. intros Hrun. injection Hrun as <-. simpl.
  split; [reflexivity|]. split; [|split; [|split]].
  - destruct (dict_get "front_gui_light" bbmodel) as [ |[|]| | | | |];
      simpl; split; congruence.
  - destruct (dict_get "front_gui_light" bbmodel) as [ |[|]| | | | |];
      simpl; split; congruence.
  - intros d.
    destruct (dict_get "display" bbmodel) as [ | | | | | |[|member members]];
      simpl; split;
      try discriminate;
      try (intros [-> (member' & members' & Hd)]; discriminate).
    + intros Hd. injection Hd as <-. eauto.
    + intros [-> _]. reflexivity.
  - destruct (dict_get "display" bbmodel) as [ | | | | | |[|member members]];
      simpl; split; try discriminate; try congruence.
Qed.

End ReferenceFacts.

Lemma face_textures_name_table_keys_witness :
  exists texture_plans model,
    @convert_document (example_host []) cube_document "/models" "ns" "asset"
      "default" "cube" false = Ok (texture_plans, model)
    /\ Forall
         (fun converted =>
            Forall
              (fun entry =>
                 (exists key,
                    face_texture (snd entry) = "#" ++ key
                    /\ In key (map fst (textures model)))
                 \/ face_texture (snd entry) = "#True"
                 \/ face_texture (snd entry) = "#False")
              (elem_faces converted))
         (elements model).
Proof.
  destruct (@convert_document (example_host []) cube_document "/models" "ns"
              "asset" "default" "cube" false)
    as [[texture_plans model]|e] eqn:Hrun; [|vm_compute in Hrun; discriminate].
  exists texture_plans, model. split; [reflexivity|].
  unfold convert_document in Hrun.
  apply bind_ok in Hrun as (width & _ & Hrun).
  apply bind_ok in Hrun as (height & _ & Hrun).
  apply bind_ok in Hrun as (plans & _ & Hrun).
  apply bind_ok in Hrun as (built & Hbuild & Hrun).
  injection Hrun as -> ->.
  exact (@face_textures_name_table_keys (example_host []) _ _ _ _ _ Hbuild).
Defined.

Lemma texture_refs_in_range_witness :
  exists texture_plans,
    @build_texture_plans (example_host [])
      [("textures", JArr [inline_texture "a"; inline_texture "b";
                          inline_texture "c"])]
      "/models" "ns" "asset" "default" "model" false = Ok texture_plans
    /\ @convert_face (example_host [])
         [("texture", JInt 7); ("uv", ints [0; 0; 16; 16])] "cube" "north"
         texture_plans 16 16
       = Err (MissingTextureIndex "cube" "north" "7")
    /\ in_texture_lookup (PInt 2) texture_plans = true.
Proof.
  destruct (@build_texture_plans (example_host [])
              [("textures", JArr [inline_texture "a"; inline_texture "b";
                                  inline_texture "c"])]
              "/models" "ns" "asset" "default" "model" false)
    as [texture_plans|e] eqn:Hrun; [|vm_compute in Hrun; discriminate].
  exists texture_plans. split; [reflexivity|].
  destruct (@texture_refs_in_range (example_host []) _ _ _ _ _ _ _ _
              [inline_texture "a"; inline_texture "b"; inline_texture "c"]
              Hrun eq_refl) as [Hrange Hmissing].
  split.
  - apply (Hmissing [("texture", JInt 7); ("uv", ints [0; 0; 16; 16])]
             "cube" "north" 16 16 7 eq_refl). simpl. lia.
  - apply Hrange. simpl. lia.
Defined.

Lemma document_members_pass_through_witness :
  exists model,
    @build_model_json (example_host [])
      [("elements", JArr [cube_element []]);
       ("front_gui_light", JBool true);
       ("display", JObj [("gui", JObj [("scale", ints [1; 1; 1])])])]
      (numbered_plans 1) 16 16 = Ok model
    /\ gui_light model = Some "front"
    /\ display model
       = Some (JObj [("gui", JObj [("scale", ints [1; 1; 1])])]).
Proof.
  set (bbmodel :=
         [("elements", JArr [cube_element []]);
          ("front_gui_light", JBool true);
          ("display", JObj [("gui", JObj [("scale", ints [1; 1; 1])])])]).
  destruct (@build_model_json (example_host []) bbmodel (numbered_plans 1)
              16 16) as [model|e] eqn:Hrun;
    [|vm_compute in Hrun; discriminate].
  exists model. split; [reflexivity|].
  destruct (@document_members_pass_through (example_host []) bbmodel
              (numbered_plans 1) 16 16 model Hrun)
    as (_ & Hlight & _ & Hdisplay & _).
  split; [now apply Hlight|]. apply Hdisplay. split; [reflexivity|eauto].
Defined.

(** ** Planned files *)

Lemma list_ascii_append (a b : string) :
  list_ascii_of_string (a ++ b)
  = (list_ascii_of_string a ++ list_ascii_of_string b)%list.
Proof.
  induction a as [|c a IH]; [reflexivity|].
  change (c :: list_ascii_of_string (a ++ b)
          = c :: (list_ascii_of_string a ++ list_ascii_of_string b)%list).
  now rewrite IH.
Qed.

Lemma list_ascii_inj (a b : string) :
  list_ascii_of_string a = list_ascii_of_string b -> a = b.
Proof.
  intros Heq. rewrite <- (string_of_list_ascii_of_string a),
    <- (string_of_list_ascii_of_string b). now rewrite Heq.
Qed.

(** Appending an extension is injective. *)
Lemma append_cancel_r (a b ext : string) : a ++ ext = b ++ ext -> a = b.
Proof.
  intros Heq. apply list_ascii_inj.
  apply (f_equal list_ascii_of_string) in Heq.
  rewrite !list_ascii_append in Heq. now apply app_inv_tail in Heq.
Qed.

(** No texture file name is a sidecar name. *)
Lemma png_is_no_sidecar (a b : string) : a ++ ".png" <> b ++ ".png.mcmeta".
Proof.
  intros Heq. apply (f_equal list_ascii_of_string) in Heq.
  rewrite !list_ascii_append in Heq.
  change (list_ascii_of_string ".png")
    with ([".";"p";"n"] ++ ["g"])%char%list in Heq.
  change (list_ascii_of_string ".png.mcmeta")
    with ([".";"p";"n";"g";".";"m";"c";"m";"e";"t"] ++ ["a"])%char%list in Heq.
  rewrite !app_assoc in Heq. apply app_inj_tail in Heq as [_ Hlast].
  discriminate.
Qed.

Section PlannerFacts.
Context `{Host}.

(** X17. [ensure_writable] lets the run go on exactly when the overwrite
    flag is set or none of the paths exists. *)
Theorem ensure_writable_passes (paths : list string) (force : bool) :
  ensure_writable paths force = Ok tt <->
  force = true \/ forall p, In p paths -> path_exists p = false.
Proof.
  unfold ensure_writable. destruct force; [intuition|].
  destruct (List.filter path_exists paths) as [|p collisions] eqn:Hfilter.
  - split; [|reflexivity]. intros _. right. intros p Hp.
    destruct (path_exists p) eqn:Hexists; [|reflexivity].
    assert (Hin : In p (List.filter path_exists paths))
      by (apply filter_In; auto).
    rewrite Hfilter in Hin. destruct Hin.
  - split; [discriminate|]. intros [Hforce|Hnone]; [discriminate|].
    assert (Hin : In p (List.filter path_exists paths))
      by (rewrite Hfilter; now left).
    apply filter_In in Hin as [Hin Hexists].
    rewrite (Hnone p Hin) in Hexists. discriminate.
Qed.

(** X18. The texture files and sidecars planned for texture plans with
    pairwise distinct stems have pairwise distinct paths, on a system
    where joining distinct file names to the texture directory gives
    distinct paths: no file of a run overwrites another. *)
Theorem texture_files_are_distinct (texture_dir : string)
    (texture_plans : list TexturePlan) :
  (forall a b, path_div texture_dir a = path_div texture_dir b -> a = b) ->
  List.NoDup (map file_stem texture_plans) ->
  List.NoDup
    (map (texture_path texture_dir) texture_plans
     ++ map (mcmeta_path texture_dir)
          (List.filter has_mcmeta texture_plans))%list.
Proof.
  intros Hjoin Hstems.
  assert (Hinj : forall (ext : string) (l : list TexturePlan),
            List.NoDup (map file_stem l) ->
            List.NoDup
              (map (fun t => path_div texture_dir (file_stem t ++ ext)) l)).
  { intros ext l Hl. rewrite <- (map_map file_stem
      (fun stem => path_div texture_dir (stem ++ ext))).
    apply Finite.Injective_map_NoDup; [|exact Hl].
    intros a b Hab. apply Hjoin in Hab. now apply append_cancel_r in Hab. }
  apply NoDup_ListNoDup, NoDup_app. split; [|split].
  - apply NoDup_ListNoDup. exact (Hinj ".png" texture_plans Hstems).
  - intros p Hpng Hmeta. apply list_elem_of_In in Hpng, Hmeta.
    apply in_map_iff in Hpng as (t & <- & _).
    apply in_map_iff in Hmeta as (t' & Heq & _).
    unfold mcmeta_path, texture_path in Heq. apply Hjoin in Heq.
    symmetry in Heq. now apply png_is_no_sidecar in Heq.
  - apply NoDup_ListNoDup.
    apply (Hinj ".png.mcmeta" (List.filter has_mcmeta texture_plans)).
    clear -Hstems. induction texture_plans as [|t rest IH]; [constructor|].
    simpl in *. inversion Hstems as [|s l Hnotin Hrest]; subst.
    destruct (has_mcmeta t); [|auto]. simpl. constructor; [|auto].
    intros Hin. apply Hnotin. apply in_map_iff in Hin as (t' & Heq & Hin).
    apply filter_In in Hin as [Hin _]. rewrite <- Heq. now apply in_map.
Qed.

End PlannerFacts.

Lemma ensure_writable_passes_witness :
  @ensure_writable (example_host ["a"; "b"]) ["c"; "d"] false = Ok tt.
Proof.
  apply (@ensure_writable_passes (example_host ["a"; "b"])). right.
  intros p [<-|[<-|[]]]; reflexivity.
Defined.

Lemma texture_files_are_distinct_witness :
  List.NoDup
    (map (@texture_path (example_host []) "textures") (numbered_plans 3)
     ++ map (@mcmeta_path (example_host []) "textures")
          (List.filter has_mcmeta (numbered_plans 3)))%list.
Proof.
  apply (@texture_files_are_distinct (example_host []) "textures"
           (numbered_plans 3)).
  - intros a b Hab. apply String.app_inj in Hab.
    now apply String.app_inj in Hab.
  - vm_compute. repeat (constructor; [simpl; intuition discriminate|]).
    constructor.
Defined.

(** ** The whole run *)

Section MainFacts.
Context `{System}.

(** The operations of a run stop at the first that raises. *)
Lemma perform_spec (todo : list fs_op) :
  forall done,
    exists front back,
      todo = (front ++ back)%list
      /\ fst (perform done todo) = (done ++ front)%list
      /\ (forall before op after,
            front = (before ++ op :: after)%list ->
            fs_accepts (done ++ before) op = true)
      /\ ((back = [] /\ snd (perform done todo) = Ok tt)
          \/ exists op rest,
               back = op :: rest
               /\ fs_accepts (done ++ front) op = false
               /\ snd (perform done todo) = Err (Uncaught "OSError")).
Proof.
  induction todo as [|op rest IH]; intros done.
  - exists [], []. split; [reflexivity|]. split; [now rewrite app_nil_r|].
    split; [|now left]. intros [|? ?] ? ? ?; discriminate.
  - simpl. destruct (fs_accepts done op) eqn:Haccepts.
    + destruct (IH (done ++ [op])%list)
        as (front & back & -> & Hfst & Hfront & Hback).
      exists (op :: front), back. split; [reflexivity|].
      split; [now rewrite Hfst, <- app_assoc|]. split.
      * intros [|first before] o after Heq; injection Heq as -> ->.
        -- now rewrite app_nil_r.
        -- specialize (Hfront before o after eq_refl).
           now rewrite <- app_assoc in Hfront.
      * destruct Hback as [Hend|(o & tail & -> & Hrefused & Hsnd)];
          [now left|].
        right. exists o, tail. split; [reflexivity|].
        split; [|exact Hsnd]. now rewrite <- app_assoc in Hrefused.
    + exists [], (op :: rest). split; [reflexivity|].
      split; [now rewrite app_nil_r|]. split.
      * intros [|? ?] ? ? ?; discriminate.
      * right. exists op, rest. now rewrite app_nil_r.
Qed.

(** The run after the checks of the assets root and the names. *)
Lemma main_run_unfold (args : Args)
    (bbmodel_path assets_root namespace model_name asset variant : string) :
  main_run args bbmodel_path assets_root namespace model_name asset variant =
  match read_bbmodel bbmodel_path with
  | Aborted f => ([], Aborted f)
  | Done (JObj bbmodel) =>
      match
        convert_document bbmodel (path_parent bbmodel_path) namespace asset
          variant model_name (arg_prefix_textures args)
      with
      | Err e => ([], Aborted (Failed e))
      | Ok (texture_plans, model_json) =>
          match
            ensure_writable
              (planned_paths assets_root namespace asset variant model_name
                 texture_plans) (arg_force args)
          with
          | Err e => ([], Aborted (Failed e))
          | Ok _ =>
              if arg_dry_run args then ([], Done tt)
              else
                match
                  perform []
                    (write_outputs assets_root namespace asset variant
                       model_name texture_plans model_json)
                with
                | (ops, Ok _) => (ops, Done tt)
                | (ops, Err e) => (ops, Aborted (Failed e))
                end
          end
      end
  | Done _ => ([], Aborted (Failed (Uncaught "AttributeError")))
  end.
Proof.
  unfold main_run.
  destruct (read_bbmodel _) as [[ | | | | | |bbmodel]|f]; try reflexivity.
  destruct (convert_document _ _ _ _ _ _ _) as [[texture_plans model]|e];
    [|reflexivity].
  unfold main_effects.
  destruct (ensure_writable _ _) as [[]|e]; [|reflexivity].
  now destruct (arg_dry_run args).
Qed.

(** What a run does after the checks: nothing on a failure or a dry run,
    otherwise the planned operations up to the first that raises. *)
Lemma main_run_cases (args : Args)
    (bbmodel_path assets_root namespace model_name asset variant : string) :
  let run :=
    main_run args bbmodel_path assets_root namespace model_name asset
      variant in
  (exists f,
     run = ([], Aborted f)
     /\ ((f = BbmodelMissing bbmodel_path
          /\ path_is_file bbmodel_path = false)
         \/ f = InvalidJson bbmodel_path
         \/ exists e, f = Failed e))
  \/ exists bbmodel texture_plans model,
       read_bbmodel bbmodel_path = Done (JObj bbmodel)
       /\ convert_document bbmodel (path_parent bbmodel_path) namespace
            asset variant model_name (arg_prefix_textures args)
          = Ok (texture_plans, model)
       /\ ensure_writable
            (planned_paths assets_root namespace asset variant model_name
               texture_plans) (arg_force args) = Ok tt
       /\ ((arg_dry_run args = true /\ run = ([], Done tt))
           \/ (arg_dry_run args = false
               /\ exists front back,
                    write_outputs assets_root namespace asset variant
                      model_name texture_plans model = (front ++ back)%list
                    /\ (forall before op after,
                          front = (before ++ op :: after)%list ->
                          fs_accepts before op = true)
                    /\ ((back = [] /\ run = (front, Done tt))
                        \/ exists op rest,
                             back = op :: rest
                             /\ fs_accepts front op = false
                             /\ run
                                = (front,
                                   Aborted (Failed (Uncaught "OSError")))))).
Proof.
  cbv zeta. rewrite main_run_unfold.
  destruct (read_bbmodel bbmodel_path) as [v|f] eqn:Hread.
  - destruct v as [ | | | | | |bbmodel];
      try (left; eexists; split; [reflexivity|]; right; right; eauto).
    destruct (convert_document _ _ _ _ _ _ _) as [[texture_plans model]|e]
      eqn:Hconvert;
      [|left; eexists; split; [reflexivity|]; right; right; eauto].
    destruct (ensure_writable _ _) as [[]|e] eqn:Hwritable;
      [|left; eexists; split; [reflexivity|]; right; right; eauto].
    right. exists bbmodel, texture_plans, model.
    do 3 (split; [first [reflexivity|assumption]|]).
    destruct (arg_dry_run args); [left; auto|]. right.
    split; [reflexivity|].
    destruct (perform_spec
                (write_outputs assets_root namespace asset variant model_name
                   texture_plans model) [])
      as (front & back & Hsplit & Hfst & Hfront & Hback).
    exists front, back. split; [exact Hsplit|]. split; [exact Hfront|].
    destruct (perform [] _) as [ops r]. cbn [fst snd] in Hfst, Hback.
    subst ops.
    destruct Hback as [[-> ->]|(op & rest & -> & Hrefused & ->)].
    + left. auto.
    + right. exists op, rest. auto.
  - left. exists f. split; [reflexivity|].
    unfold read_bbmodel in Hread.
    destruct (path_is_file bbmodel_path) eqn:Hfile.
    + destruct (read_text bbmodel_path) as [text|].
      * destruct (json_loads text); [discriminate|].
        injection Hread as <-. auto.
      * injection Hread as <-. eauto.
    + injection Hread as <-. auto.
Qed.

Lemma nonempty_pack_name (raw : string) :
  negb (nonempty (to_pack_name raw)) = true <-> raw = "".
Proof.
  unfold nonempty. rewrite negb_involutive, <- (to_pack_name_empty raw).
  destruct (String.eqb_spec (to_pack_name raw) ""); split; congruence.
Qed.

(** [main] up to the run: the checks of the assets root and the names. *)
Lemma main_cases (args : Args) :
  let assets_root := path_resolve (arg_assets_root args) in
  let bbmodel_path := path_resolve (arg_bbmodel args) in
  let namespace := to_pack_name (arg_namespace args) in
  let model_name :=
    to_pack_name (arg_or (arg_model_name args) (path_stem bbmodel_path)) in
  let asset :=
    to_pack_name (arg_or (arg_asset args) (path_stem bbmodel_path)) in
  let variant := to_pack_name (arg_variant args) in
  (fst (main args) = []
   /\ (snd (main args) = Aborted (AssetsRootMissing assets_root)
       \/ snd (main args) = Aborted EmptyModelName
       \/ snd (main args) = Aborted EmptyAssetName
       \/ snd (main args) = Aborted EmptyVariantName)
   /\ ~ (path_exists assets_root = true /\ path_is_dir assets_root = true
         /\ model_name <> "" /\ asset <> "" /\ variant <> ""))
  \/ (path_exists assets_root = true /\ path_is_dir assets_root = true
      /\ model_name <> "" /\ asset <> "" /\ variant <> ""
      /\ main args
         = main_run args bbmodel_path assets_root namespace model_name asset
             variant).
Proof.
  cbv zeta. unfold main.
  assert (Hempty : forall s, negb (nonempty s) = false <-> s <> "").
  { intros s. unfold nonempty. rewrite negb_involutive.
    destruct (String.eqb_spec s ""); split; congruence. }
  destruct (path_exists _) eqn:Hexists; simpl;
    [|left; split; [reflexivity|]; split; [auto|];
      intros (Hex & _); discriminate].
  destruct (path_is_dir _) eqn:Hdir; simpl;
    [|left; split; [reflexivity|]; split; [auto|];
      intros (_ & Hd & _); discriminate].
  destruct (negb (nonempty (to_pack_name (arg_or (arg_model_name args) _))))
    eqn:Hmodel; simpl.
  { left. split; [reflexivity|]. split; [auto|].
    intros (_ & _ & Hne & _). apply Hempty in Hne. congruence. }
  destruct (negb (nonempty (to_pack_name (arg_or (arg_asset args) _))))
    eqn:Hasset; simpl.
  { left. split; [reflexivity|]. split; [auto|].
    intros (_ & _ & _ & Hne & _). apply Hempty in Hne. congruence. }
  destruct (negb (nonempty (to_pack_name (arg_variant args)))) eqn:Hvariant;
    simpl.
  { left. split; [reflexivity|]. split; [auto 6|].
    intros (_ & _ & _ & _ & Hne). apply Hempty in Hne. congruence. }
  apply Hempty in Hmodel, Hasset, Hvariant. right. auto 10.
Qed.

(** X19. [main] touches the file system only after every check: a dry
    run, and a run that fails for any reason but an [OSError] raised by
    one of its operations, perform nothing.  A run that performs
    operations has read and converted the document and passed the
    collision check, and what it performs is an initial part of the
    planned sequence (the two [mkdir]s, the model, the textures, the
    sidecars): all of it, writing exactly the planned paths, when the run
    ends well, and otherwise the part before the first operation that
    raises, the run ending with that uncaught [OSError] and the earlier
    files written. *)
Theorem main_writes_after_checks (args : Args) :
  (arg_dry_run args = true -> fst (main args) = []) /\
  (forall failure,
     snd (main args) = Aborted failure ->
     failure <> Failed (Uncaught "OSError") -> fst (main args) = []) /\
  (snd (main args) = Done tt -> arg_dry_run args = false ->
   fst (main args) <> []) /\
  (fst (main args) <> [] ->
   arg_dry_run args = false
   /\ exists bbmodel texture_plans model,
        let assets_root := path_resolve (arg_assets_root args) in
        let bbmodel_path := path_resolve (arg_bbmodel args) in
        let namespace := to_pack_name (arg_namespace args) in
        let model_name :=
          to_pack_name
            (arg_or (arg_model_name args) (path_stem bbmodel_path)) in
        let asset :=
          to_pack_name (arg_or (arg_asset args) (path_stem bbmodel_path)) in
        let variant := to_pack_name (arg_variant args) in
        read_bbmodel bbmodel_path = Done (JObj bbmodel)
        /\ convert_document bbmodel (path_parent bbmodel_path) namespace
             asset variant model_name (arg_prefix_textures args)
           = Ok (texture_plans, model)
        /\ ensure_writable
             (planned_paths assets_root namespace asset variant model_name
                texture_plans) (arg_force args) = Ok tt
        /\ exists rest,
             write_outputs assets_root namespace asset variant model_name
               texture_plans model = (fst (main args) ++ rest)%list
             /\ (forall before op after,
                   fst (main args) = (before ++ op :: after)%list ->
                   fs_accepts before op = true)
             /\ ((rest = []
                  /\ snd (main args) = Done tt
                  /\ written_paths (fst (main args))
                     = planned_paths assets_root namespace asset variant
                         model_name texture_plans)
                 \/ exists op rest',
                      rest = op :: rest'
                      /\ fs_accepts (fst (main args)) op = false
                      /\ snd (main args)
                         = Aborted (Failed (Uncaught "OSError")))).
Proof.
  destruct (main_cases args)
    as [(Hnone & Hkind & _)|(_ & _ & _ & _ & _ & ->)].
  { rewrite Hnone. split; [reflexivity|]. split; [reflexivity|].
    split; [|congruence].
    intros Hdone. destruct Hkind as [Hk|[Hk|[Hk|Hk]]]; congruence. }
  destruct (main_run_cases args (path_resolve (arg_bbmodel args))
              (path_resolve (arg_assets_root args))
              (to_pack_name (arg_namespace args))
              (to_pack_name
                 (arg_or (arg_model_name args)
                    (path_stem (path_resolve (arg_bbmodel args)))))
              (to_pack_name
                 (arg_or (arg_asset args)
                    (path_stem (path_resolve (arg_bbmodel args)))))
              (to_pack_name (arg_variant args)))
    as [(f & -> & _)|(bbmodel & texture_plans & model & Hread & Hconvert
                      & Hwritable & Hrun)].
  { cbn [fst snd]. split; [reflexivity|]. split; [reflexivity|].
    split; [discriminate|congruence]. }
  destruct Hrun as [[Hdry ->]|(Hdry & front & back & Hsplit & Hfront & Hrun)].
  { cbn [fst snd]. split; [reflexivity|]. split; [reflexivity|].
    split; [congruence|congruence]. }
  destruct Hrun as [[-> ->]|(op & rest & -> & Hrefused & ->)]; cbn [fst snd].
  - rewrite app_nil_r in Hsplit. subst front.
    split; [congruence|]. split; [discriminate|].
    split; [intros _ _; discriminate|]. intros _. split; [exact Hdry|].
    exists bbmodel, texture_plans, model.
    do 3 (split; [assumption|]). exists []. split; [now rewrite app_nil_r|].
    split; [exact Hfront|]. left. split; [reflexivity|].
    split; [reflexivity|]. apply written_paths_planned.
  - split; [congruence|]. split; [intros failure [= <-]; congruence|].
    split; [discriminate|]. intros _. split; [exact Hdry|].
    exists bbmodel, texture_plans, model.
    do 3 (split; [assumption|]). exists (op :: rest).
    split; [exact Hsplit|]. split; [exact Hfront|]. right.
    exists op, rest. auto.
Qed.

(** X20. [main] ends well exactly when the assets root is an existing
    directory, the normalised model, asset and variant names are not
    empty, the document is read and is an object, the document converts,
    the planned paths may be written and, unless the run is a dry run,
    the file system lets every planned operation through. *)
Theorem main_succeeds_iff (args : Args) :
  let assets_root := path_resolve (arg_assets_root args) in
  let bbmodel_path := path_resolve (arg_bbmodel args) in
  let namespace := to_pack_name (arg_namespace args) in
  let model_name :=
    to_pack_name (arg_or (arg_model_name args) (path_stem bbmodel_path)) in
  let asset :=
    to_pack_name (arg_or (arg_asset args) (path_stem bbmodel_path)) in
  let variant := to_pack_name (arg_variant args) in
  snd (main args) = Done tt <->
  path_exists assets_root = true
  /\ path_is_dir assets_root = true
  /\ model_name <> "" /\ asset <> "" /\ variant <> ""
  /\ exists bbmodel texture_plans model,
       read_bbmodel bbmodel_path = Done (JObj bbmodel)
       /\ convert_document bbmodel (path_parent bbmodel_path) namespace asset
            variant model_name (arg_prefix_textures args)
          = Ok (texture_plans, model)
       /\ ensure_writable
            (planned_paths assets_root namespace asset variant model_name
               texture_plans) (arg_force args) = Ok tt
       /\ (arg_dry_run args = true
           \/ forall before op after,
                write_outputs assets_root namespace asset variant model_name
                  texture_plans model = (before ++ op :: after)%list ->
                fs_accepts before op = true).
Proof.
  cbv zeta.
  destruct (main_cases args)
    as [(_ & Hkind & Hnot)|(Hexists & Hdir & Hmodel & Hasset & Hvariant
                             & ->)].
  { split.
    - intros Hdone. destruct Hkind as [Hk|[Hk|[Hk|Hk]]]; congruence.
    - intros (He & Hd & Hm & Ha & Hv & _). destruct Hnot. auto. }
  destruct (main_run_cases args (path_resolve (arg_bbmodel args))
              (path_resolve (arg_assets_root args))
              (to_pack_name (arg_namespace args))
              (to_pack_name
                 (arg_or (arg_model_name args)
                    (path_stem (path_resolve (arg_bbmodel args)))))
              (to_pack_name
                 (arg_or (arg_asset args)
                    (path_stem (path_resolve (arg_bbmodel args)))))
              (to_pack_name (arg_variant args)))
    as [(f & Hrun & Hkind)|(bbmodel & texture_plans & model & Hread
                            & Hconvert & Hwritable & Hrun)].
  - rewrite Hrun. cbn [snd]. split; [discriminate|].
    intros (_ & _ & _ & _ & _ & doc & plans & built & Hdoc & Hc & Hw
            & Hlets).
    rewrite main_run_unfold, Hdoc, Hc, Hw in Hrun.
    destruct (arg_dry_run args); [discriminate|].
    destruct Hlets as [Hdry|Hlets]; [discriminate|].
    match type of Hrun with
    | context [perform [] ?todo] =>
        destruct (perform_spec todo [])
          as (front & back & Hsplit & _ & _ & Hback);
        destruct (perform [] todo) as [ops r]
    end.
    cbn [snd] in Hback.
    destruct Hback as [[_ ->]|(op & rest & -> & Hrefused & _)];
      [discriminate|].
    cbn [app] in Hrefused.
    rewrite (Hlets front op rest Hsplit) in Hrefused. discriminate.
  - split.
    + intros Hdone. do 5 (split; [assumption|]).
      exists bbmodel, texture_plans, model. do 3 (split; [assumption|]).
      destruct Hrun as [[Hdry _]|(Hdry & front & back & Hsplit & Hfront
                                  & Hend)]; [now left|].
      right. destruct Hend as [[-> _]|(op & rest & _ & _ & Hrun)].
      * rewrite app_nil_r in Hsplit. rewrite Hsplit. exact Hfront.
      * rewrite Hrun in Hdone. discriminate.
    + intros (_ & _ & _ & _ & _ & doc & plans & built & Hdoc & Hc & _
              & Hlets).
      rewrite Hread in Hdoc. injection Hdoc as <-.
      rewrite Hconvert in Hc. injection Hc as <- <-.
      destruct Hrun as [[_ ->]|(Hdry & front & back & Hsplit & _ & Hend)];
        [reflexivity|].
      destruct Hend as [[_ ->]|(op & rest & -> & Hrefused & _)];
        [reflexivity|].
      destruct Hlets as [Hdry'|Hlets]; [congruence|].
      rewrite (Hlets front op rest Hsplit) in Hrefused. discriminate.
Qed.

(** X26. The run whose operations may raise and the run on a file
    system that lets every operation through differ only past the first
    operation that raises: a refusal of the collision check and a dry run
    perform nothing in both; what the first performs is an initial part
    of what the second performs; and the two are the same when the file
    system accepts every planned operation in turn, as they are whenever
    the first ends well. *)
Theorem main_effects_outputs
    (assets_root namespace asset variant model_name : string)
    (texture_plans : list TexturePlan) (model : model_json)
    (force dry_run : bool) :
  let performed :=
    main_effects assets_root namespace asset variant model_name texture_plans
      model force dry_run in
  let planned :=
    main_outputs assets_root namespace asset variant model_name texture_plans
      model force dry_run in
  (forall e, snd planned = Err e -> performed = ([], Err e)) /\
  (dry_run = true -> performed = planned /\ fst performed = []) /\
  (exists rest, fst planned = (fst performed ++ rest)%list) /\
  ((forall before op after,
      fst planned = (before ++ op :: after)%list ->
      fs_accepts before op = true) ->
   performed = planned) /\
  (snd performed = Ok tt -> performed = planned) /\
  (performed <> planned ->
   snd performed = Err (Uncaught "OSError")
   /\ exists op rest,
        fst planned = (fst performed ++ op :: rest)%list
        /\ fs_accepts (fst performed) op = false).
Proof.
  cbv zeta. unfold main_effects, main_outputs.
  destruct (ensure_writable _ force) as [[]|e].
  2:{ cbn [fst snd]. split; [now intros e' [= <-]|]. split; [auto|].
      split; [now exists []|]. split; [reflexivity|].
      split; [reflexivity|]. now intros []. }
  destruct dry_run.
  { cbn [fst snd]. split; [discriminate|]. split; [auto|].
    split; [now exists []|]. split; [reflexivity|].
    split; [reflexivity|]. now intros []. }
  set (todo := write_outputs assets_root namespace asset variant model_name
                 texture_plans model).
  destruct (perform_spec todo [])
    as (front & back & Hsplit & Hfst & _ & Hback).
  destruct (perform [] todo) as [ops r]. cbn [fst snd app] in *. subst ops.
  split; [discriminate|]. split; [discriminate|].
  split; [now exists back|].
  destruct Hback as [[-> ->]|(op & rest & -> & Hrefused & ->)].
  - rewrite app_nil_r in Hsplit. subst front.
    split; [reflexivity|]. split; [reflexivity|]. now intros [].
  - split.
    { intros Hlets. rewrite (Hlets front op rest Hsplit) in Hrefused.
      discriminate. }
    split; [discriminate|]. intros _. split; [reflexivity|].
    exists op, rest. auto.
Qed.

(** X21. Before reading the document [main] refuses a missing assets
    root and empty names, in that order: the run fails on the assets root
    exactly when it does not exist or is no directory; then on the model
    name, the asset name and the variant exactly when the chosen raw name
    (the argument, or the document's stem when the argument is absent or
    empty) is the empty string. *)
Theorem main_preflight (args : Args) :
  let assets_root := path_resolve (arg_assets_root args) in
  let stem := path_stem (path_resolve (arg_bbmodel args)) in
  let root_ok := path_exists assets_root && path_is_dir assets_root in
  (snd (main args) = Aborted (AssetsRootMissing assets_root) <->
   root_ok = false) /\
  (snd (main args) = Aborted EmptyModelName <->
   root_ok = true /\ arg_or (arg_model_name args) stem = "") /\
  (snd (main args) = Aborted EmptyAssetName <->
   root_ok = true /\ arg_or (arg_model_name args) stem <> ""
   /\ arg_or (arg_asset args) stem = "") /\
  (snd (main args) = Aborted EmptyVariantName <->
   root_ok = true /\ arg_or (arg_model_name args) stem <> ""
   /\ arg_or (arg_asset args) stem <> "" /\ arg_variant args = "").
Proof.
  cbv zeta. unfold main.
  destruct (path_exists _); simpl;
    [|repeat split; try discriminate; intros [? ?]; discriminate].
  destruct (path_is_dir _); simpl;
    [|repeat split; try discriminate; intros [? ?]; discriminate].
  destruct (negb (nonempty (to_pack_name (arg_or (arg_model_name args) _))))
    eqn:Hmodel; simpl.
  { apply nonempty_pack_name in Hmodel.
    repeat split; try discriminate; try tauto;
      intros (_ & Hne & _); congruence. }
  assert (Hm : arg_or (arg_model_name args)
                 (path_stem (path_resolve (arg_bbmodel args))) <> "").
  { intros Heq. apply nonempty_pack_name in Heq. congruence. }
  destruct (negb (nonempty (to_pack_name (arg_or (arg_asset args) _))))
    eqn:Hasset; simpl.
  { apply nonempty_pack_name in Hasset.
    repeat split; try discriminate; try tauto;
      intros (_ & Hne & _); congruence. }
  assert (Ha : arg_or (arg_asset args)
                 (path_stem (path_resolve (arg_bbmodel args))) <> "").
  { intros Heq. apply nonempty_pack_name in Heq. congruence. }
  destruct (negb (nonempty (to_pack_name (arg_variant args)))) eqn:Hvariant;
    simpl.
  { apply nonempty_pack_name in Hvariant.
    repeat split; try discriminate; try tauto;
      intros (_ & Hne & _); congruence. }
  assert (Hv : arg_variant args <> "").
  { intros Heq. apply nonempty_pack_name in Heq. congruence. }
  match goal with
  | |- context [main_run ?a ?b ?c ?d ?e ?f ?g] =>
      destruct (main_run_cases a b c d e f g)
        as [(failure & -> & Hkind)|(bbmodel & texture_plans & model & _ & _
                                    & _ & Hrun)]
  end.
  - cbn [snd].
    assert (Hno : failure <> AssetsRootMissing
                               (path_resolve (arg_assets_root args))
                  /\ failure <> EmptyModelName
                  /\ failure <> EmptyAssetName
                  /\ failure <> EmptyVariantName).
    { destruct Hkind as [[-> _]|[->|(e & ->)]]; repeat split; discriminate. }
    destruct Hno as (Hroot & Hmn & Han & Hvn).
    split; [split; [congruence|discriminate]|].
    split; [split; [congruence|tauto]|].
    split; [split; [congruence|tauto]|]. split; [congruence|tauto].
  - destruct Hrun
      as [[_ ->]|(_ & front & back & _ & _
                  & [[_ ->]|(op & rest & _ & _ & ->)])];
      cbn [snd];
      (split; [split; discriminate|]);
      (split; [split; [discriminate|tauto]|]);
      (split; [split; [discriminate|tauto]|]); (split; [discriminate|tauto]).
Qed.

End MainFacts.

Section RunFacts.
Context `{System}.

(** X22. A document that is read but whose top level is no object (an
    array, a string, a number, null) ends the run with an uncaught
    [AttributeError], and a document path that is no file with the
    missing-document failure; in both cases nothing is written. *)
Theorem main_needs_an_object (args : Args) :
  let assets_root := path_resolve (arg_assets_root args) in
  let bbmodel_path := path_resolve (arg_bbmodel args) in
  path_exists assets_root = true ->
  path_is_dir assets_root = true ->
  arg_or (arg_model_name args) (path_stem bbmodel_path) <> "" ->
  arg_or (arg_asset args) (path_stem bbmodel_path) <> "" ->
  arg_variant args <> "" ->
  (forall bbmodel,
     read_bbmodel bbmodel_path = Done bbmodel ->
     is_dict bbmodel = false ->
     main args = ([], Aborted (Failed (Uncaught "AttributeError")))) /\
  (path_is_file bbmodel_path = false ->
   main args = ([], Aborted (BbmodelMissing bbmodel_path))).
Proof.
  intros assets_root bbmodel_path Hexists Hdir Hmodel Hasset Hvariant.
  assert (Hname : forall raw,
            raw <> "" -> negb (nonempty (to_pack_name raw)) = false).
  { intros raw Hraw.
    destruct (negb (nonempty (to_pack_name raw))) eqn:Hempty; [|reflexivity].
    apply nonempty_pack_name in Hempty. contradiction. }
  assert (Hmain : main args
                  = main_run args bbmodel_path assets_root
                      (to_pack_name (arg_namespace args))
                      (to_pack_name
                         (arg_or (arg_model_name args)
                            (path_stem bbmodel_path)))
                      (to_pack_name
                         (arg_or (arg_asset args) (path_stem bbmodel_path)))
                      (to_pack_name (arg_variant args))).
  { unfold main. fold bbmodel_path. fold assets_root.
    rewrite Hexists, Hdir. simpl.
    now rewrite (Hname _ Hmodel), (Hname _ Hasset), (Hname _ Hvariant). }
  rewrite Hmain, main_run_unfold. split.
  - intros bbmodel Hread Hobject. rewrite Hread.
    destruct bbmodel; try reflexivity. discriminate.
  - intros Hfile. unfold read_bbmodel. now rewrite Hfile.
Qed.

End RunFacts.

Section OrderFacts.
Context `{Host}.

(** X23. The conversion reports the first defect in the order
    resolution, textures, elements: a [resolution] that is no object
    raises [AttributeError] whatever the rest holds; with a usable
    resolution, [textures] that is no array fails with the
    textures-not-array failure whatever [elements] holds; and with
    textures that resolve, [elements] that is no array fails with the
    elements-not-array failure. *)
Theorem conversion_reports_first_defect
    (bbmodel : list (string * json))
    (bbmodel_dir namespace asset variant model_name : string)
    (prefix_textures : bool) :
  let run :=
    convert_document bbmodel bbmodel_dir namespace asset variant model_name
      prefix_textures in
  (is_dict (dict_get_default "resolution" (JObj []) bbmodel) = false ->
   run = Err (Uncaught "AttributeError")) /\
  (is_dict (dict_get_default "resolution" (JObj []) bbmodel) = true ->
   (forall raw_textures, dict_get "textures" bbmodel <> JArr raw_textures) ->
   run = Err TexturesNotArray) /\
  (is_dict (dict_get_default "resolution" (JObj []) bbmodel) = true ->
   forall texture_plans,
     build_texture_plans bbmodel bbmodel_dir namespace asset variant
       model_name prefix_textures = Ok texture_plans ->
     (forall raw_elements, dict_get "elements" bbmodel <> JArr raw_elements) ->
     run = Err ElementsNotArray).
Proof.
  cbv zeta. unfold convert_document, model_resolution.
  split; [|split].
  - intros Hres.
    destruct (dict_get_default "resolution" (JObj []) bbmodel);
      try reflexivity. discriminate.
  - intros Hres Htextures.
    destruct (dict_get_default "resolution" (JObj []) bbmodel);
      try discriminate. simpl. unfold build_texture_plans.
    destruct (dict_get "textures" bbmodel) as [ | | | | |raw_textures|];
      try reflexivity. now destruct (Htextures raw_textures).
  - intros Hres texture_plans Hplans Helements.
    destruct (dict_get_default "resolution" (JObj []) bbmodel);
      try discriminate. simpl. rewrite Hplans. simpl.
    unfold build_model_json.
    destruct (dict_get "elements" bbmodel) as [ | | | | |raw_elements|];
      try reflexivity. now destruct (Helements raw_elements).
Qed.

End OrderFacts.

(** A run on the cube document, with the assets root in place. *)
Lemma main_succeeds_iff_witness :
  let system :=
    example_system ["assets"; "cube.bbmodel"]
      [("cube.bbmodel", JObj cube_document)] in
  let args :=
    {| arg_bbmodel := "cube.bbmodel"; arg_assets_root := "assets";
       arg_namespace := "Blood Stone"; arg_asset := Some "Cube";
       arg_variant := "default"; arg_model_name := Some "cube";
       arg_prefix_textures := false; arg_force := false;
       arg_dry_run := false |} in
  snd (@main system args) = Done tt
  /\ written_paths (fst (@main system args))
     = ["assets/blood_stone/models/item/cube/default/cube.json";
        "assets/blood_stone/textures/item/cube/default/tex.png"].
Proof.
  intros system args.
  assert (Hdone : snd (@main system args) = Done tt).
  { apply (@main_succeeds_iff system args).
    do 2 (split; [reflexivity|]). do 3 (split; [discriminate|]).
    do 3 eexists. split; [reflexivity|]. split; [reflexivity|].
    split; [reflexivity|]. right. intros before op after _. reflexivity. }
  split; [exact Hdone|]. reflexivity.
Defined.

(** With [--force] and a directory where the texture is to be written,
    the model document is written before the run fails. *)
Lemma main_writes_after_checks_witness :
  let system :=
    blocked_system ["assets"; "cube.bbmodel"]
      ["assets/bloodstone/textures/item/cube/default/tex.png"]
      [("cube.bbmodel", JObj cube_document)] in
  let args :=
    {| arg_bbmodel := "cube.bbmodel"; arg_assets_root := "assets";
       arg_namespace := "bloodstone"; arg_asset := Some "cube";
       arg_variant := "default"; arg_model_name := Some "cube";
       arg_prefix_textures := false; arg_force := true;
       arg_dry_run := false |} in
  snd (@main system args) = Aborted (Failed (Uncaught "OSError"))
  /\ written_paths (fst (@main system args))
     = ["assets/bloodstone/models/item/cube/default/cube.json"]
  /\ arg_dry_run args = false.
Proof.
  intros system args.
  destruct (@main_writes_after_checks system args) as (_ & _ & _ & Hwrites).
  destruct Hwrites as (Hdry & _).
  - vm_compute. discriminate.
  - split; [reflexivity|]. split; [reflexivity|exact Hdry].
Defined.

(** On the file system with a directory at the texture path the two
    runs part after the model document. *)
Lemma main_effects_outputs_witness :
  let system :=
    blocked_system [] ["assets/ns/textures/item/a/v/t0.png"] [] in
  @main_effects system "assets" "ns" "a" "v" "m" (numbered_plans 1)
    empty_model true false
  <> @main_outputs (@system_host system) "assets" "ns" "a" "v" "m"
       (numbered_plans 1) empty_model true false
  /\ snd (@main_effects system "assets" "ns" "a" "v" "m" (numbered_plans 1)
            empty_model true false)
     = Err (Uncaught "OSError")
  /\ written_paths
       (fst (@main_effects system "assets" "ns" "a" "v" "m"
               (numbered_plans 1) empty_model true false))
     = ["assets/ns/models/item/a/v/m.json"].
Proof.
  intros system.
  assert (Hdiffer :
    @main_effects system "assets" "ns" "a" "v" "m" (numbered_plans 1)
      empty_model true false
    <> @main_outputs (@system_host system) "assets" "ns" "a" "v" "m"
         (numbered_plans 1) empty_model true false)
    by (vm_compute; discriminate).
  split; [exact Hdiffer|].
  destruct (@main_effects_outputs system "assets" "ns" "a" "v" "m"
              (numbered_plans 1) empty_model true false)
    as (_ & _ & _ & _ & _ & Hparted).
  destruct (Hparted Hdiffer) as (Hraised & _).
  split; [exact Hraised|reflexivity].
Defined.

Lemma main_preflight_witness :
  let system := example_system ["assets"; "cube.bbmodel"] [] in
  snd (@main system
         {| arg_bbmodel := "cube.bbmodel"; arg_assets_root := "assets";
            arg_namespace := "bloodstone"; arg_asset := None;
            arg_variant := ""; arg_model_name := Some "";
            arg_prefix_textures := false; arg_force := false;
            arg_dry_run := false |})
  = Aborted EmptyVariantName
  /\ snd (@main system (default_args "cube.bbmodel"))
     = Aborted (InvalidJson "cube.bbmodel")
  /\ snd (@main (example_system [] []) (default_args "cube.bbmodel"))
     = Aborted (AssetsRootMissing "assets").
Proof.
  intros system. split; [|split].
  - apply (@main_preflight system). repeat split; discriminate.
  - reflexivity.
  - apply (@main_preflight (example_system [] [])). reflexivity.
Defined.

Lemma main_needs_an_object_witness :
  @main (example_system ["assets"; "list.bbmodel"]
           [("list.bbmodel", JArr [JObj cube_document])])
    (default_args "list.bbmodel")
  = ([], Aborted (Failed (Uncaught "AttributeError"))).
Proof.
  pose proof (@main_needs_an_object
                (example_system ["assets"; "list.bbmodel"]
                   [("list.bbmodel", JArr [JObj cube_document])])
                (default_args "list.bbmodel") eq_refl eq_refl
                ltac:(discriminate) ltac:(discriminate) ltac:(discriminate))
    as [Hobject _].
  apply (Hobject (JArr [JObj cube_document])); reflexivity.
Defined.

Lemma conversion_reports_first_defect_witness :
  @convert_document (example_host [])
    [("resolution", JNull); ("textures", JNull)] "/models" "ns" "asset"
    "default" "model" false
  = Err (Uncaught "AttributeError")
  /\ @convert_document (example_host [])
       [("elements", JArr [cube_element []])] "/models" "ns" "asset"
       "default" "model" false
     = Err TexturesNotArray.
Proof.
  split.
  - apply (@conversion_reports_first_defect (example_host [])).
    reflexivity.
  - apply (@conversion_reports_first_defect (example_host []));
      [reflexivity|]. intros raw_textures. discriminate.
Defined.

(** ** What failures name *)

Section FailureFacts.
Context `{Host}.

Lemma decode_failure_names_texture (texture : list (string * json))
    (bbmodel_dir : string) (idx : Z) (e : error) :
  decode_texture_source texture bbmodel_dir idx = Err e ->
  error_texture e = Some idx.
Proof.
  unfold decode_texture_source.
  repeat (match goal with
          | |- context [if ?b then _ else _] => destruct b
          | |- context [match ?x with _ => _ end] => destruct x
          end; try discriminate);
    intros He; injection He as <-; reflexivity.
Qed.

Lemma is_animated_failure (width height uv_width uv_height : Z) (e : error) :
  is_animated width height uv_width uv_height = Err e ->
  exists exception, e = Uncaught exception.
Proof.
  unfold is_animated, pixel_ratio, int_truediv.
  repeat (match goal with
          | |- context [if ?b then _ else _] => destruct b
          | |- context [match ?x with _ => _ end] => destruct x
          end; simpl; try discriminate);
    intros He; injection He as <-; eauto.
Qed.

Lemma texture_plan_failure (texture : json) (idx : Z)
    (used_names : gset string)
    (bbmodel_dir namespace asset variant model_name : string)
    (prefix_textures : bool) (e : error) :
  texture_plan texture idx used_names bbmodel_dir namespace asset variant
    model_name prefix_textures = Err e ->
  error_texture e = Some idx \/ exists exception, e = Uncaught exception.
Proof.
  destruct texture as [ | | | | | |members];
    try (intros He; injection He as <-; now left).
  unfold texture_plan.
  destruct (unique_stem_total used_names
              (texture_stem members idx model_name prefix_textures))
    as (r & -> & _).
  destruct (decode_texture_source members bbmodel_dir idx) as [data|d]
    eqn:Hdecode; simpl.
  - destruct (is_animated _ _ _ _) as [animated|a] eqn:Hanimated; simpl;
      [discriminate|].
    intros He. injection He as <-. right.
    exact (is_animated_failure _ _ _ _ _ Hanimated).
  - intros He. injection He as <-. left.
    exact (decode_failure_names_texture _ _ _ _ Hdecode).
Qed.

(** X24. When [build_texture_plans] fails, the failure is the
    textures-not-array failure, an uncaught exception, or a failure that
    names the position of a declared texture. *)
Theorem texture_failures_name_a_texture
    (bbmodel : list (string * json))
    (bbmodel_dir namespace asset variant model_name : string)
    (prefix_textures : bool) (e : error) :
  build_texture_plans bbmodel bbmodel_dir namespace asset variant model_name
    prefix_textures = Err e ->
  e = TexturesNotArray
  \/ (exists exception, e = Uncaught exception)
  \/ exists raw_textures i texture,
       dict_get "textures" bbmodel = JArr raw_textures
       /\ nth_error raw_textures i = Some texture
       /\ error_texture e = Some (Z.of_nat i).
Proof.
  unfold build_texture_plans.
  destruct (dict_get "textures" bbmodel) as [ | | | | |raw_textures|];
    try (intros He; injection He as <-; now left).
  intros Hrun. right.
  assert (Hgen : forall raw idx used,
            texture_plans_from raw idx used bbmodel_dir namespace asset
              variant model_name prefix_textures = Err e ->
            (exists exception, e = Uncaught exception)
            \/ exists i texture,
                 nth_error raw i = Some texture
                 /\ error_texture e = Some (idx + Z.of_nat i)).
  { induction raw as [|texture rest IH]; intros idx used Hfrom;
      [discriminate|].
    simpl in Hfrom.
    destruct (texture_plan texture idx used bbmodel_dir namespace asset
                variant model_name prefix_textures) as [plan|d] eqn:Hplan;
      simpl in Hfrom.
    - destruct (texture_plans_from rest (idx + 1) _ _ _ _ _ _ _)
        as [plans|d] eqn:Hrest; simpl in Hfrom; [discriminate|].
      injection Hfrom as <-.
      destruct (IH _ _ Hrest) as [Hex|(i & t & Hnth & Herr)]; [now left|].
      right. exists (S i), t. split; [exact Hnth|].
      rewrite Herr. f_equal. lia.
    - injection Hfrom as <-.
      destruct (texture_plan_failure _ _ _ _ _ _ _ _ _ _ Hplan)
        as [Herr|Hex]; [|now left].
      right. exists 0%nat, texture. split; [reflexivity|].
      rewrite Herr. f_equal. simpl. lia. }
  destruct (Hgen raw_textures 0 ∅ Hrun) as [Hex|(i & t & Hnth & Herr)];
    [now left|].
  right. exists raw_textures, i, t. split; [reflexivity|].
  split; [exact Hnth|]. now rewrite Herr.
Qed.

Lemma ensure_list_failure (n : nat) (value : json)
    (label elem_name : string) (e : error) :
  ensure_list n value label elem_name = Err e ->
  error_element e = Some elem_name \/ exists exception, e = Uncaught exception.
Proof.
  unfold ensure_list.
  destruct value as [ | | | | |items|];
    try (intros He; injection He as <-; now left).
  destruct (length items =? n)%nat;
    [|intros He; injection He as <-; now left].
  induction items as [|v rest IH]; simpl; [discriminate|].
  destruct (py_float v).
  - destruct (floats_of rest label elem_name) as [fs|d]; simpl;
      [discriminate|]. intros He. injection He as <-. now apply IH.
  - intros He. injection He as <-. now left.
  - intros He. injection He as <-. right. eauto.
Qed.

Lemma float_of_int_failure (n : Z) (e : error) :
  float_of_int n = Err e -> exists exception, e = Uncaught exception.
Proof.
  unfold float_of_int.
  destruct (binary_normalize prec emax n 0 false); try discriminate.
  intros He. injection He as <-. eauto.
Qed.

Lemma number_value_failure (v : json) (r : result float) (e : error) :
  number_value v = Some r -> r = Err e ->
  exists exception, e = Uncaught exception.
Proof.
  destruct v as [ |b|z|f| | |]; simpl; try discriminate;
    intros Hr He; injection Hr as <-; try discriminate.
  exact (float_of_int_failure _ _ He).
Qed.

Lemma convert_rotation_failure (raw_rotation : json)
    (elem : list (string * json)) (elem_name : string) (e : error) :
  convert_rotation raw_rotation elem elem_name = Err e ->
  error_element e = Some elem_name \/ exists exception, e = Uncaught exception.
Proof.
  unfold convert_rotation.
  destruct raw_rotation as [ |b|z|f|s|items|rotation];
    try discriminate; try (intros He; injection He as <-; now left).
  - destruct (ensure_list3 (JArr items) "rotation" elem_name) as [vec|d]
      eqn:Hvec; simpl;
      [|intros He; injection He as <-;
        exact (ensure_list_failure _ _ _ _ _ Hvec)].
    destruct (non_zero_axes vec) as [|[axis angle] [|second rest]];
      try discriminate; [|intros He; injection He as <-; now left].
    destruct (ensure_list3 (dict_get "origin" elem) "origin" elem_name)
      as [origin|d] eqn:Horigin; simpl; [discriminate|].
    intros He. injection He as <-.
    exact (ensure_list_failure _ _ _ _ _ Horigin).
  - destruct (axis_name (dict_get "axis" rotation)) as [axis|];
      [|intros He; injection He as <-; now left].
    destruct (number_value (dict_get "angle" rotation)) as [angle|] eqn:Hangle;
      [|intros He; injection He as <-; now left].
    destruct angle as [a|d] eqn:Ha; simpl.
    + destruct (ensure_list3 (dict_get "origin" rotation) "rotation.origin"
                  elem_name) as [origin|d] eqn:Horigin; simpl;
        [discriminate|].
      intros He. injection He as <-.
      exact (ensure_list_failure _ _ _ _ _ Horigin).
    + intros He. injection He as <-. right.
      exact (number_value_failure _ _ _ Hangle eq_refl).
Qed.

Lemma uv_scale_failure (resolution : Z) (e : error) :
  uv_scale resolution = Err e -> exists exception, e = Uncaught exception.
Proof.
  unfold uv_scale.
  destruct (float_of_int resolution) as [r|d] eqn:Hr; simpl; [discriminate|].
  intros He. injection He as <-. exact (float_of_int_failure _ _ Hr).
Qed.

Lemma convert_face_uv_failure (raw_uv : list float) (width height : Z)
    (e : error) :
  convert_face_uv raw_uv width height = Err e ->
  exists exception, e = Uncaught exception.
Proof.
  unfold convert_face_uv.
  destruct (uv_scale width) as [sw|d] eqn:Hw; simpl;
    [|intros He; injection He as <-; exact (uv_scale_failure _ _ Hw)].
  destruct (uv_scale height) as [sh|d] eqn:Hh; simpl;
    [|intros He; injection He as <-; exact (uv_scale_failure _ _ Hh)].
  unfold float_truediv.
  rewrite (uv_scale_not_zero _ _ Hw), (uv_scale_not_zero _ _ Hh).
  destruct raw_uv as [|u0 [|v0 [|u1 [|v1 [|]]]]]; simpl; try discriminate;
    intros He; injection He as <-; eauto.
Qed.

Lemma convert_face_failure (raw_face : list (string * json))
    (elem_name face_name : string) (texture_plans : list TexturePlan)
    (width height : Z) (e : error) :
  convert_face raw_face elem_name face_name texture_plans width height
  = Err e ->
  error_element e = Some elem_name \/ exists exception, e = Uncaught exception.
Proof.
  unfold convert_face.
  destruct (resolve_texture_index (dict_get "texture" raw_face) elem_name
              face_name) as [tex_index|d] eqn:Hresolve; simpl.
  - destruct (in_texture_lookup tex_index texture_plans);
      [|intros He; injection He as <-; now left].
    destruct (ensure_list4 (dict_get "uv" raw_face) "face uv" elem_name)
      as [raw_uv|d] eqn:Huv; simpl;
      [|intros He; injection He as <-;
        exact (ensure_list_failure _ _ _ _ _ Huv)].
    destruct (convert_face_uv raw_uv width height) as [uv|d] eqn:Hconv; simpl;
      [|intros He; injection He as <-; right;
        exact (convert_face_uv_failure _ _ _ _ Hconv)].
    destruct (number_value (dict_get "rotation" raw_face)) as [value|]
      eqn:Hvalue; simpl; [|discriminate].
    destruct value as [v|d] eqn:Hv; simpl; [discriminate|].
    intros He. injection He as <-. right.
    exact (number_value_failure _ _ _ Hvalue eq_refl).
  - intros He. injection He as <-. left.
    unfold resolve_texture_index in Hresolve.
    destruct (dict_get "texture" raw_face) as [ |b|z|f|s| |];
      try discriminate; try (injection Hresolve as <-; reflexivity).
    + destruct (float_is_integer f); [discriminate|].
      injection Hresolve as <-. reflexivity.
    + destruct (int_of_str s); [discriminate|].
      injection Hresolve as <-. reflexivity.
Qed.

Lemma convert_faces_failure (face_names : list string)
    (raw_faces : list (string * json)) (elem_name : string)
    (texture_plans : list TexturePlan) (width height : Z) (e : error) :
  convert_faces face_names raw_faces elem_name texture_plans width height
  = Err e ->
  error_element e = Some elem_name \/ exists exception, e = Uncaught exception.
Proof.
  induction face_names as [|face_name rest IH]; simpl; [discriminate|].
  destruct (dict_get face_name raw_faces) as [ | | | | | |raw_face]; auto.
  destruct (convert_face raw_face elem_name face_name texture_plans width
              height) as [face|d] eqn:Hface; simpl.
  - destruct (convert_faces rest raw_faces elem_name texture_plans width
                height) as [faces|d]; simpl; [discriminate|].
    intros He. injection He as <-. now apply IH.
  - intros He. injection He as <-.
    exact (convert_face_failure _ _ _ _ _ _ _ Hface).
Qed.

(** X25. A failure raised while an element object is converted is an
    uncaught exception or names that element: by its [name] when that is
    usable, else as [element_<position>]. *)
Theorem element_failures_name_the_element (idx : Z)
    (elem : list (string * json)) (texture_plans : list TexturePlan)
    (width height : Z) (e : error) :
  convert_element idx (JObj elem) texture_plans width height = Err e ->
  (error_element e = Some (element_name idx elem)
   \/ exists exception, e = Uncaught exception)
  /\ (truthy (dict_get "name" elem) = false ->
      element_name idx elem = "element_" ++ pretty idx)
  /\ (forall name,
        dict_get "name" elem = JStr name -> name <> "" ->
        element_name idx elem = name).
Proof.
  intros Hrun. split; [|split].
  - unfold convert_element in Hrun.
    destruct (is_false (dict_get_default "visibility" (JBool true) elem));
      [discriminate|].
    set (elem_name := element_name idx elem) in *.
    destruct (ensure_list3 (dict_get "from" elem) "from" elem_name)
      as [from|d] eqn:Hfrom; cbn [bind] in Hrun;
      [|injection Hrun as <-; exact (ensure_list_failure _ _ _ _ _ Hfrom)].
    destruct (ensure_list3 (dict_get "to" elem) "to" elem_name)
      as [to|d] eqn:Hto; cbn [bind] in Hrun;
      [|injection Hrun as <-; exact (ensure_list_failure _ _ _ _ _ Hto)].
    destruct (convert_rotation (dict_get "rotation" elem) elem elem_name)
      as [rotation|d] eqn:Hrotation; cbn [bind] in Hrun;
      [|injection Hrun as <-;
        exact (convert_rotation_failure _ _ _ _ Hrotation)].
    destruct (dict_get "faces" elem) as [ | | | | | |raw_faces];
      try (injection Hrun as <-; now left).
    destruct (convert_faces VALID_FACES raw_faces elem_name texture_plans
                width height) as [faces|d] eqn:Hfaces; cbn [bind] in Hrun.
    + destruct faces; discriminate.
    + injection Hrun as <-.
      exact (convert_faces_failure _ _ _ _ _ _ _ Hfaces).
  - intros Hname. unfold element_name. now rewrite Hname.
  - intros name Hname Hne. unfold element_name. rewrite Hname.
    change (truthy (JStr name)) with (nonempty name).
    now rewrite (nonempty_true name Hne).
Qed.

End FailureFacts.

Lemma texture_failures_name_a_texture_witness :
  exists e,
    @build_texture_plans (example_host [])
      [("textures", JArr [inline_texture "a"; JObj [("name", JStr "b")]])]
      "/models" "ns" "asset" "default" "model" false = Err e
    /\ error_texture e = Some 1.
Proof.
  destruct (@build_texture_plans (example_host [])
              [("textures", JArr [inline_texture "a"; JObj [("name", JStr "b")]])]
              "/models" "ns" "asset" "default" "model" false)
    as [plans|e] eqn:Hrun; [vm_compute in Hrun; discriminate|].
  exists e. split; [reflexivity|].
  destruct (@texture_failures_name_a_texture (example_host []) _ _ _ _ _ _ _
              _ Hrun) as [->|[(exception & ->)|(raw & i & t & _ & _ & Herr)]];
    try (vm_compute in Hrun; discriminate).
  vm_compute in Hrun. injection Hrun as <-. reflexivity.
Defined.

Lemma element_failures_name_the_element_witness :
  exists e,
    @convert_element (example_host []) 4
      (JObj [("name", JStr "arm"); ("from", ints [0; 0; 0]);
             ("to", ints [1; 1])])
      (numbered_plans 1) 16 16 = Err e
    /\ error_element e = Some "arm".
Proof.
  set (elem := [("name", JStr "arm"); ("from", ints [0; 0; 0]);
                ("to", ints [1; 1])]).
  destruct (@convert_element (example_host []) 4 (JObj elem)
              (numbered_plans 1) 16 16) as [converted|e] eqn:Hrun;
    [vm_compute in Hrun; discriminate|].
  exists e. split; [reflexivity|].
  destruct (@element_failures_name_the_element (example_host []) 4 elem
              (numbered_plans 1) 16 16 e Hrun) as ([Hname|(x & ->)] & _ & Hn).
  - rewrite Hname. reflexivity.
  - vm_compute in Hrun. discriminate.
Defined.

(** The references "2", 2 and 2.0 give the same face. *)
Lemma texture_ref_forms_agree_witness :
  @convert_face (example_host [])
    [("texture", JStr "2"); ("uv", ints [0; 0; 16; 16])] "cube" "north"
    (numbered_plans 3) 16 16
  = @convert_face (example_host [])
      [("texture", JFloat 2%float); ("uv", ints [0; 0; 16; 16])] "cube"
      "north" (numbered_plans 3) 16 16.
Proof.
  destruct (@texture_ref_forms_agree (example_host []) "cube" "north"
              (numbered_plans 3) 16 16) as [Hagree Hforms].
  apply Hagree.
  - intros key Hkey. unfold dict_get. cbn [dict_get_default].
    destruct (String.eqb_spec "texture" key); [congruence|reflexivity].
  - destruct (Hforms 2 2%float "2" eq_refl eq_refl eq_refl)
      as (Hfloat & Hstr & _).
    change (dict_get "texture"
              [("texture", JStr "2"); ("uv", ints [0; 0; 16; 16])])
      with (JStr "2").
    change (dict_get "texture"
              [("texture", JFloat 2%float); ("uv", ints [0; 0; 16; 16])])
      with (JFloat 2%float).
    now rewrite Hfloat, Hstr.
Defined.
